(** * Liquidation-history exporter: a model of [script.js]

    The script reads a form, queries the Coinalyze liquidation-history
    endpoint, flattens the JSON answer ([parseLiquidationData]), renders it
    as CSV ([convertToCSV]) and offers the text as a download
    ([fetchAndDownload]).

    Conventions of the model.
    - A JavaScript value is a [value]: the JSON values [response.json()] can
      produce, [undefined], and arrays that carry extra named properties
      (the flattener assigns [symbol] and [timestamp_iso] to whatever a
      history item is; the arrays the script iterates with [forEach],
      [every] and [map] have none that hides the method).
      Objects list their own properties in the order [Object.keys] reports.
      Since the values are JSON trees, no two history items are the same
      object, and in-place mutation is written as a functional update.
    - Numbers are the finite doubles and the two infinities: an integer is
      [VNum], any other finite number is an odd numerator over a power of
      two ([VFrac]). [String] of a number is Number::toString of ECMA-262.
    - A property read goes to the own property first and then through the
      prototype chain of the built-in prototypes ([member]). The names the
      script reads by name ([symbol], [history], [t], [error], [length],
      [0]) are on none of the prototypes, and those reads are written as
      own reads ([get], [own_get]).
    - [String] of an object calls its [toString]; a JSON object that has a
      [toString] property of its own has no callable one, and the call
      throws.
    - The script is a classic (sloppy-mode) script: assigning a property on
      a primitive is silently ignored, on [null]/[undefined] it throws.
    - What the host decides (the legacy date-string heuristics, the local
      time zone) is a [host] record passed explicitly. *)

From Stdlib Require Import ZArith List String Ascii Bool Lia Arith.
From Stdlib Require Import DecimalString Decimal.
Import ListNotations.

Local Open Scope string_scope.
Local Open Scope Z_scope.

(* ================================================================== *)
(** * Completions: values or thrown exceptions *)

Inductive exn : Type :=
| TypeError
| RangeError
| Error (message : string).

Inductive result (A : Type) : Type :=
| Ok (a : A)
| Throw (e : exn).

Arguments Ok {A} a.
Arguments Throw {A} e.

Definition bind {A B : Type} (r : result A) (k : A -> result B) : result B :=
  match r with
  | Ok a => k a
  | Throw e => Throw e
  end.

Declare Scope js_scope.
Delimit Scope js_scope with js.
Notation "x <- c ;; k" := (bind c (fun x => k))
  (at level 61, c at next level, right associativity) : js_scope.

Fixpoint mapM {A B : Type} (f : A -> result B) (l : list A) : result (list B) :=
  match l with
  | [] => Ok []
  | x :: xs =>
      (y <- f x ;; ys <- mapM f xs ;; Ok (y :: ys))%js
  end.

(* ================================================================== *)
(** * Strings *)

Definition comma : ascii := ","%char.
Definition dquote : ascii := "034"%char.
Definition newline : ascii := "010"%char.

(** [s.startsWith(p)] *)
Fixpoint starts_with (p s : string) : bool :=
  match p with
  | EmptyString => true
  | String a p' =>
      match s with
      | EmptyString => false
      | String b s' => Ascii.eqb a b && starts_with p' s'
      end
  end.

(** [s.includes(sub)] *)
Fixpoint includes (s sub : string) : bool :=
  starts_with sub s
  || match s with
     | EmptyString => false
     | String _ s' => includes s' sub
     end.

(** [s.replace(/c/g, by)] for a one-character pattern *)
Fixpoint replace_all (c : ascii) (by_ : string) (s : string) : string :=
  match s with
  | EmptyString => EmptyString
  | String a s' =>
      (if Ascii.eqb a c then by_ else String a EmptyString) ++ replace_all c by_ s'
  end.

(** [l.join(sep)] on an array of strings *)
Definition join (sep : string) (l : list string) : string := String.concat sep l.

Definition string_of_nat (n : nat) : string := NilZero.string_of_uint (Nat.to_uint n).
Definition string_of_Z (z : Z) : string := NilZero.string_of_int (Z.to_int z).

(** A canonical array index: the decimal rendering of a natural number. *)
Definition index_of_string (k : string) : option nat :=
  match NilZero.uint_of_string k with
  | Some u => let n := Nat.of_uint u in
              if String.eqb (string_of_nat n) k then Some n else None
  | None => None
  end.

(* ================================================================== *)
(** * Dates

    Time values are milliseconds since the epoch; [None] is the invalid
    date (NaN). *)

Definition msPerDay : Z := 86400000.
Definition maxTime : Z := 8640000000000000.

(** Days since 1970-01-01 of the civil date [y]-[m]-[d] (proleptic
    Gregorian), [m] in 1..12. *)
Definition days_from_civil (y m d : Z) : Z :=
  let y' := if m <=? 2 then y - 1 else y in
  let era := y' / 400 in
  let yoe := y' - era * 400 in
  let mp := if m >? 2 then m - 3 else m + 9 in
  let doy := (153 * mp + 2) / 5 + d - 1 in
  let doe := yoe * 365 + yoe / 4 - yoe / 100 + doy in
  era * 146097 + doe - 719468.

(** The civil date of a day number: [YearFromTime], [MonthFromTime] (1-based)
    and [DateFromTime] at once. *)
Definition civil_from_days (z : Z) : Z * Z * Z :=
  let z' := z + 719468 in
  let era := z' / 146097 in
  let doe := z' - era * 146097 in
  let yoe := (doe - doe / 1460 + doe / 36524 - doe / 146096) / 365 in
  let doy := doe - (365 * yoe + yoe / 4 - yoe / 100) in
  let mp := (5 * doy + 2) / 153 in
  let d := doy - (153 * mp + 2) / 5 + 1 in
  let m := if mp <? 10 then mp + 3 else mp - 9 in
  ((if m <=? 2 then yoe + era * 400 + 1 else yoe + era * 400), m, d).

Definition digit_char (d : Z) : ascii := ascii_of_nat (48 + Z.to_nat d).

Definition digit_val (c : ascii) : option Z :=
  let n := Z.of_nat (nat_of_ascii c) in
  if (48 <=? n) && (n <=? 57) then Some (n - 48) else None.

(** [n] written with exactly [k] decimal digits (zero padded). *)
Fixpoint pad_digits (k : nat) (n : Z) : string :=
  match k with
  | O => EmptyString
  | S k' => pad_digits k' (n / 10) ++ String (digit_char (n mod 10)) EmptyString
  end.

(** [TimeClip] on an integral time value. *)
Definition TimeClip (t : Z) : option Z :=
  if Z.abs t <=? maxTime then Some t else None.

(** The year of the format: four digits, or a sign and six digits outside
    0..9999. *)
Definition iso_year (y : Z) : string :=
  if (0 <=? y) && (y <=? 9999) then pad_digits 4 y
  else String (if y <? 0 then "-"%char else "+"%char) (pad_digits 6 (Z.abs y)).

(** [YYYY-MM-DD] *)
Definition iso_date (y m d : Z) : string :=
  iso_year y ++ "-" ++ pad_digits 2 m ++ "-" ++ pad_digits 2 d.

(** [HH:mm:ss.sss] of a time within the day *)
Definition iso_time (tod : Z) : string :=
  pad_digits 2 (tod / 3600000) ++ ":"
  ++ pad_digits 2 (tod / 60000 mod 60) ++ ":"
  ++ pad_digits 2 (tod / 1000 mod 60) ++ "."
  ++ pad_digits 3 (tod mod 1000).

(** [Date.prototype.toISOString]: [YYYY-MM-DDTHH:mm:ss.sssZ]; a
    [RangeError] on the invalid date. *)
Definition format_iso (t : Z) : string :=
  let '(y, m, d) := civil_from_days (t / msPerDay) in
  iso_date y m d ++ "T" ++ iso_time (t mod msPerDay) ++ "Z".

Definition toISOString (tv : option Z) : result string :=
  match tv with
  | Some t => Ok (format_iso t)
  | None => Throw RangeError
  end.

(** ** The Date Time String Format

    [YYYY[-MM[-DD]]] or [+-YYYYYY...], optionally followed by
    [THH:mm[:ss[.sss]]] and [Z] or [+-HH:mm]. *)

Fixpoint read_digits (k : nat) (acc : Z) (s : string) : option (Z * string) :=
  match k with
  | O => Some (acc, s)
  | S k' =>
      match s with
      | String c s' =>
          match digit_val c with
          | Some d => read_digits k' (10 * acc + d) s'
          | None => None
          end
      | EmptyString => None
      end
  end.

Definition read_year (s : string) : option (Z * string) :=
  match s with
  | String "+" s' => read_digits 6 0 s'
  | String "-" s' =>
      match read_digits 6 0 s' with
      | Some (y, r) => if y =? 0 then None else Some (- y, r)
      | None => None
      end
  | _ => read_digits 4 0 s
  end.

(** Reads two digits when the input goes on with [sep]; [dflt] otherwise. *)
Definition read_opt2 (sep : ascii) (dflt : Z) (s : string) : option (Z * string) :=
  match s with
  | String c s' => if Ascii.eqb c sep then read_digits 2 0 s' else Some (dflt, s)
  | EmptyString => Some (dflt, s)
  end.

Definition read_date (s : string) : option (Z * Z * Z * string) :=
  match read_year s with
  | Some (y, r1) =>
      match read_opt2 "-" 1 r1 with
      | Some (m, r2) =>
          match read_opt2 "-" 1 r2 with
          | Some (d, r3) => Some (y, m, d, r3)
          | None => None
          end
      | None => None
      end
  | None => None
  end.

Definition read_millis (s : string) : option (Z * string) :=
  match s with
  | String "." s' => read_digits 3 0 s'
  | _ => Some (0, s)
  end.

(** The time-zone designator: [None] is local time, [Some off] an offset
    from UTC in milliseconds. *)
Definition read_zone (s : string) : option (option Z) :=
  match s with
  | EmptyString => Some None
  | String "Z" EmptyString => Some (Some 0)
  | String sg s' =>
      if Ascii.eqb sg "+" || Ascii.eqb sg "-" then
        match read_digits 2 0 s' with
        | Some (hh, String ":" r) =>
            match read_digits 2 0 r with
            | Some (mm, EmptyString) =>
                if (hh <=? 23) && (mm <=? 59) then
                  let off := hh * 3600000 + mm * 60000 in
                  Some (Some (if Ascii.eqb sg "-" then - off else off))
                else None
            | _ => None
            end
        | _ => None
        end
      else None
  end.

(** The time of day in milliseconds and the zone. *)
Definition read_time (s : string) : option (Z * option Z) :=
  match read_digits 2 0 s with
  | Some (hh, String ":" r1) =>
      match read_digits 2 0 r1 with
      | Some (mi, r2) =>
          match read_opt2 ":" 0 r2 with
          | Some (ss, r3) =>
              match read_millis r3 with
              | Some (ms, r4) =>
                  match read_zone r4 with
                  | Some zone =>
                      if (hh <=? 24) && (mi <=? 59) && (ss <=? 59)
                         && ((hh <? 24) || ((mi =? 0) && (ss =? 0) && (ms =? 0)))
                      then Some (hh * 3600000 + mi * 60000 + ss * 1000 + ms, zone)
                      else None
                  | None => None
                  end
              | None => None
              end
          | None => None
          end
      | None => None
      end
  | _ => None
  end.

(** What the host supplies: the fallback heuristics of [Date.parse] for
    strings outside the format, and the offset of local time from UTC (in
    milliseconds) at a local time value. *)
Record host : Type := {
  legacy_parse : string -> option Z;
  LocalTZA : Z -> Z
}.

(** A string in the Date Time String Format: [Some tv] with [tv] its time
    value ([None] when out of range or an illegal element value);
    the outer [None] when the string is not in the format. *)
Definition parse_format (h : host) (s : string) : option (option Z) :=
  match read_date s with
  | Some (y, m, d, r) =>
      let legal := (1 <=? m) && (m <=? 12) && (1 <=? d) && (d <=? 31) in
      let day := days_from_civil y m 1 + d - 1 in
      match r with
      | EmptyString =>
          Some (if legal then TimeClip (day * msPerDay) else None)
      | String "T" r' =>
          match read_time r' with
          | Some (tod, zone) =>
              let t := day * msPerDay + tod in
              Some (if legal then
                      match zone with
                      | Some off => TimeClip (t - off)
                      | None => TimeClip (t - LocalTZA h t)
                      end
                    else None)
          | None => None
          end
      | _ => None
      end
  | None => None
  end.

(** [Date.parse] *)
Definition Date_parse (h : host) (s : string) : option Z :=
  match parse_format h s with
  | Some tv => tv
  | None => legacy_parse h s
  end.


(* ================================================================== *)
(** * Number::toString

    The text of a finite number other than zero, given as [m / 2^e] with
    [e >= 0]: the shortest decimal digits [s] (there are [k] of them) and
    the position [n] of the decimal point such that [s * 10^(n-k)] is
    read back as the same double, the closest to the number when several
    strings are as short; then the plain or the exponent form. *)

(** The [n] with [10^(n-1) <= a/b < 10^n], for positive [a] and [b]. *)
Fixpoint magnitude_up (fuel : nat) (a b n : Z) : Z :=
  match fuel with
  | O => n
  | S fuel' => if a <? 10 * b then n else magnitude_up fuel' a (10 * b) (n + 1)
  end.

Fixpoint magnitude_down (fuel : nat) (a b n : Z) : Z :=
  match fuel with
  | O => n
  | S fuel' => if b <=? 10 * a then n else magnitude_down fuel' (10 * a) b (n - 1)
  end.

Definition magnitude (a b : Z) : Z :=
  if b <=? a then magnitude_up 400 a b 1 else magnitude_down 400 a b 0.

(** [x] lies in the interval of the reals that round to the double: the
    ends belong to it when the double's significand is even. *)
Definition within (closed : bool) (lo x hi : Z) : bool :=
  if closed then (lo <=? x) && (x <=? hi) else (lo <? x) && (x <? hi).

(** The [k]-digit candidate for the number [V / 2^q] whose rounding
    interval is [LO / 2^q .. HI / 2^q]: of the two multiples of
    [10^(n-k)] around the number, the one in the interval (the closer one,
    the even one on a tie). *)
Definition candidate (V LO HI q : Z) (closed : bool) (n k : Z) : option Z :=
  let p := n - k in
  let A := if p <? 0 then 10 ^ (- p) else 1 in
  let D := (if p <? 0 then 1 else 10 ^ p) * 2 ^ q in
  let sf := (V * A) / D in
  let sc := sf + 1 in
  let okf := within closed (LO * A) (sf * D) (HI * A) in
  let okc := within closed (LO * A) (sc * D) (HI * A) in
  let df := V * A - sf * D in
  let dc := sc * D - V * A in
  if okf && okc then
    Some (if df <? dc then sf else if dc <? df then sc
          else if Z.even sf then sf else sc)
  else if okf then Some sf
  else if okc then Some sc
  else None.

(** The least [k] that has a candidate, from [k] on; seventeen digits
    always identify a double. *)
Fixpoint shortest (fuel : nat) (V LO HI q : Z) (closed : bool) (n k : Z) : Z * Z :=
  match fuel with
  | O => ((V * (if n - k <? 0 then 10 ^ (k - n) else 1))
          / ((if n - k <? 0 then 1 else 10 ^ (n - k)) * 2 ^ q), k)
  | S fuel' =>
      match candidate V LO HI q closed n k with
      | Some s => (s, k)
      | None => shortest fuel' V LO HI q closed n (k + 1)
      end
  end.

Definition zeros (n : Z) : string := pad_digits (Z.to_nat n) 0.

(** The digits [s] with the decimal point at [n]: plain up to 21 integer
    digits and down to six zeros after the point, the exponent form
    otherwise. *)
Definition number_form (s k n : Z) : string :=
  let d := string_of_Z s in
  if (k <=? n) && (n <=? 21) then d ++ zeros (n - k)
  else if (0 <? n) && (n <=? 21)
       then substring 0 (Z.to_nat n) d ++ "."
            ++ substring (Z.to_nat n) (Z.to_nat (k - n)) d
  else if (-6 <? n) && (n <=? 0) then "0." ++ zeros (- n) ++ d
  else
    let e := n - 1 in
    let expo := (if e <? 0 then "-" else "+") ++ string_of_Z (Z.abs e) in
    if k =? 1 then d ++ "e" ++ expo
    else substring 0 1 d ++ "." ++ substring 1 (Z.to_nat (k - 1)) d ++ "e" ++ expo.

(** [E] is the exponent of the double's unit in the last place; the
    interval reaches half a unit up, and half a unit down except below a
    power of two, where the doubles are twice as dense. *)
Definition positive_number_text (m e : Z) : string :=
  let L := Z.log2 m - e in
  let E := Z.max (L - 52) (-1074) in
  let q := Z.max e (2 - E) in
  let V := m * 2 ^ (q - e) in
  let up := 2 ^ (E - 1 + q) in
  let low := if (m =? 2 ^ Z.log2 m) && (-1074 <? E) then 2 ^ (E - 2 + q) else up in
  let closed := Z.even (V / 2 ^ (E + q)) in
  let n := magnitude V (2 ^ q) in
  let '(s, k) := shortest 17 V (V - low) (V + up) q closed n 1 in
  if s =? 10 ^ k then number_form 1 1 (n + 1) else number_form s k n.

Definition number_text (m e : Z) : string :=
  if m =? 0 then "0"
  else if m <? 0 then "-" ++ positive_number_text (- m) e
  else positive_number_text m e.

(** An integer up to [2^53] in magnitude is written with all its digits. *)
Definition integer_text (n : Z) : string :=
  if Z.abs n <=? 9007199254740992 then string_of_Z n else number_text n 0.

(* ================================================================== *)
(** * Values

    [VNum n] is the number [n], an integer (zero stands for both zeros,
    which the script cannot tell apart); [VFrac half e] is the number
    [(2 * half + 1) / 2^e], so that every finite number that is not an
    integer is a [VFrac] in one way only; [VInfinity] is what a JSON
    literal beyond the range of the doubles is read as. An array holds
    its items and the named properties assigned to it, in the order of
    assignment. *)

#[warnings="-register-all"] Inductive value : Type :=
| VUndefined
| VNull
| VBool (b : bool)
| VNum (n : Z)
| VStr (s : string)
| VArr (items : list value) (extra : list (string * value))
| VObj (props : list (string * value))
| VFrac (half : Z) (e : positive)
| VInfinity (negative : bool).

Definition props := list (string * value).

(** [!!v] *)
Definition truthy (v : value) : bool :=
  match v with
  | VUndefined | VNull => false
  | VBool b => b
  | VNum n => negb (n =? 0)
  | VStr s => negb (String.eqb s "")
  | VArr _ _ | VObj _ => true
  | VFrac _ _ | VInfinity _ => true
  end.

(** [v === null || v === undefined] *)
Definition nullish (v : value) : bool :=
  match v with
  | VUndefined | VNull => true
  | _ => false
  end.

(** [Array.isArray(v)] *)
Definition isArray (v : value) : bool :=
  match v with
  | VArr _ _ => true
  | _ => false
  end.

Fixpoint lookup (k : string) (ps : props) : option value :=
  match ps with
  | [] => None
  | (k', v) :: ps' => if String.eqb k' k then Some v else lookup k ps'
  end.

Definition or_undefined (o : option value) : value :=
  match o with
  | Some v => v
  | None => VUndefined
  end.

Fixpoint string_nth (n : nat) (s : string) : option ascii :=
  match s with
  | EmptyString => None
  | String c s' => match n with O => Some c | S n' => string_nth n' s' end
  end.

(** The own property [k] of a value that is not [null] or [undefined],
    [undefined] when there is none. Arrays and strings answer [length]
    and their indices. *)
Definition own_get (v : value) (k : string) : value :=
  match v with
  | VObj ps => or_undefined (lookup k ps)
  | VArr items extra =>
      if String.eqb k "length" then VNum (Z.of_nat (List.length items))
      else match index_of_string k with
           | Some i => nth i items VUndefined
           | None => or_undefined (lookup k extra)
           end
  | VStr s =>
      if String.eqb k "length" then VNum (Z.of_nat (String.length s))
      else match index_of_string k with
           | Some i =>
               match string_nth i s with
               | Some c => VStr (String c EmptyString)
               | None => VUndefined
               end
           | None => VUndefined
           end
  | _ => VUndefined
  end.

(** [v.k] for one of the names the script reads by name, none of which
    is inherited: the own property; a [TypeError] on [null] and
    [undefined]. *)
Definition get (v : value) (k : string) : result value :=
  if nullish v then Throw TypeError else Ok (own_get v k).

(** The property list after [o[k] = x]: an existing property keeps its
    place, a new one goes last. *)
Fixpoint upsert (k : string) (x : value) (ps : props) : props :=
  match ps with
  | [] => [(k, x)]
  | (k', v) :: ps' =>
      if String.eqb k' k then (k', x) :: ps' else (k', v) :: upsert k x ps'
  end.

(** [v[k] = x] for a name [k] that is neither an array index nor [length]
    (the script assigns [symbol] and [timestamp_iso] only). On a primitive
    the assignment is ignored; on [null] and [undefined] it throws. *)
Definition set (v : value) (k : string) (x : value) : result value :=
  match v with
  | VUndefined | VNull => Throw TypeError
  | VObj ps => Ok (VObj (upsert k x ps))
  | VArr items extra => Ok (VArr items (upsert k x extra))
  | _ => Ok v
  end.

Definition indices (n : nat) : list string := map string_of_nat (seq 0 n).

(** [Object.keys(v)] *)
Definition Object_keys (v : value) : result (list string) :=
  match v with
  | VUndefined | VNull => Throw TypeError
  | VObj ps => Ok (map fst ps)
  | VArr items extra => Ok (indices (List.length items) ++ map fst extra)%list
  | VStr s => Ok (indices (String.length s))
  | _ => Ok []
  end.

Definition has_key (k : string) (ps : props) : bool :=
  match lookup k ps with
  | Some _ => true
  | None => false
  end.

(** ** Members inherited from the built-in prototypes

    The script turns what it reads from a row into a string and does
    nothing else with it, so a built-in (a method, a constructor, the
    prototype object behind [__proto__]) is given by its text under
    [String]. A built-in function is written as V8 and JavaScriptCore
    write it; the members are those of ECMAScript 2024 with its Annex B. *)

Definition native (name : string) : string :=
  "function " ++ name ++ "() { [native code] }".

Definition Object_prototype : list string :=
  ["__defineGetter__"; "__defineSetter__"; "__lookupGetter__"; "__lookupSetter__";
   "hasOwnProperty"; "isPrototypeOf"; "propertyIsEnumerable"; "toLocaleString";
   "toString"; "valueOf"].

Definition Array_prototype : list string :=
  ["at"; "concat"; "copyWithin"; "entries"; "every"; "fill"; "filter"; "find";
   "findIndex"; "findLast"; "findLastIndex"; "flat"; "flatMap"; "forEach";
   "includes"; "indexOf"; "join"; "keys"; "lastIndexOf"; "map"; "pop"; "push";
   "reduce"; "reduceRight"; "reverse"; "shift"; "slice"; "some"; "sort"; "splice";
   "toLocaleString"; "toReversed"; "toSorted"; "toSpliced"; "toString"; "unshift";
   "values"; "with"].

Definition String_prototype : list string :=
  ["anchor"; "at"; "big"; "blink"; "bold"; "charAt"; "charCodeAt"; "codePointAt";
   "concat"; "endsWith"; "fixed"; "fontcolor"; "fontsize"; "includes"; "indexOf";
   "isWellFormed"; "italics"; "lastIndexOf"; "link"; "localeCompare"; "match";
   "matchAll"; "normalize"; "padEnd"; "padStart"; "repeat"; "replace"; "replaceAll";
   "search"; "slice"; "small"; "split"; "startsWith"; "strike"; "sub"; "substr";
   "substring"; "sup"; "toLocaleLowerCase"; "toLocaleUpperCase"; "toLowerCase";
   "toString"; "toUpperCase"; "toWellFormed"; "trim"; "trimEnd"; "trimStart";
   "valueOf"].

Definition Number_prototype : list string :=
  ["toExponential"; "toFixed"; "toLocaleString"; "toPrecision"; "toString"; "valueOf"].

Definition Boolean_prototype : list string := ["toString"; "valueOf"].

Definition or_else {A : Type} (o1 o2 : option A) : option A :=
  match o1 with
  | Some _ => o1
  | None => o2
  end.

(** The member [k] of a prototype with the given constructor and methods. *)
Definition from_prototype (constructor_name : string) (methods : list string)
    (k : string) : option string :=
  if String.eqb k "constructor" then Some (native constructor_name)
  else if existsb (String.eqb k) methods then Some (native k)
  else None.

(** The member [k] of [Object.prototype]; [__proto__] answers the
    prototype of the value read, whose text is [proto_text]. *)
Definition from_Object_prototype (proto_text : string) (k : string) : option string :=
  if String.eqb k "__proto__" then Some proto_text
  else from_prototype "Object" Object_prototype k.

(** [trimLeft] and [trimRight] are the functions [trimStart] and [trimEnd]. *)
Definition String_alias (k : string) : option string :=
  if String.eqb k "trimLeft" then Some (native "trimStart")
  else if String.eqb k "trimRight" then Some (native "trimEnd")
  else None.

(** What the prototype chain of [v] answers for [k], as text. *)
Definition inherited (v : value) (k : string) : option string :=
  match v with
  | VUndefined | VNull => None
  | VObj _ => from_Object_prototype "[object Object]" k
  | VArr _ _ =>
      or_else (from_prototype "Array" Array_prototype k) (from_Object_prototype "" k)
  | VStr _ =>
      or_else (or_else (String_alias k) (from_prototype "String" String_prototype k))
              (from_Object_prototype "" k)
  | VNum _ | VFrac _ _ | VInfinity _ =>
      or_else (from_prototype "Number" Number_prototype k) (from_Object_prototype "0" k)
  | VBool _ =>
      or_else (from_prototype "Boolean" Boolean_prototype k)
              (from_Object_prototype "false" k)
  end.

(** [k] is an own property of [v]. *)
Definition has_own (v : value) (k : string) : bool :=
  match v with
  | VObj ps => has_key k ps
  | VArr items extra =>
      String.eqb k "length"
      || match index_of_string k with
         | Some i => (i <? List.length items)%nat
         | None => has_key k extra
         end
  | VStr s =>
      String.eqb k "length"
      || match index_of_string k with
         | Some i => (i <? String.length s)%nat
         | None => false
         end
  | _ => false
  end.

(** What a property read gives: a value of the data, or a built-in. *)
Inductive got : Type :=
| Data (v : value)
| Builtin (text : string).

(** [v[k]] for any name [k]: the own property, else the inherited member,
    else [undefined]; a [TypeError] on [null] and [undefined]. *)
Definition member (v : value) (k : string) : result got :=
  if nullish v then Throw TypeError
  else if has_own v k then Ok (Data (own_get v k))
  else match inherited v k with
       | Some text => Ok (Builtin text)
       | None => Ok (Data VUndefined)
       end.

(** [String(v)]. An object or array with a [toString] of its own (which a
    JSON value cannot call) has no primitive value: [TypeError]. An array
    is joined by [Array.prototype.toString], unless a [join] of its own
    hides the method. *)
Fixpoint ToString (v : value) : result string :=
  match v with
  | VUndefined => Ok "undefined"
  | VNull => Ok "null"
  | VBool true => Ok "true"
  | VBool false => Ok "false"
  | VNum n => Ok (integer_text n)
  | VFrac half e => Ok (number_text (2 * half + 1) (Z.pos e))
  | VInfinity negative => Ok (if negative then "-Infinity" else "Infinity")
  | VStr s => Ok s
  | VArr items extra =>
      if has_key "toString" extra then Throw TypeError
      else if has_key "join" extra then Ok "[object Array]"
      else
        match
          (fix each (l : list value) : result (list string) :=
             match l with
             | [] => Ok []
             | x :: l' =>
                 match (if nullish x then Ok "" else ToString x) with
                 | Ok s =>
                     match each l' with
                     | Ok ss => Ok (s :: ss)
                     | Throw e => Throw e
                     end
                 | Throw e => Throw e
                 end
             end) items
        with
        | Ok strs => Ok (join "," strs)
        | Throw e => Throw e
        end
  | VObj ps => if has_key "toString" ps then Throw TypeError else Ok "[object Object]"
  end.

(** [new Date(v).getTime()] for one argument: a string (or an object,
    through its primitive value, a string) is parsed, anything else is
    taken as a number of milliseconds. *)
Definition new_Date (h : host) (v : value) : result (option Z) :=
  match v with
  | VUndefined => Ok None
  | VNull => Ok (TimeClip 0)
  | VBool b => Ok (TimeClip (if b then 1 else 0))
  | VNum n => Ok (TimeClip n)
  | VFrac half e =>
      Ok (if Z.abs (2 * half + 1) <=? maxTime * 2 ^ Z.pos e
          then Some (Z.quot (2 * half + 1) (2 ^ Z.pos e)) else None)
  | VInfinity _ => Ok None
  | VStr s => Ok (Date_parse h s)
  | VArr _ _ | VObj _ =>
      match ToString v with
      | Ok s => Ok (Date_parse h s)
      | Throw x => Throw x
      end
  end.

(* ================================================================== *)
(** * What the script does to the page

    The events of a run, in the order they happen. *)

Inductive event : Type :=
| SetDisabled (b : bool)
| Status (message type : string)
| ConsoleError
| ConsoleWarn
| Download (filename csv : string)
| Alert (message : string).

(* ================================================================== *)
(** * parseLiquidationData *)

Local Open Scope js_scope.

(** The body of the inner [forEach]: stamps [symbol] and, when [entry.t]
    is truthy, [timestamp_iso] on the history item. *)
Definition stamp (h : host) (symbol entry : value) : result value :=
  e1 <- set entry "symbol" symbol ;;
  t <- get e1 "t" ;;
  if truthy t then
    tv <- new_Date h t ;;
    iso <- toISOString tv ;;
    set e1 "timestamp_iso" (VStr iso)
  else Ok e1.

(** [symbolData.history.forEach(entry => { ...; allData.push(entry) })] *)
Fixpoint forEach_history (h : host) (symbol : value) (history : list value)
    (allData : list value) : result (list value) :=
  match history with
  | [] => Ok allData
  | entry :: rest =>
      r <- stamp h symbol entry ;;
      forEach_history h symbol rest (allData ++ [r])
  end.

Definition items_of (v : value) : list value :=
  match v with
  | VArr items _ => items
  | _ => []
  end.

(** The guard of the outer loop: the entry is kept when it is truthy, has
    a truthy [symbol] and an array [history]. *)
Definition well_shaped (symbolData : value) : bool :=
  truthy symbolData
  && truthy (own_get symbolData "symbol")
  && isArray (own_get symbolData "history").

(** [data.forEach(symbolData => ...)] *)
Fixpoint forEach_data (h : host) (data : list value) (allData : list value)
    : result (list value) :=
  match data with
  | [] => Ok allData
  | symbolData :: rest =>
      if negb (well_shaped symbolData) then forEach_data h rest allData
      else
        let symbol := own_get symbolData "symbol" in
        allData' <- forEach_history h symbol
                      (items_of (own_get symbolData "history")) allData ;;
        forEach_data h rest allData'
  end.

Definition parseLiquidationData (h : host) (data : value) : result (list value) :=
  if negb (truthy data) || negb (isArray data) then Ok []
  else forEach_data h (items_of data) [].

(** What the outer loop writes to the console: a warning for every entry
    it skips, until an entry makes the call throw. *)
Fixpoint forEach_data_console (h : host) (data : list value) : list event :=
  match data with
  | [] => []
  | symbolData :: rest =>
      if negb (well_shaped symbolData) then ConsoleWarn :: forEach_data_console h rest
      else
        match forEach_history h (own_get symbolData "symbol")
                (items_of (own_get symbolData "history")) [] with
        | Ok _ => forEach_data_console h rest
        | Throw _ => []
        end
  end.

(** The console lines of a call of [parseLiquidationData]: an error for an
    input that is not an array, the warnings of the loop otherwise. *)
Definition parseLiquidationData_console (h : host) (data : value) : list event :=
  if negb (truthy data) || negb (isArray data) then [ConsoleError]
  else forEach_data_console h (items_of data).

(* ================================================================== *)
(** * convertToCSV *)

(** [['symbol', 'timestamp_iso', ...headers.filter(h => h !== 'symbol' && h !== 'timestamp_iso')]] *)
Definition orderedHeaders (headers : list string) : list string :=
  "symbol" :: "timestamp_iso"
  :: filter (fun hd => negb (String.eqb hd "symbol")
                       && negb (String.eqb hd "timestamp_iso")) headers.

(** [String(cell)], where [cell] is what [row[header]] gave with [null]
    and [undefined] replaced by the empty string. *)
Definition cell_string (x : got) : result string :=
  match x with
  | Data v => ToString (if nullish v then VStr "" else v)
  | Builtin text => Ok text
  end.

(** The quoting step on the cell's string. *)
Definition quote_cell (cellString : string) : string :=
  if includes cellString "," || includes cellString (String newline "")
     || includes cellString (String dquote "")
  then String dquote "" ++ replace_all dquote (String dquote (String dquote "")) cellString
       ++ String dquote ""
  else cellString.

(** [orderedHeaders.map(header => ...).join(',')] for one row *)
Definition render_row (headers : list string) (row : value) : result string :=
  cells <- mapM (fun header =>
                   x <- member row header ;;
                   cellString <- cell_string x ;;
                   Ok (quote_cell cellString)) headers ;;
  Ok (join "," cells).

Definition convertToCSV (dataArray : value) : result string :=
  if negb (truthy dataArray)
  then Ok ""
  else
    match own_get dataArray "length" with
    | VNum 0 => Ok ""
    | _ =>
        headers <- Object_keys (own_get dataArray "0") ;;
        let ordered := orderedHeaders headers in
        let headerString := join "," ordered in
        match dataArray with
        | VArr items _ =>
            rows <- mapM (render_row ordered) items ;;
            Ok (join (String newline "") (headerString :: rows))
        | _ => Throw TypeError
        end
    end.

(* ================================================================== *)
(** * The page and fetchAndDownload

    The page state is the fetch button's [disabled] flag and the single
    status slot, together with the chronological trace of the events.
    Statements complete normally, by [return], or by a throw; only
    executions in which the awaited promises settle are described. *)

Record ui : Type := {
  disabled : bool;
  status : option (string * string);
  trace : list event
}.

Inductive completion (A : Type) : Type :=
| Normal (a : A)
| Returned
| Thrown (e : exn).

Arguments Normal {A} a.
Arguments Returned {A}.
Arguments Thrown {A} e.

Definition io (A : Type) : Type := ui -> completion A * ui.

Definition io_ret {A : Type} (a : A) : io A := fun s => (Normal a, s).

Definition io_bind {A B : Type} (c : io A) (k : A -> io B) : io B :=
  fun s =>
    match c s with
    | (Normal a, s') => k a s'
    | (Returned, s') => (Returned, s')
    | (Thrown e, s') => (Thrown e, s')
    end.

Declare Scope io_scope.
Delimit Scope io_scope with io.
Notation "x <~ c ;; k" := (io_bind c (fun x => k))
  (at level 61, c at next level, right associativity) : io_scope.
Notation "c ;;; k" := (io_bind c (fun _ => k))
  (at level 61, right associativity) : io_scope.

(** [return;] *)
Definition io_return {A : Type} : io A := fun s => (Returned, s).

(** [throw e] *)
Definition io_throw {A : Type} (e : exn) : io A := fun s => (Thrown e, s).

(** A pure computation that may throw. *)
Definition lift {A : Type} (r : result A) : io A :=
  fun s => match r with
           | Ok a => (Normal a, s)
           | Throw e => (Thrown e, s)
           end.

(** [try { body } catch (e) { handler e }] *)
Definition try_catch {A : Type} (body : io A) (handler : exn -> io A) : io A :=
  fun s =>
    match body s with
    | (Thrown e, s') => handler e s'
    | r => r
    end.

(** [try { body } finally { fin }]: [fin] runs however [body] completes;
    an abrupt completion of [fin] replaces that of [body]. *)
Definition try_finally {A : Type} (body : io A) (fin : io unit) : io A :=
  fun s =>
    match body s with
    | (c, s') =>
        match fin s' with
        | (Normal _, s'') => (c, s'')
        | (Returned, s'') => (Returned, s'')
        | (Thrown e, s'') => (Thrown e, s'')
        end
    end.

Definition emit (e : event) (s : ui) : ui :=
  {| disabled := disabled s; status := status s; trace := (trace s ++ [e])%list |}.

(** [fetchButton.disabled = b] *)
Definition set_disabled (b : bool) : io unit :=
  fun s => (Normal tt,
            emit (SetDisabled b)
              {| disabled := b; status := status s; trace := trace s |}).

(** [updateStatus(message, type)]: the slot is overwritten. *)
Definition updateStatus (message type : string) : io unit :=
  fun s => (Normal tt,
            emit (Status message type)
              {| disabled := disabled s; status := Some (message, type);
                 trace := trace s |}).

Definition console_error : io unit := fun s => (Normal tt, emit ConsoleError s).

(** The console lines a callee writes. *)
Definition console (lines : list event) : io unit :=
  fun s => (Normal tt, fold_left (fun s' line => emit line s') lines s).

Record response : Type := {
  ok : bool;
  status_code : Z;
  statusText : string;
  json : result value          (* how [response.json()] settles *)
}.

(** What the surroundings answer: the host, how [fetch] settles for a
    request (given by its query parameters), whether the anchor element
    supports [download], and the message text of built-in exceptions. *)
Record env : Type := {
  the_host : host;
  fetch : list (string * string) -> result response;
  download_supported : bool;
  builtin_message : exn -> string
}.

(** [error.message] *)
Definition message_of (e : env) (x : exn) : string :=
  match x with
  | Error m => m
  | _ => builtin_message e x
  end.

(** [downloadCSV(csvString, filename)] *)
Definition downloadCSV (e : env) (csvString filename : string) : io unit :=
  fun s =>
    (Normal tt,
     emit (if download_supported e then Download filename csvString
           else Alert "CSV download is not supported in your browser.") s).

Record form : Type := {
  apiKey_field : string;
  symbols_field : string;
  interval_field : string;
  startDate_field : string;
  endDate_field : string;
  convertToUsd_checked : bool
}.

Definition is_space (c : ascii) : bool :=
  let n := nat_of_ascii c in
  ((9 <=? n) && (n <=? 13) || (n =? 32) || (n =? 160))%nat.

Fixpoint trim_start (s : string) : string :=
  match s with
  | String c s' => if is_space c then trim_start s' else s
  | EmptyString => EmptyString
  end.

Fixpoint trim_end (s : string) : string :=
  match s with
  | String c s' =>
      match trim_end s' with
      | EmptyString => if is_space c then EmptyString else String c EmptyString
      | r => String c r
      end
  | EmptyString => EmptyString
  end.

(** [s.trim()] *)
Definition trim (s : string) : string := trim_end (trim_start s).

Definition is_empty (s : string) : bool := String.eqb s "".

(** [Math.floor(new Date(str).getTime() / 1000)], [None] for NaN *)
Definition epoch_seconds (h : host) (str : string) : option Z :=
  option_map (fun t => t / 1000) (Date_parse h str).

(** The two timestamps, when the range check lets them through. *)
Definition date_range (h : host) (startDateStr endDateStr : string) : option (Z * Z) :=
  match epoch_seconds h (startDateStr ++ "T00:00:00"),
        epoch_seconds h (endDateStr ++ "T23:59:59.999") with
  | Some fromTimestamp, Some toTimestamp =>
      if fromTimestamp >=? toTimestamp then None
      else Some (fromTimestamp, toTimestamp)
  | _, _ => None
  end.

(** [liquidationData.every(item => !item.history || item.history.length === 0)] *)
Fixpoint every_without_history (l : list value) : result bool :=
  match l with
  | [] => Ok true
  | item :: rest =>
      (hist <- get item "history" ;;
       if negb (truthy hist)
          || match own_get hist "length" with VNum 0 => true | _ => false end
       then every_without_history rest
       else Ok false)%js
  end.

(** The test that reports "no liquidation data". *)
Definition no_data (liquidationData : value) : result bool :=
  if negb (truthy liquidationData) then Ok true
  else if isArray liquidationData
          && (List.length (items_of liquidationData) =? 0)%nat then Ok true
  else if isArray liquidationData then every_without_history (items_of liquidationData)
  else Ok false.

Definition filename_char (c : ascii) : bool :=
  let n := nat_of_ascii c in
  ((97 <=? n) && (n <=? 122) || (65 <=? n) && (n <=? 90)
   || (48 <=? n) && (n <=? 57)
   || (n =? 95) || (n =? 44) || (n =? 46) || (n =? 45))%nat.

Fixpoint map_chars (f : ascii -> ascii) (s : string) : string :=
  match s with
  | EmptyString => EmptyString
  | String c s' => String (f c) (map_chars f s')
  end.

(** [symbols.replace(/[^a-z0-9_,.-]/gi, '_').substring(0, 50)] *)
Definition safeSymbols (symbols : string) : string :=
  String.substring 0 50
    (map_chars (fun c => if filename_char c then c else "_"%char) symbols).

Local Open Scope io_scope.

(** The body of the [try] block. *)
Definition fetch_body (e : env) (symbols interval startDateStr endDateStr : string)
    (params : list (string * string)) : io unit :=
  rsp <~ lift (fetch e params) ;;
  (if negb (ok rsp) then
     errorMsg <~ try_catch
       (errorData <~ lift (json rsp) ;;
        err <~ lift (get errorData "error") ;;
        detail <~ lift (if truthy err then ToString err else Ok (statusText rsp)) ;;
        io_ret ("Error " ++ string_of_Z (status_code rsp) ++ ": " ++ detail))
       (fun _ =>
          console_error ;;;
          io_ret ("HTTP error " ++ string_of_Z (status_code rsp) ++ ": "
                  ++ statusText rsp)) ;;
     io_throw (Error errorMsg)
   else io_ret tt) ;;;
  liquidationData <~ lift (json rsp) ;;
  empty <~ lift (no_data liquidationData) ;;
  if empty then
    updateStatus "No liquidation data found for the specified parameters." "info"
  else
    updateStatus "Processing data..." "info" ;;;
    console (parseLiquidationData_console (the_host e) liquidationData) ;;;
    parsedData <~ lift (parseLiquidationData (the_host e) liquidationData) ;;
    (if (List.length parsedData =? 0)%nat then
       updateStatus "No valid history data found after parsing." "info" ;;;
       io_return
     else io_ret tt) ;;;
    csvData <~ lift (convertToCSV (VArr parsedData [])) ;;
    if negb (is_empty csvData) then
      let filename :=
        "coinalyze_liquidations_" ++ safeSymbols symbols ++ "_" ++ interval ++ "_"
        ++ startDateStr ++ "_to_" ++ endDateStr ++ ".csv" in
      downloadCSV e csvData filename ;;;
      updateStatus ("Successfully downloaded data for "
                    ++ string_of_nat (List.length parsedData) ++ " records.") "success"
    else updateStatus "Could not convert data to CSV." "error".

Definition fetchAndDownload (e : env) (f : form) : io unit :=
  let apiKey := trim (apiKey_field f) in
  let symbols := trim (symbols_field f) in
  let interval := interval_field f in
  let startDateStr := startDate_field f in
  let endDateStr := endDate_field f in
  let convertToUsd := if convertToUsd_checked f then "true" else "false" in
  if is_empty apiKey || is_empty symbols || is_empty startDateStr || is_empty endDateStr
  then
    updateStatus "Please fill in API Key, Symbols, Start Date, and End Date." "error" ;;;
    io_return
  else
    match date_range (the_host e) startDateStr endDateStr with
    | None =>
        updateStatus "Invalid date range selected." "error" ;;;
        io_return
    | Some (fromTimestamp, toTimestamp) =>
        let params :=
          [("api_key", apiKey); ("symbols", symbols); ("interval", interval);
           ("from", string_of_Z fromTimestamp); ("to", string_of_Z toTimestamp);
           ("convert_to_usd", convertToUsd)] in
        set_disabled true ;;;
        updateStatus ("Fetching data for " ++ symbols ++ " from " ++ startDateStr
                      ++ " to " ++ endDateStr ++ "...") "info" ;;;
        try_finally
          (try_catch
             (fetch_body e symbols interval startDateStr endDateStr params)
             (fun error =>
                console_error ;;;
                updateStatus ("Error: " ++ message_of e error) "error"))
          (set_disabled false)
    end.

(* ================================================================== *)
(** * Specification side

    The notions the properties are stated with; none of them is part of
    the script. *)

(** ** Reading CSV back

    The grammar of RFC 4180, with the record separators readers accept: a
    line feed, a carriage return, or the two in a row. Fields are
    separated by commas, a field that starts with a double quote runs to
    the closing quote, and inside it a doubled quote stands for one quote
    and separators are data. A line break at the very end closes the last
    record. [None] is a syntax error. *)

Definition carriage_return : ascii := "013"%char.

Inductive csv_state : Type :=
| Start        (* at the beginning of a record *)
| AfterCR      (* at the beginning of a record, just after a carriage return *)
| Plain        (* in an unquoted field *)
| Quoted       (* inside a quoted field *)
| QuoteSeen.   (* just after a quote inside a quoted field *)

Fixpoint csv_scan (st : csv_state) (field : string) (row : list string)
    (rows : list (list string)) (s : string) : option (list (list string)) :=
  match s with
  | EmptyString =>
      match st with
      | Quoted => None
      | Start | AfterCR => Some rows
      | Plain | QuoteSeen => Some (rows ++ [row ++ [field]])%list
      end
  | String c s' =>
      let unquoted :=
        if Ascii.eqb c comma then csv_scan Plain "" (row ++ [field])%list rows s'
        else if Ascii.eqb c newline
             then csv_scan Start "" [] (rows ++ [row ++ [field]])%list s'
        else if Ascii.eqb c carriage_return
             then csv_scan AfterCR "" [] (rows ++ [row ++ [field]])%list s'
        else if Ascii.eqb c dquote
             then match field with
                  | EmptyString => csv_scan Quoted "" row rows s'
                  | _ => None
                  end
        else csv_scan Plain (field ++ String c "") row rows s' in
      match st with
      | Start | Plain => unquoted
      | AfterCR => if Ascii.eqb c newline then csv_scan Start "" [] rows s' else unquoted
      | Quoted =>
          if Ascii.eqb c dquote then csv_scan QuoteSeen field row rows s'
          else csv_scan Quoted (field ++ String c "") row rows s'
      | QuoteSeen =>
          if Ascii.eqb c dquote then csv_scan Quoted (field ++ String dquote "") row rows s'
          else if Ascii.eqb c comma then csv_scan Plain "" (row ++ [field])%list rows s'
          else if Ascii.eqb c newline
               then csv_scan Start "" [] (rows ++ [row ++ [field]])%list s'
          else if Ascii.eqb c carriage_return
               then csv_scan AfterCR "" [] (rows ++ [row ++ [field]])%list s'
          else None
      end
  end.

Definition parse_csv (s : string) : option (list (list string)) :=
  csv_scan Start "" [] [] s.

(** The characters [convertToCSV] quotes for. *)
Definition special (c : ascii) : bool :=
  Ascii.eqb c comma || Ascii.eqb c newline || Ascii.eqb c dquote.

Fixpoint has_special (s : string) : bool :=
  match s with
  | EmptyString => false
  | String c s' => special c || has_special s'
  end.

(** Every double quote written twice. *)
Fixpoint double_quotes (s : string) : string :=
  match s with
  | EmptyString => EmptyString
  | String c s' =>
      if Ascii.eqb c dquote then String dquote (String dquote (double_quotes s'))
      else String c (double_quotes s')
  end.

(** The header the specification describes: the keys of the first record
    with [symbol] and [timestamp_iso] moved to the front when they are
    among them. *)
Definition spec_header (keys : list string) : list string :=
  (filter (String.eqb "symbol") keys
   ++ filter (String.eqb "timestamp_iso") keys
   ++ filter (fun k => negb (String.eqb k "symbol")
                       && negb (String.eqb k "timestamp_iso")) keys)%list.


(** ** The host of the examples, and the flattener's input *)

(** A host on UTC whose [Date.parse] knows the standard format only. *)
Definition utc_host : host :=
  {| legacy_parse := fun _ => None; LocalTZA := fun _ => 0 |}.

(** The flattener's view of its input: the [(symbol, history item)] pairs
    of the well-shaped entries, in order. *)
Definition history_items (data : list value) : list (value * value) :=
  flat_map (fun symbolData =>
              if well_shaped symbolData
              then map (pair (own_get symbolData "symbol"))
                       (items_of (own_get symbolData "history"))
              else []) data.

(** A history item the flattener can stamp: not [null] or [undefined],
    with a [t] that is falsy or a number inside the range of [Date]. *)
Definition stampable (entry : value) : bool :=
  negb (nullish entry)
  && match own_get entry "t" with
     | VNum n => Z.abs n <=? maxTime
     | t => negb (truthy t)
     end.

(** The wrapped form of a cell string. *)
Definition wrapped (s : string) : string :=
  String dquote (double_quotes s ++ String dquote "").

(** The quoting rule: wrapped when the string has a comma, a newline or a
    double quote, unchanged otherwise. *)
Definition csv_quote (s : string) : string :=
  if has_special s then wrapped s else s.

(** The string of the cell of a row under a column, before quoting: the
    empty string for [null] and [undefined], [String] of the value
    otherwise. *)
Definition cell_text (row : value) (k : string) : result string :=
  match member row k with
  | Ok (Data v) => if nullish v then Ok "" else ToString v
  | Ok (Builtin text) => Ok text
  | Throw x => Throw x
  end.

(** The cell strings of a row under a list of columns. *)
Definition row_strings (columns : list string) (row : value) : result (list string) :=
  mapM (cell_text row) columns.

(** The line a row is to give under a list of columns: its cell strings,
    each under the quoting rule, comma-joined. *)
Definition csv_line (columns : list string) (row : value) : result string :=
  (cells <- row_strings columns row ;; Ok (join "," (map csv_quote cells)))%js.

(** A value that has a string. *)
Definition stringifies (v : value) : bool :=
  match ToString v with
  | Ok _ => true
  | Throw _ => false
  end.

(** Every own property of the row has a string. *)
Definition cells_stringify (row : value) : bool :=
  match row with
  | VObj ps => forallb (fun p => stringifies (snd p)) ps
  | VArr items extra =>
      forallb stringifies items && forallb (fun p => stringifies (snd p)) extra
  | _ => true
  end.

(** The string has no carriage return. *)
Fixpoint no_return (s : string) : bool :=
  match s with
  | EmptyString => true
  | String c s' => negb (Ascii.eqb c carriage_return) && no_return s'
  end.

(** A cell string the reader takes back as it was written: quoted, or
    free of carriage returns. *)
Definition readable (s : string) : bool := has_special s || no_return s.

(** What the reader does once a field is complete and the input goes on
    with [rest]. *)
Definition csv_field_done (field : string) (row : list string)
    (rows : list (list string)) (rest : string) : option (list (list string)) :=
  match rest with
  | EmptyString => Some (rows ++ [row ++ [field]])%list
  | String c r =>
      if Ascii.eqb c comma then csv_scan Plain "" (row ++ [field])%list rows r
      else if Ascii.eqb c newline
           then csv_scan Start "" [] (rows ++ [row ++ [field]])%list r
      else None
  end.

(** The input ends or goes on with a separator. *)
Definition at_separator (rest : string) : bool :=
  match rest with
  | EmptyString => true
  | String c _ => Ascii.eqb c comma || Ascii.eqb c newline
  end.

(** What the flattener does about [timestamp_iso] on one history item:
    for a non-zero numeric [t] the record holds a string in the Date Time
    String Format whose time value is [t]; for a falsy [t] (absent, in
    particular) the field is as it was on the item. *)
Definition timestamp_stamped (h : host) (entry record : value) : Prop :=
  (forall n, own_get entry "t" = VNum n -> n <> 0 ->
     exists iso, own_get record "timestamp_iso" = VStr iso
                 /\ parse_format h iso = Some (Some n))
  /\ (truthy (own_get entry "t") = false ->
      own_get record "timestamp_iso" = own_get entry "timestamp_iso").

Definition leap_year (y : Z) : bool :=
  (y mod 4 =? 0) && (negb (y mod 100 =? 0) || (y mod 400 =? 0)).

(** The days of month [m] of year [y]: what makes [y]-[m]-[d] a calendar
    day. *)
Definition days_in_month (y m : Z) : Z :=
  if m =? 2 then (if leap_year y then 29 else 28)
  else if (m =? 4) || (m =? 6) || (m =? 9) || (m =? 11) then 30
  else 31.

(** A statement only ever adds to the trace. *)
Definition extends_trace {A : Type} (c : io A) : Prop :=
  forall s, exists evs, trace (snd (c s)) = (trace s ++ evs)%list.

(** ** Strings of the form *)

(** Every character of the string satisfies [p]. *)
Fixpoint all_chars (p : ascii -> bool) (s : string) : bool :=
  match s with
  | EmptyString => true
  | String c s' => p c && all_chars p s'
  end.

(** The string neither starts nor ends with white space. *)
Definition trimmed (s : string) : bool :=
  match s with
  | EmptyString => true
  | String c _ => negb (is_space c)
  end
  && String.eqb (trim_end s) s.

(** ** Runs of the handler *)

(** The four required fields are filled in. *)
Definition fields_present (f : form) : bool :=
  negb (is_empty (trim (apiKey_field f)) || is_empty (trim (symbols_field f))
        || is_empty (startDate_field f) || is_empty (endDate_field f)).

(** The query the handler sends for a form and a range. *)
Definition request (f : form) (fromTimestamp toTimestamp : Z) : list (string * string) :=
  [("api_key", trim (apiKey_field f)); ("symbols", trim (symbols_field f));
   ("interval", interval_field f);
   ("from", string_of_Z fromTimestamp); ("to", string_of_Z toTimestamp);
   ("convert_to_usd", if convertToUsd_checked f then "true" else "false")].

(** The status shown while the request is under way. *)
Definition fetching_message (f : form) : string :=
  "Fetching data for " ++ trim (symbols_field f) ++ " from " ++ startDate_field f
  ++ " to " ++ endDate_field f ++ "...".

(** The name of the file offered for a form. *)
Definition download_name (f : form) : string :=
  "coinalyze_liquidations_" ++ safeSymbols (trim (symbols_field f)) ++ "_"
  ++ interval_field f ++ "_" ++ startDate_field f ++ "_to_" ++ endDate_field f
  ++ ".csv".

(** The page after the events [evs], the control enabled and the status
    slot holding [st]. *)
Definition page_after (s : ui) (evs : list event) (st : string * string) : ui :=
  {| disabled := false; status := Some st; trace := (trace s ++ evs)%list |}.

(** The status a run ends with after a download. *)
Definition success_message (recs : list value) : string :=
  "Successfully downloaded data for " ++ string_of_nat (List.length recs) ++ " records.".

(** What a download of [csv] under the name [filename] comes from: a
    response that was read, found to hold data and flattened into at least
    one record, whose text [csv] is; the file name is that of the form,
    and the run ends with the status of success. *)
Definition download_justified (e : env) (f : form) (s' : ui)
    (filename csv : string) : Prop :=
  exists fromTimestamp toTimestamp rsp data recs,
    date_range (the_host e) (startDate_field f) (endDate_field f)
      = Some (fromTimestamp, toTimestamp)
    /\ fromTimestamp < toTimestamp
    /\ fetch e (request f fromTimestamp toTimestamp) = Ok rsp
    /\ ok rsp = true
    /\ json rsp = Ok data
    /\ parseLiquidationData (the_host e) data = Ok recs
    /\ recs <> []
    /\ convertToCSV (VArr recs []) = Ok csv
    /\ filename = download_name f
    /\ download_supported e = true
    /\ status s' = Some (success_message recs, "success").

(** A response that answers every request, and a page on which nothing
    has happened yet, for the examples. *)
Definition answering (rsp : response) (supported : bool) : env :=
  {| the_host := utc_host; fetch := fun _ => Ok rsp;
     download_supported := supported; builtin_message := fun _ => "(engine message)" |}.

Definition one_day_form : form :=
  {| apiKey_field := " key "; symbols_field := "BTCUSD_PERP.A";
     interval_field := "1hour"; startDate_field := "2024-01-01";
     endDate_field := "2024-01-01"; convertToUsd_checked := false |}.

Definition fresh_page : ui := {| disabled := false; status := None; trace := [] |}.

Definition one_item_body : value :=
  VArr [VObj [("symbol", VStr "BTCUSD_PERP.A");
              ("history", VArr [VObj [("t", VNum 1700000000000); ("l", VNum 100)]] [])]] [].

(** A query as the handler is to send it: key and symbols not empty and
    without white space around them, the range in order, the flag one of
    the two words. *)
Definition valid_query (p : list (string * string)) : Prop :=
  exists key symbols interval fromTimestamp toTimestamp usd,
    p = [("api_key", key); ("symbols", symbols); ("interval", interval);
         ("from", string_of_Z fromTimestamp); ("to", string_of_Z toTimestamp);
         ("convert_to_usd", usd)]
    /\ key <> "" /\ symbols <> ""
    /\ trimmed key = true /\ trimmed symbols = true
    /\ fromTimestamp < toTimestamp
    /\ (usd = "true" \/ usd = "false").

(** ** setDefaultDates

    What the function reads of its surroundings: the two successive
    readings of [new Date()], the first for [end] and the second for
    [start], and the offset of local time from UTC at a UTC time value
    (the host record has it at a local time value). *)
Record clock : Type := {
  now_end : Z;
  now_start : Z;
  utc_offset : Z -> Z
}.

(** [LocalTime(t)] *)
Definition LocalTime (c : clock) (t : Z) : Z := t + utc_offset c t.

(** [date.getDate()] of a valid date *)
Definition getDate (c : clock) (t : Z) : Z :=
  let '(_, _, d) := civil_from_days (LocalTime c t / msPerDay) in d.

(** The time value after [date.setDate(dt)]: the day of the month is
    replaced in local time, days outside the month roll over. *)
Definition setDate (h : host) (c : clock) (t : Z) (dt : Z) : option Z :=
  let lt := LocalTime c t in
  let '(y, m, _) := civil_from_days (lt / msPerDay) in
  let newDate := (days_from_civil y m 1 + dt - 1) * msPerDay + lt mod msPerDay in
  TimeClip (newDate - LocalTZA h newDate).

(** [s.split(sep)[0]] for a one-character separator *)
Fixpoint split_head (sep : ascii) (s : string) : string :=
  match s with
  | EmptyString => EmptyString
  | String c s' => if Ascii.eqb c sep then EmptyString else String c (split_head sep s')
  end.

(** [formatDate(date)], that is [date.toISOString().split('T')[0]] *)
Definition formatDate (tv : option Z) : result string :=
  (iso <- toISOString tv ;; Ok (split_head "T" iso))%js.

Definition with_endDate (f : form) (v : string) : form :=
  {| apiKey_field := apiKey_field f; symbols_field := symbols_field f;
     interval_field := interval_field f; startDate_field := startDate_field f;
     endDate_field := v; convertToUsd_checked := convertToUsd_checked f |}.

Definition with_startDate (f : form) (v : string) : form :=
  {| apiKey_field := apiKey_field f; symbols_field := symbols_field f;
     interval_field := interval_field f; startDate_field := v;
     endDate_field := endDate_field f; convertToUsd_checked := convertToUsd_checked f |}.

(** The form after [setDefaultDates], and how the call completes: the end
    date is assigned before the start date is formatted. The field keeps
    the string it is assigned, as a date input does with the [YYYY-MM-DD]
    of a four-digit year. *)
Definition setDefaultDates (h : host) (c : clock) (f : form) : form * result unit :=
  let end_ := Some (now_end c) in
  let start := setDate h c (now_start c) (getDate c (now_end c) - 7) in
  match formatDate end_ with
  | Throw x => (f, Throw x)
  | Ok endValue =>
      let f1 := with_endDate f endValue in
      match formatDate start with
      | Throw x => (f1, Throw x)
      | Ok startValue => (with_startDate f1 startValue, Ok tt)
      end
  end.

(** The calendar date of a time value in UTC, as [YYYY-MM-DD]. *)
Definition utc_date (t : Z) : string :=
  let '(y, m, d) := civil_from_days (t / msPerDay) in iso_date y m d.


(* ================================================================== *)
(** * Properties of strings *)

Lemma append_length (s1 s2 : string) :
  String.length (s1 ++ s2) = (String.length s1 + String.length s2)%nat.
Proof. induction s1 as [|c s1 IH]; simpl; [reflexivity | now rewrite IH]. Qed.

Lemma append_assoc (s1 s2 s3 : string) : (s1 ++ s2) ++ s3 = s1 ++ (s2 ++ s3).
Proof. induction s1 as [|c s1 IH]; simpl; [reflexivity | now rewrite IH]. Qed.

Lemma append_nil_r (s : string) : s ++ "" = s.
Proof. induction s as [|c s IH]; simpl; [reflexivity | now rewrite IH]. Qed.

(* ================================================================== *)
(** * Properties of the value operations *)

Lemma bind_Ok {A B : Type} (r : result A) (k : A -> result B) (b : B) :
  bind r k = Ok b -> exists a, r = Ok a /\ k a = Ok b.
Proof. destruct r as [a|e]; simpl; [eauto | discriminate]. Qed.

Lemma lookup_upsert_same k x ps : lookup k (upsert k x ps) = Some x.
Proof.
  induction ps as [|[k' v] ps IH]; simpl.
  - now rewrite String.eqb_refl.
  - destruct (String.eqb k' k) eqn:E; simpl; rewrite E; auto.
Qed.

Lemma lookup_upsert_other k k' x ps :
  k <> k' -> lookup k' (upsert k x ps) = lookup k' ps.
Proof.
  intros Hne. induction ps as [|[k0 v] ps IH]; simpl.
  - destruct (String.eqb_spec k k'); [contradiction | reflexivity].
  - destruct (String.eqb_spec k0 k) as [->|Hk]; simpl.
    + destruct (String.eqb_spec k k'); [contradiction | reflexivity].
    + now rewrite IH.
Qed.

Lemma set_not_nullish v k x v' : set v k x = Ok v' -> nullish v' = false.
Proof. destruct v; simpl; intros [= <-]; reflexivity || discriminate. Qed.

Lemma set_Ok v k x : nullish v = false -> exists v', set v k x = Ok v'.
Proof. destruct v; simpl; intros; try discriminate; eauto. Qed.

(** Assigning a named property leaves the other names as they were. *)
Lemma own_get_set_other v k x v' k' :
  set v k x = Ok v' -> k <> k' -> own_get v' k' = own_get v k'.
Proof.
  intros Hs Hne. destruct v; simpl in Hs; try discriminate; injection Hs as <-;
    simpl; try reflexivity.
  - destruct (String.eqb k' "length"); [reflexivity|].
    destruct (index_of_string k'); [reflexivity|].
    now rewrite lookup_upsert_other.
  - now rewrite lookup_upsert_other.
Qed.

(** Assigning a name that is no index and not [length] on an object or an
    array makes it readable; a primitive is returned as it was. *)
Lemma own_get_set_same v k x v' :
  set v k x = Ok v' -> String.eqb k "length" = false -> index_of_string k = None ->
  (match v with VArr _ _ | VObj _ => own_get v' k = x | _ => v' = v end).
Proof.
  intros Hs Hl Hi. destruct v; simpl in Hs; try discriminate; injection Hs as <-;
    simpl; try reflexivity.
  - rewrite Hl, Hi. now rewrite lookup_upsert_same.
  - now rewrite lookup_upsert_same.
Qed.

Lemma get_Ok v k : nullish v = false -> get v k = Ok (own_get v k).
Proof. unfold get. now intros ->. Qed.

Create HintDb js discriminated.
#[local] Hint Resolve set_not_nullish set_Ok get_Ok : js.

(* ================================================================== *)
(** * The flattener *)

Lemma mapM_app {A B : Type} (f : A -> result B) (l1 l2 : list A) :
  mapM f (l1 ++ l2)%list =
  (ys1 <- mapM f l1 ;; ys2 <- mapM f l2 ;; Ok (ys1 ++ ys2)%list)%js.
Proof.
  induction l1 as [|x l1 IH]; simpl.
  - destruct (mapM f l2); reflexivity.
  - destruct (f x); simpl; [|reflexivity].
    rewrite IH. destruct (mapM f l1); simpl; [|reflexivity].
    destruct (mapM f l2); reflexivity.
Qed.

Lemma mapM_length {A B : Type} (f : A -> result B) (l : list A) (ys : list B) :
  mapM f l = Ok ys -> List.length ys = List.length l.
Proof.
  revert ys. induction l as [|x l IH]; simpl; intros ys H.
  - now injection H as <-.
  - destruct (f x); simpl in H; [|discriminate].
    destruct (mapM f l); simpl in H; [|discriminate].
    injection H as <-. simpl. f_equal. now apply IH.
Qed.

Lemma mapM_Forall2 {A B : Type} (f : A -> result B) (l : list A) (ys : list B) :
  mapM f l = Ok ys -> Forall2 (fun x y => f x = Ok y) l ys.
Proof.
  revert ys. induction l as [|x l IH]; simpl; intros ys H.
  - injection H as <-. constructor.
  - destruct (f x) eqn:E; simpl in H; [|discriminate].
    destruct (mapM f l); simpl in H; [|discriminate].
    injection H as <-. constructor; auto.
Qed.

Lemma mapM_total {A B : Type} (f : A -> result B) (l : list A) :
  Forall (fun x => exists y, f x = Ok y) l -> exists ys, mapM f l = Ok ys.
Proof.
  induction 1 as [|x l [y Hy] _ [ys IH]]; simpl; [eauto|].
  rewrite Hy, IH. simpl. eauto.
Qed.

Lemma mapM_ext_in {A B : Type} (f g : A -> result B) (l : list A) :
  (forall x, In x l -> f x = g x) -> mapM f l = mapM g l.
Proof.
  induction l as [|x l IH]; simpl; intros H; [reflexivity|].
  rewrite (H x) by auto. rewrite IH by auto. reflexivity.
Qed.

Lemma mapM_pure {A B : Type} (f : A -> B) (l : list A) :
  mapM (fun x => Ok (f x)) l = Ok (map f l).
Proof. induction l as [|x l IH]; simpl; [reflexivity|]. now rewrite IH. Qed.

Section Flattener.

Variable h : host.

Lemma forEach_history_mapM symbol history allData :
  forEach_history h symbol history allData =
  (recs <- mapM (stamp h symbol) history ;; Ok (allData ++ recs)%list)%js.
Proof.
  revert allData. induction history as [|entry rest IH]; intros allData; simpl.
  - now rewrite app_nil_r.
  - destruct (stamp h symbol entry) as [r|e]; simpl; [|reflexivity].
    rewrite IH. destruct (mapM (stamp h symbol) rest); simpl; [|reflexivity].
    now rewrite <- app_assoc.
Qed.

Lemma forEach_data_mapM data allData :
  forEach_data h data allData =
  (recs <- mapM (fun p => stamp h (fst p) (snd p)) (history_items data) ;;
   Ok (allData ++ recs)%list)%js.
Proof.
  revert allData. induction data as [|sd rest IH]; intros allData; simpl.
  - now rewrite app_nil_r.
  - destruct (well_shaped sd); simpl.
    + rewrite forEach_history_mapM, mapM_app.
      assert (E : mapM (fun p => stamp h (fst p) (snd p))
                    (map (pair (own_get sd "symbol")) (items_of (own_get sd "history")))
                  = mapM (stamp h (own_get sd "symbol")) (items_of (own_get sd "history"))).
      { induction (items_of (own_get sd "history")) as [|x l IHl]; simpl;
          [reflexivity | now rewrite IHl]. }
      rewrite E.
      destruct (mapM (stamp h (own_get sd "symbol")) (items_of (own_get sd "history")));
        simpl; [|reflexivity].
      rewrite IH.
      destruct (mapM _ (history_items rest)); simpl; [|reflexivity].
      now rewrite app_assoc.
    + apply IH.
Qed.

(** The flattener stamps the history items of the well-shaped entries, one
    after the other. *)
Lemma parseLiquidationData_items items extra :
  parseLiquidationData h (VArr items extra) =
  mapM (fun p => stamp h (fst p) (snd p)) (history_items items).
Proof.
  unfold parseLiquidationData. simpl. rewrite forEach_data_mapM.
  destruct (mapM _ (history_items items)); reflexivity.
Qed.


Lemma stamp_stampable symbol entry :
  stampable entry = true -> exists r, stamp h symbol entry = Ok r.
Proof.
  unfold stampable, stamp. intros H. apply andb_prop in H as [Hn Ht].
  apply negb_true_iff in Hn.
  destruct (set_Ok entry "symbol" symbol Hn) as [e1 He1]. rewrite He1. simpl.
  rewrite (get_Ok e1 "t") by eauto with js. simpl.
  rewrite (own_get_set_other _ _ _ _ "t" He1) by discriminate.
  destruct (own_get entry "t") eqn:Et; simpl in *;
    try (eexists; reflexivity); try discriminate.
  - destruct b; [discriminate | eexists; reflexivity].
  - destruct (n =? 0); simpl; [eexists; reflexivity|].
    unfold TimeClip. rewrite Ht. simpl.
    eauto with js.
  - destruct (String.eqb s ""); simpl in *; [eexists; reflexivity | discriminate].
Qed.

Lemma parseLiquidationData_not_array data :
  isArray data = false -> parseLiquidationData h data = Ok [].
Proof.
  intros H. unfold parseLiquidationData. rewrite H. now rewrite orb_true_r.
Qed.

(** On stampable history items the flattener returns. *)
Lemma parseLiquidationData_total data :
  Forall (fun p => stampable (snd p) = true) (history_items (items_of data)) ->
  exists recs, parseLiquidationData h data = Ok recs.
Proof.
  intros H. destruct (isArray data) eqn:Ea.
  - destruct data as [| | | | |items extra| | |]; try discriminate Ea.
    rewrite parseLiquidationData_items. apply mapM_total.
    eapply Forall_impl; [|exact H]. intros p Hp. now apply stamp_stampable.
  - exists []. now apply parseLiquidationData_not_array.
Qed.

End Flattener.




(** C6: [convertToCSV] answers the empty string on the empty array, on
    [null] and on [undefined]; [parseLiquidationData] answers the empty
    sequence, without throwing, on [null] and on anything that is not an
    array. *)
Theorem empty_input_law :
  (forall extra, convertToCSV (VArr [] extra) = Ok "")
  /\ convertToCSV VNull = Ok ""
  /\ convertToCSV VUndefined = Ok ""
  /\ (forall h, parseLiquidationData h VNull = Ok [])
  /\ (forall h data, isArray data = false -> parseLiquidationData h data = Ok []).
Proof.
  repeat split; try reflexivity.
  intros h data H. now apply parseLiquidationData_not_array.
Qed.

Lemma empty_input_law_witness :
  parseLiquidationData utc_host (VObj [("error", VStr "rate limited")]) = Ok [].
Proof.
  apply (proj2 (proj2 (proj2 (proj2 empty_input_law)))
           utc_host (VObj [("error", VStr "rate limited")])).
  reflexivity.
Defined.
(* ================================================================== *)
(** * Property reads *)

Lemma has_key_lookup k ps : has_key k ps = false -> lookup k ps = None.
Proof. unfold has_key. destruct (lookup k ps); [discriminate | reflexivity]. Qed.

Lemma string_nth_overflow i s : (String.length s <= i)%nat -> string_nth i s = None.
Proof.
  revert i. induction s as [|c s IH]; intros i H; [now destruct i|].
  destruct i as [|i]; simpl in *; [lia|]. apply IH. lia.
Qed.

(** A name that is no own property reads as [undefined] among the own
    properties. *)
Lemma own_get_not_own v k : has_own v k = false -> own_get v k = VUndefined.
Proof.
  destruct v; simpl; try reflexivity.
  - destruct (String.eqb k "length"); [discriminate|]. simpl.
    destruct (index_of_string k) as [i|]; [|reflexivity].
    intros H. apply Nat.ltb_ge in H. now rewrite string_nth_overflow.
  - destruct (String.eqb k "length"); [discriminate|]. simpl.
    destruct (index_of_string k) as [i|].
    + intros H. apply Nat.ltb_ge in H. now apply nth_overflow.
    + intros H. now rewrite has_key_lookup.
  - intros H. now rewrite has_key_lookup.
Qed.

(** The names the script reads by name are on none of the prototypes:
    reading them is reading the own property. *)
Lemma inherited_named v k :
  In k ["symbol"; "timestamp_iso"; "history"; "t"; "error"; "length"; "0"] ->
  inherited v k = None.
Proof.
  intros H. repeat (destruct H as [<-|H]; [destruct v; reflexivity|]). destruct H.
Qed.

Lemma member_own v k :
  nullish v = false -> has_own v k = true -> member v k = Ok (Data (own_get v k)).
Proof. unfold member. now intros -> ->. Qed.

Lemma member_missing v k :
  nullish v = false -> has_own v k = false -> inherited v k = None ->
  member v k = Ok (Data VUndefined).
Proof. unfold member. now intros -> -> ->. Qed.

Lemma member_named v k :
  nullish v = false ->
  In k ["symbol"; "timestamp_iso"; "history"; "t"; "error"; "length"; "0"] ->
  member v k = Ok (Data (own_get v k)) /\ get v k = Ok (own_get v k).
Proof.
  intros Hn Hk. split; [|now apply get_Ok].
  destruct (has_own v k) eqn:Ho; [now apply member_own|].
  rewrite member_missing by auto using inherited_named.
  now rewrite own_get_not_own.
Qed.

Lemma member_nullish v k : nullish v = true -> member v k = Throw TypeError.
Proof. unfold member. now intros ->. Qed.

Lemma own_get_has_own v k : own_get v k <> VUndefined -> has_own v k = true.
Proof.
  intros H. destruct (has_own v k) eqn:E; [reflexivity|].
  now apply own_get_not_own in E.
Qed.

(* ================================================================== *)
(** * The quoting step *)

Lemma includes_char s c :
  includes s (String c "") =
  match s with
  | EmptyString => false
  | String b s' => Ascii.eqb c b || includes s' (String c "")
  end.
Proof. destruct s as [|b s']; simpl; [reflexivity|]. now rewrite andb_true_r. Qed.

Lemma has_special_includes s :
  includes s "," || includes s (String newline "") || includes s (String dquote "")
  = has_special s.
Proof.
  induction s as [|b s IH]; [reflexivity|].
  change "," with (String comma "").
  rewrite !(includes_char (String b s)). simpl has_special. rewrite <- IH.
  unfold special. rewrite !(Ascii.eqb_sym b).
  change "," with (String comma "").
  destruct (Ascii.eqb comma b), (Ascii.eqb newline b), (Ascii.eqb dquote b),
    (includes s (String comma "")), (includes s (String newline ""));
    reflexivity.
Qed.

Lemma replace_all_double_quotes s :
  replace_all dquote (String dquote (String dquote "")) s = double_quotes s.
Proof.
  induction s as [|c s IH]; simpl; [reflexivity|].
  rewrite IH. destruct (Ascii.eqb c dquote); reflexivity.
Qed.

(** The [includes] tests and the [replace] of the code are the rule on
    characters. *)
Lemma quote_cell_spec s : quote_cell s = csv_quote s.
Proof.
  unfold quote_cell, csv_quote, wrapped.
  rewrite has_special_includes, replace_all_double_quotes.
  reflexivity.
Qed.

Lemma double_quotes_length s : (String.length s <= String.length (double_quotes s))%nat.
Proof.
  induction s as [|c s IH]; simpl; [lia|].
  destruct (Ascii.eqb c dquote); simpl; lia.
Qed.

Lemma wrapped_longer s : (String.length s < String.length (wrapped s))%nat.
Proof.
  unfold wrapped. simpl. rewrite append_length. simpl.
  pose proof (double_quotes_length s). lia.
Qed.

Lemma csv_quote_unchanged s : csv_quote s = s <-> has_special s = false.
Proof.
  unfold csv_quote. destruct (has_special s); split; auto; [|discriminate].
  intros E. pose proof (wrapped_longer s) as L. rewrite E in L. lia.
Qed.

(* ================================================================== *)
(** * The serializer *)

Lemma Object_keys_not_nullish v keys : Object_keys v = Ok keys -> nullish v = false.
Proof. destruct v; simpl; intros H; reflexivity || discriminate. Qed.

Lemma Object_keys_total v : nullish v = false -> exists keys, Object_keys v = Ok keys.
Proof. destruct v; simpl; intros H; try discriminate; eauto. Qed.

Lemma Object_keys_nullish v : nullish v = true -> Object_keys v = Throw TypeError.
Proof. destruct v; simpl; intros H; try discriminate; reflexivity. Qed.

Lemma mapM_map {A B C : Type} (f : A -> result B) (g : B -> C) (l : list A) :
  mapM (fun x => y <- f x ;; Ok (g y)) l = (ys <- mapM f l ;; Ok (map g ys)).
Proof.
  induction l as [|x l IH]; simpl; [reflexivity|].
  destruct (f x); simpl; [|reflexivity].
  rewrite IH. destruct (mapM f l); reflexivity.
Qed.

(** The code's replacement of [null] and [undefined] by the empty string
    before [String] gives the empty string. *)
Lemma cell_string_text row k :
  (x <- member row k ;; cell_string x) = cell_text row k.
Proof.
  unfold cell_text. destruct (member row k) as [[v|text]|x]; simpl; try reflexivity.
  now destruct (nullish v).
Qed.

(** A row is rendered as its line under the quoting rule. *)
Lemma render_row_line columns row : render_row columns row = csv_line columns row.
Proof.
  unfold render_row, csv_line, row_strings.
  rewrite (mapM_ext_in _ (fun k => s <- cell_text row k ;; Ok (csv_quote s))).
  - rewrite mapM_map. destruct (mapM (cell_text row) columns); reflexivity.
  - intros k _. rewrite <- cell_string_text. destruct (member row k) as [x|]; simpl;
      [|reflexivity].
    destruct (cell_string x); simpl; [|reflexivity]. now rewrite quote_cell_spec.
Qed.

(** The text of a non-empty array of rows: the header from the keys of the
    first row, then one line per row under the same columns; the call
    throws when a line does. *)
Lemma convertToCSV_rows first rest extra keys :
  Object_keys first = Ok keys ->
  convertToCSV (VArr (first :: rest) extra) =
  (lines <- mapM (csv_line (orderedHeaders keys)) (first :: rest) ;;
   Ok (join (String newline "") (join "," (orderedHeaders keys) :: lines))).
Proof.
  intros Hk. unfold convertToCSV.
  change (own_get (VArr (first :: rest) extra) "0") with first.
  change (own_get (VArr (first :: rest) extra) "length")
    with (VNum (Z.of_nat (S (List.length rest)))).
  rewrite Hk. cbn [truthy negb bind Z.of_nat].
  now rewrite (mapM_ext_in _ (csv_line (orderedHeaders keys)))
    by (intros; apply render_row_line).
Qed.

(** Without a first row to take the keys from, the call throws. *)
Lemma convertToCSV_no_keys first rest extra :
  nullish first = true -> convertToCSV (VArr (first :: rest) extra) = Throw TypeError.
Proof.
  intros Hn. unfold convertToCSV.
  change (own_get (VArr (first :: rest) extra) "0") with first.
  change (own_get (VArr (first :: rest) extra) "length")
    with (VNum (Z.of_nat (S (List.length rest)))).
  now rewrite Object_keys_nullish.
Qed.

(** ** Cells *)

Lemma cell_text_nullish row k : nullish row = true -> cell_text row k = Throw TypeError.
Proof. intros H. unfold cell_text. now rewrite member_nullish. Qed.

(** A field the row lacks and does not inherit gives the empty string. *)
Lemma cell_text_missing row k :
  nullish row = false -> has_own row k = false -> inherited row k = None ->
  cell_text row k = Ok "".
Proof. intros Hn Ho Hi. unfold cell_text. now rewrite member_missing. Qed.

(** A field the row has is rendered from its value. *)
Lemma cell_text_own row k x :
  nullish row = false -> own_get row k = x -> x <> VUndefined ->
  cell_text row k = (if nullish x then Ok "" else ToString x).
Proof.
  intros Hn E Hx. unfold cell_text. rewrite member_own; auto.
  - now rewrite E.
  - apply own_get_has_own. now rewrite E.
Qed.

Lemma lookup_In k ps v : lookup k ps = Some v -> In (k, v) ps.
Proof.
  induction ps as [|[k' v'] ps IH]; simpl; [discriminate|].
  destruct (String.eqb_spec k' k) as [->|_].
  - intros [= ->]. now left.
  - intros H. right. now apply IH.
Qed.

Lemma forallb_lookup (p : value -> bool) k ps v :
  forallb (fun q => p (snd q)) ps = true -> lookup k ps = Some v -> p v = true.
Proof.
  intros Hall Hl. rewrite forallb_forall in Hall.
  now apply (Hall (k, v)), lookup_In.
Qed.

Lemma cell_stringifies v :
  stringifies v = true -> exists s, (if nullish v then Ok "" else ToString v) = Ok s.
Proof.
  unfold stringifies. destruct (nullish v); [eauto|].
  destruct (ToString v); [eauto | discriminate].
Qed.

(** A row whose own properties have strings has a string in every cell. *)
Lemma cell_text_total row k :
  nullish row = false -> cells_stringify row = true -> exists s, cell_text row k = Ok s.
Proof.
  intros Hn Hc. unfold cell_text, member. rewrite Hn.
  destruct (has_own row k) eqn:Ho.
  - apply cell_stringifies.
    destruct row; simpl in *; try discriminate.
    + destruct (String.eqb k "length"); [reflexivity|].
      destruct (index_of_string k) as [i|]; [|reflexivity].
      destruct (string_nth i s); reflexivity.
    + apply andb_prop in Hc as [Hi He].
      destruct (String.eqb k "length"); [reflexivity|].
      destruct (index_of_string k) as [i|].
      * simpl in Ho. apply Nat.ltb_lt in Ho. rewrite forallb_forall in Hi.
        apply Hi. now apply nth_In.
      * simpl in Ho. unfold has_key in Ho.
        destruct (lookup k extra) as [v|] eqn:El; [|discriminate].
        simpl. eapply forallb_lookup; eauto.
    + unfold has_key in Ho. destruct (lookup k props0) as [v|] eqn:El; [|discriminate].
      simpl. eapply forallb_lookup; eauto.
  - destruct (inherited row k); simpl; eauto.
Qed.

Lemma csv_line_total columns row :
  nullish row = false -> cells_stringify row = true ->
  exists line, csv_line columns row = Ok line.
Proof.
  intros Hn Hc. unfold csv_line, row_strings.
  destruct (mapM_total (cell_text row) columns) as [cells ->]; [|simpl; eauto].
  apply Forall_forall. intros k _. now apply cell_text_total.
Qed.

(** Whatever [String] throws is a [TypeError]. *)
Lemma ToString_throws (v : value) : forall x, ToString v = Throw x -> x = TypeError.
Proof.
  revert v. fix ToString_throws 1. intros v.
  destruct v as [| |b|n|s|items extra|ps|half e|negative]; intros x; simpl;
    try discriminate.
  - destruct b; discriminate.
  - destruct (has_key "toString" extra); [now intros [= <-]|].
    destruct (has_key "join" extra); [discriminate|].
    induction items as [|y l IHl]; simpl; [discriminate|].
    destruct (nullish y).
    + revert IHl. 
      destruct ((fix each (l0 : list value) : result (list string) :=
                   match l0 with
                   | [] => Ok []
                   | x0 :: l' =>
                       match (if nullish x0 then Ok "" else ToString x0) with
                       | Ok s =>
                           match each l' with
                           | Ok ss => Ok (s :: ss)
                           | Throw e => Throw e
                           end
                       | Throw e => Throw e
                       end
                   end) l); [discriminate|].
      intros IHl [= <-]. now apply IHl.
    + destruct (ToString y) eqn:Ey; [|intros [= <-]; now apply (ToString_throws y)].
      revert IHl. 
      destruct ((fix each (l0 : list value) : result (list string) :=
                   match l0 with
                   | [] => Ok []
                   | x0 :: l' =>
                       match (if nullish x0 then Ok "" else ToString x0) with
                       | Ok s =>
                           match each l' with
                           | Ok ss => Ok (s :: ss)
                           | Throw e => Throw e
                           end
                       | Throw e => Throw e
                       end
                   end) l); [discriminate|].
      intros IHl [= <-]. now apply IHl.
  - destruct (has_key "toString" ps); [now intros [= <-] | discriminate].
Qed.

Lemma cell_string_throws c x : cell_string c = Throw x -> x = TypeError.
Proof.
  destruct c as [v|text]; simpl; [|discriminate].
  destruct (nullish v); [discriminate | apply ToString_throws].
Qed.

Lemma cell_text_throws row k x : cell_text row k = Throw x -> x = TypeError.
Proof.
  unfold cell_text, member. destruct (nullish row); [now intros [= <-]|].
  destruct (has_own row k).
  - destruct (nullish (own_get row k)); [discriminate | apply ToString_throws].
  - destruct (inherited row k); simpl; discriminate.
Qed.

Lemma mapM_throws {A B : Type} (f : A -> result B) (l : list A) x :
  mapM f l = Throw x -> exists a, In a l /\ f a = Throw x.
Proof.
  induction l as [|a l IH]; simpl; [discriminate|].
  destruct (f a) eqn:Ea; simpl.
  - destruct (mapM f l); simpl; [discriminate|].
    intros [= <-]. destruct IH as (a' & Hin & Ha'); [reflexivity|]. eauto.
  - intros [= <-]. eauto.
Qed.

Lemma csv_line_throws columns row x : csv_line columns row = Throw x -> x = TypeError.
Proof.
  unfold csv_line, row_strings. destruct (mapM (cell_text row) columns) eqn:E; [discriminate|].
  simpl. intros [= <-]. apply mapM_throws in E as (k & _ & Hk).
  now apply cell_text_throws in Hk.
Qed.

(** Whatever the serializer throws is a [TypeError]. *)
Lemma convertToCSV_throws rows extra x :
  convertToCSV (VArr rows extra) = Throw x -> x = TypeError.
Proof.
  destruct rows as [|first rest]; [discriminate|].
  destruct (nullish first) eqn:Hn.
  - rewrite convertToCSV_no_keys by assumption. now intros [= <-].
  - destruct (Object_keys_total first Hn) as [keys Hk].
    rewrite (convertToCSV_rows _ _ _ _ Hk).
    destruct (mapM _ (first :: rest)) eqn:E; [discriminate|].
    simpl. intros [= <-]. apply mapM_throws in E as (row & _ & Hrow).
    now apply csv_line_throws in Hrow.
Qed.

(** C4: the text [convertToCSV] returns for a non-empty array is the
    header line followed by one line per row, and every cell of a line is
    the string of the row's value under the column ([String] of the value,
    the empty string for [null] and [undefined]), wrapped in double
    quotes with every embedded double quote doubled when that string
    contains a comma, a newline or a double quote, and unchanged
    otherwise; the call throws when a cell has no string. The cell is
    written unchanged exactly when its string has none of the three
    characters. *)
Theorem cell_quoting_rule (first : value) (rest : list value) (extra : props)
    (keys : list string) :
  Object_keys first = Ok keys ->
  convertToCSV (VArr (first :: rest) extra) =
    (lines <- mapM (fun row =>
                      cells <- mapM (fun k =>
                                       x <- member row k ;;
                                       match x with
                                       | Data v => if nullish v then Ok "" else ToString v
                                       | Builtin text => Ok text
                                       end) (orderedHeaders keys) ;;
                      Ok (join "," (map (fun s => if has_special s
                                                  then String dquote (double_quotes s
                                                                      ++ String dquote "")
                                                  else s) cells)))
               (first :: rest) ;;
     Ok (join (String newline "") (join "," (orderedHeaders keys) :: lines)))
  /\ (forall s, (if has_special s
                 then String dquote (double_quotes s ++ String dquote "") else s) = s
                <-> has_special s = false).
Proof.
  intros Hk. split.
  - now rewrite (convertToCSV_rows _ _ _ _ Hk).
  - apply csv_quote_unchanged.
Qed.

Lemma cell_quoting_rule_witness :
  let q := String dquote "" in
  convertToCSV
    (VArr [VObj [("symbol", VStr "BTC,USD"); ("note", VStr ("a" ++ q ++ "b"));
                 ("l", VFrac 100 1); ("side", VStr "long")]] [])
  = Ok ("symbol,timestamp_iso,note,l,side" ++ String newline ""
        ++ q ++ "BTC,USD" ++ q ++ ",," ++ q ++ "a" ++ q ++ q ++ "b" ++ q
        ++ ",100.5,long").
Proof.
  exact (eq_trans
           (proj1 (cell_quoting_rule
                     (VObj [("symbol", VStr "BTC,USD");
                            ("note", VStr ("a" ++ String dquote "" ++ "b"));
                            ("l", VFrac 100 1); ("side", VStr "long")])
                     [] [] ["symbol"; "note"; "l"; "side"] eq_refl))
           eq_refl).
Defined.

(** ** The header *)

Lemma filter_eq_present (k : string) (keys : list string) :
  NoDup keys -> In k keys -> filter (String.eqb k) keys = [k].
Proof.
  induction keys as [|a keys IH]; intros Hnd Hin; [destruct Hin|].
  inversion Hnd as [|? ? Hna Hnd']; subst. simpl.
  destruct (String.eqb_spec k a) as [<-|Hne].
  - f_equal. clear IH Hin Hnd. induction keys as [|b keys IH]; [reflexivity|].
    simpl. destruct (String.eqb_spec k b) as [->|_].
    + exfalso. apply Hna. now left.
    + apply IH.
      * intros Hin. apply Hna. now right.
      * now inversion Hnd'.
  - destruct Hin as [->|Hin]; [contradiction|]. now apply IH.
Qed.

(** When the first record has both keys, the header is the one the
    specification describes. *)
Lemma orderedHeaders_present (keys : list string) :
  NoDup keys -> In "symbol" keys -> In "timestamp_iso" keys ->
  orderedHeaders keys = spec_header keys.
Proof.
  intros Hnd Hs Ht. unfold orderedHeaders, spec_header.
  rewrite (filter_eq_present "symbol"), (filter_eq_present "timestamp_iso") by assumption.
  reflexivity.
Qed.

(** A key the first record lacks is a column of the code's header all the
    same, and none of the header the specification describes. *)
Lemma orderedHeaders_absent (keys : list string) (k : string) :
  k = "symbol" \/ k = "timestamp_iso" -> ~ In k keys ->
  In k (orderedHeaders keys) /\ ~ In k (spec_header keys).
Proof.
  intros Hk Hnot. split.
  - unfold orderedHeaders. destruct Hk as [->| ->]; simpl; auto.
  - unfold spec_header. rewrite !in_app_iff, !filter_In. tauto.
Qed.

(** C3 (the claim holds of the specification's header, the code departs
    from it): for a first record without [timestamp_iso], as the flattener
    produces from a history item without [t], the header of the code has a
    [timestamp_iso] column that is no key of the record, where the claim
    has the record's keys only, reordered. *)
Theorem header_adds_absent_columns :
  let first := VObj [("l", VNum 100); ("symbol", VStr "BTCUSD")] in
  Object_keys first = Ok ["l"; "symbol"]
  /\ spec_header ["l"; "symbol"] = ["symbol"; "l"]
  /\ orderedHeaders ["l"; "symbol"] = ["symbol"; "timestamp_iso"; "l"]
  /\ convertToCSV (VArr [first] []) =
     Ok ("symbol,timestamp_iso,l" ++ String newline "BTCUSD,,100").
Proof. repeat split. Qed.

(** ** Rows *)

(** C7 (as the claim states it, refuted): the second row has no
    [constructor] field, and its cell under that column is not empty: the
    read finds the member every object inherits. *)
Lemma inherited_member_fills_missing_field :
  let first := VObj [("constructor", VNum 1); ("l", VNum 5)] in
  let second := VObj [("l", VNum 2)] in
  lookup "constructor" [("l", VNum 2)] = None
  /\ convertToCSV (VArr [first; second] []) =
     Ok ("symbol,timestamp_iso,constructor,l" ++ String newline
           (",,1,5" ++ String newline ",,function Object() { [native code] },2")).
Proof. split; reflexivity. Qed.

(** C7 (amended): every row is rendered under the columns taken from the
    first record, so every line has the cells of the header and a key that
    only a later record has makes no column; a field that the row holds as
    [null], or lacks without inheriting a member of that name from the
    built-in prototypes, is rendered as the empty string, as an empty
    string value is. *)
Theorem rows_projected_on_header (first : value) (rest : list value)
    (extra : props) (keys : list string) :
  Object_keys first = Ok keys ->
  let columns := orderedHeaders keys in
  convertToCSV (VArr (first :: rest) extra) =
    (lines <- mapM (fun row =>
                      cells <- mapM (cell_text row) columns ;;
                      Ok (join "," (map csv_quote cells))) (first :: rest) ;;
     Ok (join (String newline "") (join "," columns :: lines)))
  /\ (forall row k,
        nullish row = false ->
        (has_own row k = false /\ inherited row k = None)
        \/ own_get row k = VNull \/ own_get row k = VStr "" ->
        cell_text row k = Ok "" /\ csv_quote "" = "").
Proof.
  intros Hk columns. split.
  - now rewrite (convertToCSV_rows _ _ _ _ Hk).
  - intros row k Hn H. split; [|reflexivity].
    destruct H as [[Ho Hi]|[H|H]].
    + now apply cell_text_missing.
    + now rewrite (cell_text_own row k VNull).
    + now rewrite (cell_text_own row k (VStr "")).
Qed.

Lemma rows_projected_on_header_witness :
  let first := VObj [("l", VNum 100); ("s", VNull); ("symbol", VStr "BTCUSD")] in
  let second := VObj [("l", VStr ""); ("extra", VNum 1); ("symbol", VStr "ETHUSD")] in
  convertToCSV (VArr [first; second] [])
  = Ok ("symbol,timestamp_iso,l,s" ++ String newline
        ("BTCUSD,,100," ++ String newline "ETHUSD,,,"))
  /\ cell_text second "s" = Ok ""
  /\ cell_text first "s" = Ok ""
  /\ cell_text second "l" = Ok "".
Proof.
  intros first second.
  pose proof (rows_projected_on_header first [second] [] ["l"; "s"; "symbol"] eq_refl)
    as [Hcsv Hcell].
  split; [exact (eq_trans Hcsv eq_refl)|]. split; [|split].
  - apply (Hcell second "s" eq_refl). left. split; reflexivity.
  - apply (Hcell first "s" eq_refl). right. left. reflexivity.
  - apply (Hcell second "l" eq_refl). right. right. reflexivity.
Defined.

(** C10 (as the claim states it, refuted): the first record has no
    [symbol], and yet the second row has a cell in the [symbol] column. *)
Lemma later_row_fills_prepended_column :
  let first := VObj [("l", VNum 1)] in
  let second := VObj [("l", VNum 2); ("symbol", VStr "ETHUSD")] in
  lookup "symbol" [("l", VNum 1)] = None
  /\ convertToCSV (VArr [first; second] []) =
     Ok ("symbol,timestamp_iso,l" ++ String newline (",,1" ++ String newline "ETHUSD,,2")).
Proof. repeat split. Qed.

(** C10 (amended): the header begins with [symbol] and [timestamp_iso]
    whatever the keys of the first record; in these two columns every row
    has the rendering of its own field, which is the empty cell for a row
    that lacks the key, the first one included. The text is returned
    whenever the own properties of the rows have strings. *)
Theorem header_begins_with_symbol_and_timestamp (first : value) (rest : list value)
    (extra : props) :
  Forall (fun r => nullish r = false) (first :: rest) ->
  exists others,
    convertToCSV (VArr (first :: rest) extra) =
      (lines <- mapM (fun row =>
                        symbol <- cell_text row "symbol" ;;
                        timestamp_iso <- cell_text row "timestamp_iso" ;;
                        cells <- mapM (cell_text row) others ;;
                        Ok (join "," (map csv_quote (symbol :: timestamp_iso :: cells))))
                 (first :: rest) ;;
       Ok (join (String newline "")
             (join "," ("symbol" :: "timestamp_iso" :: others) :: lines)))
    /\ (forall row k, nullish row = false -> k = "symbol" \/ k = "timestamp_iso" ->
          cell_text row k = (if nullish (own_get row k) then Ok ""
                             else ToString (own_get row k))
          /\ (has_own row k = false -> cell_text row k = Ok ""))
    /\ (Forall (fun r => cells_stringify r = true) (first :: rest) ->
        exists csv, convertToCSV (VArr (first :: rest) extra) = Ok csv).
Proof.
  intros H. inversion H as [|? ? Hfirst Hrest]; subst.
  destruct (Object_keys_total first Hfirst) as [keys Hk].
  exists (filter (fun hd => negb (String.eqb hd "symbol")
                            && negb (String.eqb hd "timestamp_iso")) keys).
  rewrite (convertToCSV_rows first rest extra keys Hk).
  split; [|split].
  - f_equal. apply mapM_ext_in. intros row _.
    unfold csv_line, row_strings, orderedHeaders. cbn [mapM].
    destruct (cell_text row "symbol"); cbn [bind]; [|reflexivity].
    destruct (cell_text row "timestamp_iso"); cbn [bind]; [|reflexivity].
    destruct (mapM (cell_text row) _); reflexivity.
  - intros row k Hn Hkk.
    assert (Hin : In k ["symbol"; "timestamp_iso"; "history"; "t"; "error"; "length"; "0"])
      by (destruct Hkk as [->| ->]; simpl; auto).
    split.
    + unfold cell_text. now rewrite (proj1 (member_named row k Hn Hin)).
    + intros Ho. apply cell_text_missing; auto using inherited_named.
  - intros Hs.
    destruct (mapM_total (csv_line (orderedHeaders keys)) (first :: rest)) as [lines ->];
      [|simpl; eauto].
    rewrite Forall_forall in H, Hs. apply Forall_forall. intros row Hin.
    apply csv_line_total; auto.
Qed.

Lemma header_begins_with_symbol_and_timestamp_witness :
  exists others,
    convertToCSV (VArr [VObj [("l", VNum 1)]; VObj [("l", VNum 2)]] []) =
      (lines <- mapM (fun row =>
                        symbol <- cell_text row "symbol" ;;
                        timestamp_iso <- cell_text row "timestamp_iso" ;;
                        cells <- mapM (cell_text row) others ;;
                        Ok (join "," (map csv_quote (symbol :: timestamp_iso :: cells))))
                 [VObj [("l", VNum 1)]; VObj [("l", VNum 2)]] ;;
       Ok (join (String newline "")
             (join "," ("symbol" :: "timestamp_iso" :: others) :: lines)))
    /\ (forall row k, nullish row = false -> k = "symbol" \/ k = "timestamp_iso" ->
          cell_text row k = (if nullish (own_get row k) then Ok ""
                             else ToString (own_get row k))
          /\ (has_own row k = false -> cell_text row k = Ok ""))
    /\ (Forall (fun r => cells_stringify r = true)
          [VObj [("l", VNum 1)]; VObj [("l", VNum 2)]] ->
        exists csv,
          convertToCSV (VArr [VObj [("l", VNum 1)]; VObj [("l", VNum 2)]] []) = Ok csv).
Proof.
  apply (header_begins_with_symbol_and_timestamp
           (VObj [("l", VNum 1)]) [VObj [("l", VNum 2)]] []).
  repeat constructor.
Defined.
(* ================================================================== *)
(** * Reading back what the serializer wrote *)

(** The reader goes through an unquoted string without a separator of
    fields or of records in it. *)
Lemma scan_plain_chars s : forall field row rows rest,
  has_special s = false -> no_return s = true ->
  csv_scan Plain field row rows (s ++ rest) = csv_scan Plain (field ++ s) row rows rest.
Proof.
  induction s as [|c s IH]; intros field row rows rest H R; simpl.
  - now rewrite append_nil_r.
  - simpl in H. apply orb_false_iff in H as [Hc Hs]. unfold special in Hc.
    apply orb_false_iff in Hc as [Hc Hq]. apply orb_false_iff in Hc as [Hc Hn].
    simpl in R. apply andb_prop in R as [Hr R]. apply negb_true_iff in Hr.
    rewrite Hc, Hn, Hq, Hr. rewrite IH by assumption.
    now rewrite append_assoc.
Qed.

Lemma scan_plain_done field row rows rest :
  at_separator rest = true ->
  csv_scan Plain field row rows rest = csv_field_done field row rows rest.
Proof.
  destruct rest as [|c r]; simpl; [reflexivity|]. intros H.
  destruct (Ascii.eqb c comma); [reflexivity|].
  destruct (Ascii.eqb c newline); [reflexivity | discriminate].
Qed.

(** At the beginning of a record that is not the end of the text, the
    reader is in an unquoted field. *)
Lemma scan_start s rows :
  s <> "" -> csv_scan Start "" [] rows s = csv_scan Plain "" [] rows s.
Proof. destruct s; [contradiction | reflexivity]. Qed.

Lemma scan_quoted_chars s : forall field row rows rest,
  csv_scan Quoted field row rows (double_quotes s ++ String dquote rest)
  = csv_scan QuoteSeen (field ++ s) row rows rest.
Proof.
  induction s as [|c s IH]; intros field row rows rest; simpl.
  - now rewrite append_nil_r.
  - destruct (Ascii.eqb c dquote) eqn:E; simpl.
    + apply Ascii.eqb_eq in E. subst c.
      rewrite IH. now rewrite append_assoc.
    + rewrite E. rewrite IH. now rewrite append_assoc.
Qed.

Lemma scan_quoteseen_done field row rows rest :
  at_separator rest = true ->
  csv_scan QuoteSeen field row rows rest = csv_field_done field row rows rest.
Proof.
  destruct rest as [|c r]; simpl; [reflexivity|]. intros H.
  destruct (Ascii.eqb_spec c dquote) as [->|_]; [discriminate|].
  destruct (Ascii.eqb c comma); [reflexivity|].
  destruct (Ascii.eqb c newline); [reflexivity | discriminate].
Qed.

(** One written cell is read back as the string it was written from,
    when the string is quoted or has no carriage return. *)
Lemma scan_cell s row rows rest :
  readable s = true -> at_separator rest = true ->
  csv_scan Plain "" row rows (csv_quote s ++ rest) = csv_field_done s row rows rest.
Proof.
  unfold readable, csv_quote. intros R H. destruct (has_special s) eqn:E.
  - unfold wrapped. cbn [append csv_scan].
    change (Ascii.eqb dquote comma) with false.
    change (Ascii.eqb dquote newline) with false.
    change (Ascii.eqb dquote carriage_return) with false.
    change (Ascii.eqb dquote dquote) with true. cbv iota.
    rewrite append_assoc. cbn [append].
    rewrite scan_quoted_chars. cbn [append]. now apply scan_quoteseen_done.
  - rewrite scan_plain_chars by assumption. simpl. now apply scan_plain_done.
Qed.

Lemma join_cons sep x y l : join sep (x :: y :: l) = x ++ sep ++ join sep (y :: l).
Proof. reflexivity. Qed.

(** One written line is read back as its cells. *)
Lemma scan_line cells : forall row rows rest,
  cells <> [] -> Forall (fun s => readable s = true) cells ->
  (rest = "" \/ exists r, rest = String newline r) ->
  csv_scan Plain "" row rows (join "," (map csv_quote cells) ++ rest)
  = match rest with
    | EmptyString => Some (rows ++ [row ++ cells])%list
    | String _ r => csv_scan Start "" [] (rows ++ [row ++ cells])%list r
    end.
Proof.
  induction cells as [|s cells IH]; intros row rows rest Hne Hall Hrest; [contradiction|].
  inversion Hall as [|? ? Hs Hall']; subst.
  destruct cells as [|s' cells].
  - simpl. rewrite scan_cell.
    + destruct Hrest as [->|[r ->]]; reflexivity.
    + assumption.
    + destruct Hrest as [->|[r ->]]; reflexivity.
  - cbn [map]. rewrite join_cons, !append_assoc.
    rewrite scan_cell by (assumption || reflexivity).
    simpl csv_field_done. cbn [map] in IH. rewrite IH by (assumption || discriminate).
    rewrite <- app_assoc. reflexivity.
Qed.

Lemma line_not_empty a b l rest : join "," (a :: b :: l) ++ rest <> "".
Proof.
  rewrite join_cons. destruct a; simpl; discriminate.
Qed.

(** A written table of lines of two cells or more is read back as it
    was. *)
Lemma scan_table table : forall rows,
  table <> [] ->
  Forall (fun cells => (2 <= List.length cells)%nat
                       /\ Forall (fun s => readable s = true) cells) table ->
  csv_scan Start "" [] rows
    (join (String newline "") (map (fun cells => join "," (map csv_quote cells)) table))
  = Some (rows ++ table)%list.
Proof.
  induction table as [|cells table IH]; intros rows Hne Hall; [contradiction|].
  inversion Hall as [|? ? [Hc Hr] Hall']; subst.
  assert (Hcells : cells <> []) by (destruct cells; simpl in Hc; [lia | discriminate]).
  destruct table as [|cells' table].
  - simpl. rewrite <- (append_nil_r (join "," (map csv_quote cells))).
    rewrite scan_start.
    + rewrite scan_line by auto. reflexivity.
    + destruct cells as [|a [|b l]]; simpl in Hc; try lia. apply line_not_empty.
  - cbn [map]. rewrite join_cons. cbn [map] in IH.
    rewrite scan_start.
    + rewrite scan_line by (assumption || (right; eexists; reflexivity)).
      cbn [append]. rewrite IH by (assumption || discriminate).
      rewrite <- app_assoc. reflexivity.
    + destruct cells as [|a [|b l]]; simpl in Hc; try lia. apply line_not_empty.
Qed.

Lemma csv_quote_plain s : has_special s = false -> csv_quote s = s.
Proof. unfold csv_quote. now intros ->. Qed.

Lemma map_csv_quote_plain l :
  Forall (fun k => has_special k = false) l -> map csv_quote l = l.
Proof.
  induction 1 as [|k l Hk _ IH]; simpl; [reflexivity|].
  now rewrite csv_quote_plain, IH.
Qed.

Lemma orderedHeaders_all (P : string -> Prop) keys :
  P "symbol" -> P "timestamp_iso" -> Forall P keys -> Forall P (orderedHeaders keys).
Proof.
  intros Hs Ht H. unfold orderedHeaders.
  constructor; [assumption|]. constructor; [assumption|].
  apply Forall_forall. intros k Hin. apply filter_In in Hin as [Hin _].
  rewrite Forall_forall in H. auto.
Qed.

Lemma mapM_bind_map {A B C : Type} (f : A -> result B) (g : B -> C) (l : list A) ys :
  mapM f l = Ok ys -> mapM (fun x => y <- f x ;; Ok (g y)) l = Ok (map g ys).
Proof. intros H. now rewrite mapM_map, H. Qed.

(** The round trip, for records whose keys are free of commas, line
    breaks and double quotes: the text is read back as the header followed
    by the cell strings of every row, whatever the values contain apart
    from a carriage return in a string that is written unquoted. *)
Lemma csv_round_trip (first : value) (rest : list value) (extra : props)
    (keys : list string) (table : list (list string)) :
  Object_keys first = Ok keys ->
  Forall (fun k => has_special k = false /\ no_return k = true) keys ->
  mapM (row_strings (orderedHeaders keys)) (first :: rest) = Ok table ->
  Forall (Forall (fun s => readable s = true)) table ->
  exists csv,
    convertToCSV (VArr (first :: rest) extra) = Ok csv
    /\ parse_csv csv = Some (orderedHeaders keys :: table).
Proof.
  intros Hk Hplain Htable Hread.
  set (columns := orderedHeaders keys) in *.
  assert (Hcols : Forall (fun k => has_special k = false /\ no_return k = true) columns)
    by (apply orderedHeaders_all; auto).
  rewrite (convertToCSV_rows first rest extra keys Hk). fold columns.
  unfold csv_line. rewrite (mapM_bind_map _ _ _ _ Htable). cbn [bind].
  eexists. split; [reflexivity|].
  unfold parse_csv.
  replace (join "," columns) with (join "," (map csv_quote columns)).
  2:{ rewrite map_csv_quote_plain; [reflexivity|].
      eapply Forall_impl; [|exact Hcols]. now intros k [H _]. }
  change (join "," (map csv_quote columns)
          :: map (fun y => join "," (map csv_quote y)) table)
    with (map (fun cells => join "," (map csv_quote cells)) (columns :: table)).
  rewrite scan_table; [reflexivity | discriminate |].
  constructor.
  - split; [unfold columns, orderedHeaders; simpl; lia|].
    eapply Forall_impl; [|exact Hcols]. intros k [_ H]. unfold readable.
    rewrite H. apply orb_true_r.
  - apply mapM_Forall2 in Htable.
    clear -Htable Hread. induction Htable as [|row cells rows table Hrow _ IH].
    + constructor.
    + inversion Hread; subst. constructor; [|auto]. split; [|assumption].
      unfold row_strings in Hrow. apply mapM_length in Hrow. rewrite Hrow.
      unfold columns, orderedHeaders. simpl. lia.
Qed.

(** C5 (the claim holds for keys without such characters, the code departs
    from it otherwise): the header line is written without the quoting the
    cells get. A first record with a key that begins with a double quote
    gives a text that cannot be read back: the quote opens a field that
    never closes, and the value [v] is lost. *)
Theorem unquoted_header_breaks_round_trip :
  let k := String dquote "k" in
  let data := VArr [VObj [(k, VStr "v")]] [] in
  convertToCSV data
    = Ok ("symbol,timestamp_iso," ++ String dquote "k" ++ String newline ",,v")
  /\ parse_csv ("symbol,timestamp_iso," ++ String dquote "k" ++ String newline ",,v")
     = None.
Proof. split; reflexivity. Qed.

(* ================================================================== *)
(** * Dates *)

(** Goals about division and remainder by constants. *)
Ltac zdiv := Z.div_mod_to_equations; lia.

Lemma civil_from_days_spec z :
  forall y m d, civil_from_days z = (y, m, d) ->
  1 <= m <= 12 /\ 1 <= d <= 31 /\ days_from_civil y m d = z.
Proof.
  intros y m d. unfold civil_from_days.
  set (era := (z + 719468) / 146097).
  set (doe := z + 719468 - era * 146097).
  set (yoe := (doe - doe / 1460 + doe / 36524 - doe / 146096) / 365).
  set (doy := doe - (365 * yoe + yoe / 4 - yoe / 100)).
  set (mp := (5 * doy + 2) / 153).
  assert (Hdoe : 0 <= doe <= 146096) by (subst doe era; zdiv).
  assert (Hyoe : 0 <= yoe <= 399 /\ 0 <= doy <= 365)
    by (subst doy yoe; zdiv).
  assert (Hmp : 0 <= mp <= 11) by (subst mp; zdiv).
  assert (Hd : 1 <= doy - (153 * mp + 2) / 5 + 1 <= 31)
    by (subst mp; zdiv).
  unfold days_from_civil.
  destruct (Z.ltb_spec mp 10) as [Hlt|Hge].
  - destruct (Z.leb_spec (mp + 3) 2) as [?|_]; [lia|].
    intros E. apply pair_equal_spec in E as [E Ed].
    apply pair_equal_spec in E as [Ey Em].
    assert (Hm : m = mp + 3) by lia. clear Em.
    destruct (Z.leb_spec m 2) as [?|_]; [lia|].
    destruct (Z.gtb_spec m 2) as [_|?]; [|lia].
    subst y m d. repeat split; try lia.
    replace (mp + 3 - 3) with mp by lia.
    replace ((yoe + era * 400) / 400) with era by zdiv.
    replace (yoe + era * 400 - era * 400) with yoe by lia.
    subst doy doe. lia.
  - destruct (Z.leb_spec (mp - 9) 2) as [_|?]; [|lia].
    intros E. apply pair_equal_spec in E as [E Ed].
    apply pair_equal_spec in E as [Ey Em].
    assert (Hm : m = mp - 9) by lia. clear Em.
    destruct (Z.leb_spec m 2) as [_|?]; [|lia].
    destruct (Z.gtb_spec m 2) as [?|_]; [lia|].
    subst y m d. repeat split; try lia.
    replace (mp - 9 + 9) with mp by lia.
    replace (yoe + era * 400 + 1 - 1) with (yoe + era * 400) by lia.
    replace ((yoe + era * 400) / 400) with era by zdiv.
    replace (yoe + era * 400 - era * 400) with yoe by lia.
    subst doy doe. lia.
Qed.

Lemma days_from_civil_day y m d : days_from_civil y m 1 + d - 1 = days_from_civil y m d.
Proof. unfold days_from_civil. lia. Qed.

Lemma days_from_civil_year y m d :
  1 <= m <= 12 -> 1 <= d <= 31 ->
  -100000000 <= days_from_civil y m d <= 100000000 ->
  -999999 <= y <= 999999.
Proof.
  unfold days_from_civil. intros Hm Hd.
  destruct (Z.leb_spec m 2), (Z.gtb_spec m 2); try lia;
    zdiv.
Qed.

Lemma digit_val_digit_char d : 0 <= d < 10 -> digit_val (digit_char d) = Some d.
Proof.
  intros H.
  assert (E : d = 0 \/ d = 1 \/ d = 2 \/ d = 3 \/ d = 4 \/ d = 5 \/ d = 6 \/ d = 7
              \/ d = 8 \/ d = 9) by lia.
  repeat (destruct E as [-> | E]; [reflexivity|]). now subst.
Qed.

Lemma read_digits_app k1 : forall k2 acc s,
  read_digits (k1 + k2) acc s =
  match read_digits k1 acc s with
  | Some (a, r) => read_digits k2 a r
  | None => None
  end.
Proof.
  induction k1 as [|k1 IH]; intros k2 acc s; simpl; [reflexivity|].
  destruct s as [|c s]; [reflexivity|].
  destruct (digit_val c); [apply IH | reflexivity].
Qed.

(** Reading back a zero-padded number. *)
Lemma read_digits_pad k : forall n acc rest,
  read_digits k acc (pad_digits k n ++ rest)
  = Some (acc * 10 ^ Z.of_nat k + n mod 10 ^ Z.of_nat k, rest).
Proof.
  induction k as [|k IH]; intros n acc rest.
  - simpl. rewrite Z.mod_1_r. f_equal. f_equal. lia.
  - replace (S k) with (k + 1)%nat at 1 by lia.
    rewrite read_digits_app. cbn [pad_digits]. rewrite append_assoc. rewrite IH.
    cbn [append read_digits].
    rewrite digit_val_digit_char by (apply Z.mod_pos_bound; lia).
    f_equal. f_equal.
    rewrite Nat2Z.inj_succ, Z.pow_succ_r by lia.
    rewrite (Z.rem_mul_r n 10 (10 ^ Z.of_nat k)) by lia. lia.
Qed.

Lemma read_digits_pad_small k n rest :
  0 <= n < 10 ^ Z.of_nat k ->
  read_digits k 0 (pad_digits k n ++ rest) = Some (n, rest).
Proof.
  intros H. rewrite read_digits_pad. f_equal. f_equal.
  rewrite Z.mod_small by assumption. lia.
Qed.

Lemma read_year_digit c s d :
  digit_val c = Some d -> read_year (String c s) = read_digits 4 0 (String c s).
Proof.
  destruct c as [[] [] [] [] [] [] [] []]; intros H; try discriminate H; reflexivity.
Qed.

Lemma pad_digits_head k n :
  pad_digits (S k) n
  = String (digit_char ((n / 10 ^ Z.of_nat k) mod 10)) (pad_digits k n).
Proof.
  revert n. induction k as [|k IH]; intros n.
  - simpl. now rewrite Z.div_1_r.
  - change (pad_digits (S (S k)) n)
      with (pad_digits (S k) (n / 10) ++ String (digit_char (n mod 10)) "").
    rewrite IH. cbn [append].
    rewrite (Nat2Z.inj_succ k), Z.pow_succ_r by lia.
    rewrite Z.div_div by lia. reflexivity.
Qed.

Lemma read_year_pad4 y rest :
  read_year (pad_digits 4 y ++ rest) = read_digits 4 0 (pad_digits 4 y ++ rest).
Proof.
  rewrite pad_digits_head. cbn [append]. eapply read_year_digit.
  apply digit_val_digit_char. apply Z.mod_pos_bound. lia.
Qed.

Lemma read_year_iso y rest :
  -999999 <= y <= 999999 -> read_year (iso_year y ++ rest) = Some (y, rest).
Proof.
  intros Hy. unfold iso_year.
  destruct (Z.leb_spec 0 y) as [H0|H0]; [destruct (Z.leb_spec y 9999) as [H1|H1]|];
    cbn [andb].
  - rewrite read_year_pad4. apply read_digits_pad_small. simpl. lia.
  - destruct (Z.ltb_spec y 0); [lia|]. cbn [append read_year].
    rewrite read_digits_pad_small by (simpl; lia).
    f_equal. f_equal. lia.
  - destruct (Z.ltb_spec y 0); [|lia]. cbn [append read_year].
    rewrite read_digits_pad_small by (simpl; lia).
    destruct (Z.eqb_spec (Z.abs y) 0); [lia|]. f_equal. f_equal. lia.
Qed.

Lemma read_date_iso y m d rest :
  -999999 <= y <= 999999 -> 0 <= m < 100 -> 0 <= d < 100 ->
  read_date (iso_date y m d ++ rest) = Some (y, m, d, rest).
Proof.
  intros Hy Hm Hd. unfold iso_date, read_date.
  rewrite !append_assoc. rewrite read_year_iso by assumption.
  cbn [append read_opt2]. change (Ascii.eqb "-" "-") with true. cbv iota.
  rewrite read_digits_pad_small by (simpl; lia).
  cbn [append read_opt2]. change (Ascii.eqb "-" "-") with true. cbv iota.
  rewrite read_digits_pad_small by (simpl; lia). reflexivity.
Qed.

Lemma read_time_iso tod :
  0 <= tod < msPerDay ->
  read_time (iso_time tod ++ "Z") = Some (tod, Some 0).
Proof.
  unfold msPerDay. intros H. unfold iso_time, read_time.
  rewrite !append_assoc.
  rewrite read_digits_pad_small by (simpl; zdiv).
  cbn [append].
  rewrite read_digits_pad_small by (simpl; zdiv).
  cbn [append read_opt2]. change (Ascii.eqb ":" ":") with true. cbv iota.
  rewrite read_digits_pad_small by (simpl; zdiv).
  cbn [append read_millis].
  rewrite read_digits_pad_small by (simpl; zdiv).
  cbn [read_zone].
  assert (Hh : tod / 3600000 <= 23) by zdiv.
  assert (Hm : tod / 60000 mod 60 <= 59) by zdiv.
  assert (Hs : tod / 1000 mod 60 <= 59) by zdiv.
  destruct (Z.leb_spec (tod / 3600000) 24); [|lia].
  destruct (Z.leb_spec (tod / 60000 mod 60) 59); [|lia].
  destruct (Z.leb_spec (tod / 1000 mod 60) 59); [|lia].
  destruct (Z.ltb_spec (tod / 3600000) 24); [|lia].
  cbn [andb orb]. f_equal. f_equal.
  zdiv.
Qed.

(** The text [toISOString] gives for a time value in range is in the Date
    Time String Format, and its time value is the one it was made from. *)
Lemma parse_format_iso h t :
  Z.abs t <= maxTime -> parse_format h (format_iso t) = Some (Some t).
Proof.
  unfold maxTime. intros Ht. unfold format_iso, parse_format.
  destruct (civil_from_days (t / msPerDay)) as [[y m] d] eqn:E.
  destruct (civil_from_days_spec _ _ _ _ E) as (Hm & Hd & Hday).
  assert (Hrange : -100000000 <= t / msPerDay <= 100000000)
    by (unfold msPerDay; zdiv).
  assert (Hy : -999999 <= y <= 999999).
  { apply (days_from_civil_year y m d); try assumption. now rewrite Hday. }
  rewrite read_date_iso by lia.
  cbn [append]. rewrite read_time_iso by (apply Z.mod_pos_bound; reflexivity).
  rewrite days_from_civil_day, Hday.
  destruct (Z.leb_spec 1 m); [|lia]. destruct (Z.leb_spec m 12); [|lia].
  destruct (Z.leb_spec 1 d); [|lia]. destruct (Z.leb_spec d 31); [|lia].
  cbn [andb]. unfold TimeClip, maxTime.
  replace (t / msPerDay * msPerDay + t mod msPerDay - 0) with t
    by (unfold msPerDay; zdiv).
  destruct (Z.leb_spec (Z.abs t) 8640000000000000); [reflexivity | lia].
Qed.

Lemma Date_parse_iso h t : Z.abs t <= maxTime -> Date_parse h (format_iso t) = Some t.
Proof. intros H. unfold Date_parse. now rewrite parse_format_iso. Qed.

(* ================================================================== *)
(** * Timestamps of the flattened records *)

Lemma get_t_object_or_array entry n :
  own_get entry "t" = VNum n ->
  match entry with VArr _ _ | VObj _ => True | _ => False end.
Proof. destruct entry; simpl; intros H; try discriminate H; exact I. Qed.

Lemma stamp_timestamp h symbol entry record :
  stamp h symbol entry = Ok record -> timestamp_stamped h entry record.
Proof.
  unfold stamp. intros H.
  apply bind_Ok in H as (e1 & He1 & H).
  assert (Hn1 : nullish e1 = false) by (eapply set_not_nullish; eauto).
  rewrite (get_Ok e1 "t" Hn1) in H. cbn [bind] in H.
  rewrite (own_get_set_other _ _ _ _ "t" He1) in H by discriminate.
  split.
  - intros n Et Hn0. rewrite Et in H. cbn [truthy new_Date] in H.
    destruct (Z.eqb_spec n 0) as [?|_]; [contradiction|]. cbn [negb] in H.
    unfold TimeClip in H. destruct (Z.leb_spec (Z.abs n) maxTime) as [Hr|Hr];
      [|discriminate H].
    cbn [toISOString bind] in H. exists (format_iso n). split.
    + pose proof (own_get_set_same _ _ _ _ H eq_refl eq_refl) as Hs.
      pose proof (get_t_object_or_array entry n Et) as Hshape.
      destruct entry; try contradiction; simpl in He1; injection He1 as <-;
        exact Hs.
    + now apply parse_format_iso.
  - intros Hf. rewrite Hf in H. injection H as <-.
    apply (own_get_set_other _ _ _ _ "timestamp_iso" He1). discriminate.
Qed.

(** C2 (as the claim states it, refuted): a history item whose [t] is the
    number 0 comes out without [timestamp_iso]. *)
Lemma zero_epoch_not_stamped :
  let data := VArr [VObj [("symbol", VStr "BTCUSD");
                          ("history", VArr [VObj [("t", VNum 0); ("l", VNum 100)]] [])]] [] in
  exists record,
    parseLiquidationData utc_host data = Ok [record]
    /\ own_get record "timestamp_iso" = VUndefined
    /\ Object_keys record = Ok ["t"; "l"; "symbol"].
Proof. eexists. repeat split. Qed.

(** C2 (amended): in the records the flattener returns, taken with the
    history items they come from, an item with a non-zero numeric [t] has
    as [timestamp_iso] a string in the Date Time String Format (the
    ISO 8601 profile of [toISOString]) whose millisecond epoch is [t]; an
    item whose [t] is absent, or falsy as the number 0 is, keeps
    [timestamp_iso] as it was: unset when the item had none. On stampable
    items the flattener does return. *)
Theorem timestamp_iso_of_epoch (h : host) (data : value) :
  (Forall (fun p => stampable (snd p) = true) (history_items (items_of data)) ->
   exists recs, parseLiquidationData h data = Ok recs)
  /\ (forall recs,
        parseLiquidationData h data = Ok recs ->
        Forall2 (fun p record => timestamp_stamped h (snd p) record)
          (history_items (items_of data)) recs).
Proof.
  split; [apply parseLiquidationData_total|].
  intros recs H. destruct (isArray data) eqn:Ea.
  2:{ rewrite parseLiquidationData_not_array in H by assumption.
      injection H as <-. destruct data; try discriminate Ea; constructor. }
  destruct data as [| | | | |items extra| | |]; try discriminate Ea.
  rewrite parseLiquidationData_items in H. simpl items_of.
  apply mapM_Forall2 in H.
  eapply Forall2_impl; [|exact H].
  intros p record Hp. now apply stamp_timestamp in Hp.
Qed.

Lemma timestamp_iso_of_epoch_witness :
  let data := VArr [VObj [("symbol", VStr "BTCUSD");
                          ("history",
                           VArr [VObj [("t", VNum 1700000000000); ("l", VNum 100);
                                       ("s", VNum 50)]] [])]] [] in
  (exists recs, parseLiquidationData utc_host data = Ok recs)
  /\ Forall2 (fun p record => timestamp_stamped utc_host (snd p) record)
       [(VStr "BTCUSD", VObj [("t", VNum 1700000000000); ("l", VNum 100); ("s", VNum 50)])]
       [VObj [("t", VNum 1700000000000); ("l", VNum 100); ("s", VNum 50);
              ("symbol", VStr "BTCUSD");
              ("timestamp_iso", VStr "2023-11-14T22:13:20.000Z")]].
Proof.
  intros data. split.
  - apply (proj1 (timestamp_iso_of_epoch utc_host data)). repeat constructor.
  - apply (proj2 (timestamp_iso_of_epoch utc_host data)). reflexivity.
Defined.

(* ================================================================== *)
(** * The date range *)

Lemma days_from_civil_bound y m d :
  0 <= y <= 9999 -> 1 <= m <= 12 -> 1 <= d <= 31 ->
  -1000000 <= days_from_civil y m d <= 3000000.
Proof.
  unfold days_from_civil. intros Hy Hm Hd.
  destruct (Z.leb_spec m 2), (Z.gtb_spec m 2); try lia;
    zdiv.
Qed.

(** The time value of a local date and time of day, in the format
    without a zone. *)
Lemma Date_parse_local h y m d time tod :
  0 <= y <= 9999 -> 1 <= m <= 12 -> 1 <= d <= 31 ->
  read_time time = Some (tod, None) ->
  Date_parse h (iso_date y m d ++ String "T" time)
  = let t := days_from_civil y m d * msPerDay + tod in
    TimeClip (t - LocalTZA h t).
Proof.
  intros Hy Hm Hd Htime. unfold Date_parse, parse_format.
  rewrite read_date_iso by lia. rewrite Htime.
  destruct (Z.leb_spec 1 m); [|lia]. destruct (Z.leb_spec m 12); [|lia].
  destruct (Z.leb_spec 1 d); [|lia]. destruct (Z.leb_spec d 31); [|lia].
  cbn [andb]. now rewrite days_from_civil_day.
Qed.

Lemma days_in_month_le y m : days_in_month y m <= 31.
Proof.
  unfold days_in_month. destruct (m =? 2); [destruct (leap_year y); lia|].
  destruct ((m =? 4) || (m =? 6) || (m =? 9) || (m =? 11)); lia.
Qed.

(** C8: for a calendar day [y]-[m]-[d] given as start and as end date, on
    a host whose local offset stays within a day and does not leap forward
    by a whole day between midnight and the end of that day, the range
    check passes: [from], the epoch second of local midnight, is strictly
    below [to], the epoch second of 23:59:59.999 local time. *)
Theorem same_day_range_valid (h : host) (y m d : Z) :
  0 <= y <= 9999 -> 1 <= m <= 12 -> 1 <= d <= days_in_month y m ->
  let midnight := days_from_civil y m d * msPerDay in
  let day_end := midnight + 86399999 in
  Z.abs (LocalTZA h midnight) <= msPerDay ->
  Z.abs (LocalTZA h day_end) <= msPerDay ->
  LocalTZA h day_end - LocalTZA h midnight <= 86398999 ->
  exists fromTimestamp toTimestamp,
    date_range h (iso_date y m d) (iso_date y m d) = Some (fromTimestamp, toTimestamp)
    /\ fromTimestamp = (midnight - LocalTZA h midnight) / 1000
    /\ toTimestamp = (day_end - LocalTZA h day_end) / 1000
    /\ fromTimestamp < toTimestamp.
Proof.
  intros Hy Hm Hd' midnight day_end Ho1 Ho2 Hjump.
  assert (Hd : 1 <= d <= 31) by (pose proof (days_in_month_le y m); lia).
  pose proof (days_from_civil_bound y m d Hy Hm Hd) as Hb.
  unfold date_range, epoch_seconds.
  change ("T00:00:00") with (String "T" "00:00:00").
  change ("T23:59:59.999") with (String "T" "23:59:59.999").
  rewrite (Date_parse_local h y m d "00:00:00" 0) by (assumption || reflexivity).
  rewrite (Date_parse_local h y m d "23:59:59.999" 86399999)
    by (assumption || reflexivity).
  cbv zeta. rewrite Z.add_0_r. fold midnight. fold day_end.
  unfold TimeClip, maxTime, msPerDay in *.
  destruct (Z.leb_spec (Z.abs (midnight - LocalTZA h midnight)) 8640000000000000);
    [|subst midnight; lia].
  destruct (Z.leb_spec (Z.abs (day_end - LocalTZA h day_end)) 8640000000000000);
    [|subst day_end midnight; lia].
  cbn [option_map].
  assert (Hlt : (midnight - LocalTZA h midnight) / 1000
                < (day_end - LocalTZA h day_end) / 1000).
  { subst day_end. zdiv. }
  destruct (Z.geb_spec ((midnight - LocalTZA h midnight) / 1000)
              ((day_end - LocalTZA h day_end) / 1000)); [lia|].
  do 2 eexists. repeat split. exact Hlt.
Qed.

Lemma same_day_range_valid_witness :
  exists fromTimestamp toTimestamp,
    date_range utc_host "2024-01-01" "2024-01-01" = Some (fromTimestamp, toTimestamp)
    /\ fromTimestamp = 1704067200
    /\ toTimestamp = 1704153599
    /\ fromTimestamp < toTimestamp.
Proof.
  apply (same_day_range_valid utc_host 2024 1 1).
  - lia.
  - lia.
  - change (days_in_month 2024 1) with 31. lia.
  - unfold msPerDay. simpl. lia.
  - unfold msPerDay. simpl. lia.
  - simpl. lia.
Defined.

(* ================================================================== *)
(** * The fetch control *)

Section Traces.

Context {A B : Type}.

Lemma extends_ret (a : A) : extends_trace (io_ret a).
Proof. intros s. exists []. simpl. now rewrite app_nil_r. Qed.

Lemma extends_return : extends_trace (@io_return A).
Proof. intros s. exists []. simpl. now rewrite app_nil_r. Qed.

Lemma extends_throw (x : exn) : extends_trace (@io_throw A x).
Proof. intros s. exists []. simpl. now rewrite app_nil_r. Qed.

Lemma extends_lift (r : result A) : extends_trace (lift r).
Proof. intros s. exists []. unfold lift. destruct r; simpl; now rewrite app_nil_r. Qed.

Lemma extends_bind (c : io A) (k : A -> io B) :
  extends_trace c -> (forall a, extends_trace (k a)) -> extends_trace (io_bind c k).
Proof.
  intros Hc Hk s. unfold io_bind. destruct (Hc s) as [evs1 H1].
  destruct (c s) as [[a| |x] s1]; simpl in *.
  - destruct (Hk a s1) as [evs2 H2]. exists (evs1 ++ evs2)%list.
    now rewrite H2, H1, app_assoc.
  - eauto.
  - eauto.
Qed.

Lemma extends_try_catch (body : io A) (handler : exn -> io A) :
  extends_trace body -> (forall x, extends_trace (handler x)) ->
  extends_trace (try_catch body handler).
Proof.
  intros Hb Hh s. unfold try_catch. destruct (Hb s) as [evs1 H1].
  destruct (body s) as [[a| |x] s1]; simpl in *; eauto.
  destruct (Hh x s1) as [evs2 H2]. exists (evs1 ++ evs2)%list.
  now rewrite H2, H1, app_assoc.
Qed.

Lemma extends_try_finally (body : io A) (fin : io unit) :
  extends_trace body -> extends_trace fin -> extends_trace (try_finally body fin).
Proof.
  intros Hb Hf s. unfold try_finally. destruct (Hb s) as [evs1 H1].
  destruct (body s) as [c s1]. simpl in H1. destruct (Hf s1) as [evs2 H2].
  exists (evs1 ++ evs2)%list.
  destruct (fin s1) as [[[]| |x] s2]; simpl in *; now rewrite H2, H1, app_assoc.
Qed.

End Traces.

Lemma extends_set_disabled b : extends_trace (set_disabled b).
Proof. intros s. now exists [SetDisabled b]. Qed.

Lemma extends_updateStatus message type : extends_trace (updateStatus message type).
Proof. intros s. now exists [Status message type]. Qed.

Lemma extends_console_error : extends_trace console_error.
Proof. intros s. now exists [ConsoleError]. Qed.

Lemma console_page lines s :
  console lines s
  = (Normal tt, {| disabled := disabled s; status := status s;
                   trace := (trace s ++ lines)%list |}).
Proof.
  unfold console. f_equal. revert s.
  induction lines as [|line lines IH]; intros s; simpl.
  - rewrite app_nil_r. now destruct s.
  - rewrite IH. simpl. now rewrite <- app_assoc.
Qed.

Lemma extends_console lines : extends_trace (console lines).
Proof. intros s. exists lines. now rewrite console_page. Qed.

Lemma extends_downloadCSV e csvString filename :
  extends_trace (downloadCSV e csvString filename).
Proof. intros s. eexists. reflexivity. Qed.

Create HintDb io discriminated.
#[local] Hint Resolve extends_ret extends_return extends_throw extends_lift
  extends_bind extends_try_catch extends_try_finally extends_set_disabled
  extends_updateStatus extends_console_error extends_console
  extends_downloadCSV : io.

Ltac extends_step :=
  match goal with
  | |- extends_trace (if ?b then _ else _) => destruct b
  | |- extends_trace (io_bind _ _) => apply extends_bind
  | |- extends_trace (try_catch _ _) => apply extends_try_catch
  | |- extends_trace (try_finally _ _) => apply extends_try_finally
  | |- forall _, _ => intro
  | |- extends_trace _ => solve [auto with io]
  end.

Lemma extends_fetch_body e symbols interval startDateStr endDateStr params :
  extends_trace (fetch_body e symbols interval startDateStr endDateStr params).
Proof. unfold fetch_body. repeat extends_step. Qed.

Lemma extends_fetchAndDownload e f : extends_trace (fetchAndDownload e f).
Proof.
  unfold fetchAndDownload. pose proof extends_fetch_body.
  repeat extends_step.
  destruct (date_range _ _ _) as [[fromTimestamp toTimestamp]|]; repeat extends_step.
Qed.

Lemma try_finally_reenables {A : Type} (body : io A) (s : ui) :
  disabled (snd (try_finally body (set_disabled false) s)) = false
  /\ exists l, trace (snd (try_finally body (set_disabled false) s))
               = (l ++ [SetDisabled false])%list.
Proof.
  unfold try_finally, set_disabled. destruct (body s) as [c s0]. simpl. eauto.
Qed.

Lemma last_app_nonempty {A : Type} (l evs : list A) (d : A) :
  evs <> [] -> last (l ++ evs) d = last evs d.
Proof.
  intros H. induction l as [|x l IH]; [reflexivity|].
  simpl. rewrite IH. destruct (l ++ evs)%list eqn:E; [|reflexivity].
  apply app_eq_nil in E as [_ ->]. contradiction.
Qed.

(** A run ends with the control enabled as soon as it has disabled it. *)
Lemma fetchAndDownload_reenables e f s evs :
  trace (snd (fetchAndDownload e f s)) = (trace s ++ evs)%list ->
  In (SetDisabled true) evs ->
  disabled (snd (fetchAndDownload e f s)) = false
  /\ last evs (SetDisabled true) = SetDisabled false.
Proof.
  unfold fetchAndDownload. intros Htrace Hin.
  destruct (is_empty (trim (apiKey_field f)) || is_empty (trim (symbols_field f))
            || is_empty (startDate_field f) || is_empty (endDate_field f)).
  { simpl in Htrace. apply app_inv_head in Htrace.
    subst evs. destruct Hin as [Hin|[]]. discriminate Hin. }
  destruct (date_range (the_host e) (startDate_field f) (endDate_field f))
    as [[fromTimestamp toTimestamp]|].
  2:{ simpl in Htrace. apply app_inv_head in Htrace.
      subst evs. destruct Hin as [Hin|[]]. discriminate Hin. }
  unfold io_bind at 1 in Htrace. unfold io_bind at 1.
  cbn [set_disabled] in Htrace |- *.
  unfold io_bind at 1 in Htrace. unfold io_bind at 1.
  cbn [updateStatus] in Htrace |- *.
  match goal with
  | |- disabled (snd (try_finally ?body _ ?s2)) = _ /\ _ =>
      destruct (try_finally_reenables body s2) as [Hd [l Hl]]
  end.
  split; [exact Hd|].
  assert (Hne : evs <> []) by (intros ->; destruct Hin).
  rewrite <- (last_app_nonempty (trace s) evs _ Hne), <- Htrace, Hl.
  apply last_last.
Qed.

(** C9: whatever the form holds and the surroundings answer, the handler
    only adds to the trace of the page, and in a run that sets the fetch
    control disabled the control is enabled again when the handler
    completes, by [return], normally or by a throw; re-enabling it is the
    last thing such a run does. *)
Theorem control_reenabled (e : env) (f : form) (s : ui) :
  let s' := snd (fetchAndDownload e f s) in
  exists evs,
    trace s' = (trace s ++ evs)%list
    /\ (In (SetDisabled true) evs ->
        disabled s' = false /\ last evs (SetDisabled true) = SetDisabled false).
Proof.
  intros s'. destruct (extends_fetchAndDownload e f s) as [evs Hevs].
  exists evs. split; [exact Hevs|].
  intros Hin. now apply fetchAndDownload_reenables.
Qed.

Lemma control_reenabled_witness :
  let e := {| the_host := utc_host;
              fetch := fun _ => Ok {| ok := false; status_code := 429;
                                      statusText := "Too Many Requests";
                                      json := Ok (VObj [("error", VStr "rate limited")]) |};
              download_supported := true;
              builtin_message := fun _ => "" |} in
  let f := {| apiKey_field := "key"; symbols_field := "BTCUSD_PERP.A";
              interval_field := "1hour"; startDate_field := "2024-01-01";
              endDate_field := "2024-01-01"; convertToUsd_checked := false |} in
  let s := {| disabled := false; status := None; trace := [] |} in
  trace (snd (fetchAndDownload e f s))
  = [SetDisabled true;
     Status "Fetching data for BTCUSD_PERP.A from 2024-01-01 to 2024-01-01..." "info";
     ConsoleError;
     Status "Error: Error 429: rate limited" "error";
     SetDisabled false]
  /\ disabled (snd (fetchAndDownload e f s)) = false.
Proof.
  intros e f s. split; [reflexivity|].
  destruct (control_reenabled e f s) as [evs [Hevs Hre]].
  apply Hre. vm_compute in Hevs. rewrite <- Hevs. left. reflexivity.
Defined.

(* ================================================================== *)
(** * Scenarios *)

(** One symbol with one history item: the record and the text. *)
Example flatten_and_serialize_one_item :
  let data := VArr [VObj [("symbol", VStr "BTCUSD");
                          ("history",
                           VArr [VObj [("t", VNum 1700000000000); ("l", VNum 100);
                                       ("s", VNum 50)]] [])]] [] in
  parseLiquidationData utc_host data
  = Ok [VObj [("t", VNum 1700000000000); ("l", VNum 100); ("s", VNum 50);
              ("symbol", VStr "BTCUSD");
              ("timestamp_iso", VStr "2023-11-14T22:13:20.000Z")]]
  /\ (recs <- parseLiquidationData utc_host data ;; convertToCSV (VArr recs []))%js
     = Ok ("symbol,timestamp_iso,t,l,s" ++ String newline
           "BTCUSD,2023-11-14T22:13:20.000Z,1700000000000,100,50").
Proof. split; reflexivity. Qed.

(** Numbers are written as [String] writes them: integers in full up to
    [2^53], the shortest digits that identify the double beyond, the
    exponent form from [1e21] on and below [1e-6]. *)
Example number_strings :
  ToString (VNum 1700000000000) = Ok "1700000000000"
  /\ ToString (VNum (-42)) = Ok "-42"
  /\ ToString (VNum (2 ^ 60)) = Ok "1152921504606847000"
  /\ ToString (VNum (10 ^ 21)) = Ok "1e+21"
  /\ ToString (VNum (- 2 ^ 70)) = Ok "-1.1805916207174113e+21"
  /\ ToString (VFrac 100 1) = Ok "100.5"
  /\ ToString (VFrac 1801439850948198 55) = Ok "0.1"
  /\ ToString (VFrac 675539944105574 52) = Ok "0.30000000000000004"
  /\ ToString (VFrac 0 1074) = Ok "5e-324"
  /\ ToString (VFrac 472236648286964 73) = Ok "1e-7"
  /\ ToString (VInfinity true) = Ok "-Infinity"
  /\ ToString (VArr [VNum 1; VNull; VArr [VStr "a"; VFrac 1 1] []] []) = Ok "1,,a,1.5"
  /\ ToString (VObj [("a", VNum 1)]) = Ok "[object Object]"
  /\ ToString (VObj [("toString", VNum 1)]) = Throw TypeError.
Proof. repeat split; vm_compute; reflexivity. Qed.

(** A read that finds no own property goes to the prototype chain. *)
Example inherited_members :
  member (VObj [("l", VNum 2)]) "l" = Ok (Data (VNum 2))
  /\ member (VObj [("l", VNum 2)]) "symbol" = Ok (Data VUndefined)
  /\ member (VObj [("l", VNum 2)]) "toString"
     = Ok (Builtin "function toString() { [native code] }")
  /\ member (VObj [("l", VNum 2)]) "__proto__" = Ok (Builtin "[object Object]")
  /\ member (VObj [("constructor", VNull)]) "constructor" = Ok (Data VNull)
  /\ member (VArr [VNum 7] [("symbol", VStr "BTCUSD")]) "0" = Ok (Data (VNum 7))
  /\ member (VArr [VNum 7] [("symbol", VStr "BTCUSD")]) "symbol"
     = Ok (Data (VStr "BTCUSD"))
  /\ member (VArr [VNum 7] []) "constructor"
     = Ok (Builtin "function Array() { [native code] }")
  /\ member (VStr "ab") "length" = Ok (Data (VNum 2))
  /\ member (VStr "ab") "trimLeft" = Ok (Builtin "function trimStart() { [native code] }")
  /\ member (VNum 7) "toFixed" = Ok (Builtin "function toFixed() { [native code] }")
  /\ member VNull "l" = Throw TypeError.
Proof. repeat split. Qed.

(** A carriage return in a value without comma, newline or double quote is
    written as it is, and a reader ends the record there. *)
Example carriage_return_splits_record :
  let v := "a" ++ String carriage_return "b" in
  (csv <- convertToCSV (VArr [VObj [("symbol", VStr v); ("l", VNum 1)]] []) ;;
   Ok (csv, parse_csv csv))%js
  = Ok ("symbol,timestamp_iso,l" ++ String newline ("a" ++ String carriage_return "b,,1"),
        Some [["symbol"; "timestamp_iso"; "l"]; ["a"]; ["b"; ""; "1"]]).
Proof. reflexivity. Qed.

(** Values with commas, quotes and newlines come back from the text. *)
Example round_trip_special_values :
  let note := "a,b " ++ String dquote ("c" ++ String dquote (String newline "d")) in
  let rows := [VObj [("symbol", VStr "BTC,USD"); ("note", VStr note)];
               VObj [("symbol", VNull); ("note", VNum (-3))]] in
  (csv <- convertToCSV (VArr rows []) ;; Ok (parse_csv csv))%js
  = Ok (Some [["symbol"; "timestamp_iso"; "note"];
              ["BTC,USD"; ""; note];
              [""; ""; "-3"]]).
Proof. reflexivity. Qed.

(* ================================================================== *)
(** * More on the flattener *)

Lemma keys_upsert k x ps :
  map fst (upsert k x ps)
  = if existsb (String.eqb k) (map fst ps) then map fst ps
    else (map fst ps ++ [k])%list.
Proof.
  induction ps as [|[k' v] ps IH]; simpl; [reflexivity|].
  rewrite (String.eqb_sym k k').
  destruct (String.eqb k' k); simpl; [reflexivity|].
  rewrite IH. destruct (existsb (String.eqb k) (map fst ps)); reflexivity.
Qed.

Lemma existsb_eqb_In k l : existsb (String.eqb k) l = true <-> In k l.
Proof.
  rewrite existsb_exists. split.
  - intros [x [Hin E]]. apply String.eqb_eq in E. now subst.
  - intros Hin. exists k. split; [assumption | apply String.eqb_refl].
Qed.

Section FlattenerFields.

Variable h : host.

(** What [stamp] does to the fields of one history item. *)
Lemma stamp_fields symbol entry record :
  stamp h symbol entry = Ok record ->
  match entry with
  | VArr _ _ | VObj _ => own_get record "symbol" = symbol
  | _ => record = entry
  end
  /\ (forall k, k <> "symbol" -> k <> "timestamp_iso" ->
                own_get record k = own_get entry k).
Proof.
  unfold stamp. intros H.
  apply bind_Ok in H as (e1 & He1 & H).
  assert (Hn1 : nullish e1 = false) by eauto with js.
  rewrite (get_Ok e1 "t" Hn1) in H. cbn [bind] in H.
  pose proof (own_get_set_same _ _ _ _ He1 eq_refl eq_refl) as Hsym.
  assert (Hother1 : forall k, k <> "symbol" -> own_get e1 k = own_get entry k).
  { intros k Hk. apply (own_get_set_other _ _ _ _ k He1). congruence. }
  destruct (truthy (own_get e1 "t")).
  - apply bind_Ok in H as (tv & _ & H). apply bind_Ok in H as (iso & _ & H). split.
    + destruct entry; try exact I; try discriminate He1;
        try (injection He1 as <-; simpl in H; now injection H as <-).
      * rewrite (own_get_set_other _ _ _ _ "symbol" H) by discriminate. exact Hsym.
      * rewrite (own_get_set_other _ _ _ _ "symbol" H) by discriminate. exact Hsym.
    + intros k Hk1 Hk2.
      rewrite (own_get_set_other _ _ _ _ k H) by congruence. now apply Hother1.
  - injection H as <-. split.
    + destruct entry; try exact I; try discriminate He1; assumption.
    + intros k Hk1 _. now apply Hother1.
Qed.

Lemma stamp_keys symbol ps record :
  stamp h symbol (VObj ps) = Ok record ->
  exists added,
    Object_keys record = Ok (map fst ps ++ added)%list
    /\ (forall k, In k added ->
          (k = "symbol" \/ k = "timestamp_iso") /\ ~ In k (map fst ps))
    /\ orderedHeaders (map fst ps ++ added)
       = "symbol" :: "timestamp_iso"
         :: filter (fun hd => negb (String.eqb hd "symbol")
                              && negb (String.eqb hd "timestamp_iso")) (map fst ps).
Proof.
  unfold stamp. cbn [set bind get nullish]. intros H.
  set (ps1 := upsert "symbol" symbol ps) in *.
  assert (K1 : exists a1, map fst ps1 = (map fst ps ++ a1)%list
                 /\ (forall k, In k a1 -> k = "symbol" /\ ~ In k (map fst ps))).
  { subst ps1. rewrite keys_upsert.
    destruct (existsb (String.eqb "symbol") (map fst ps)) eqn:E.
    - exists []. rewrite app_nil_r. split; [reflexivity | intros k []].
    - exists ["symbol"]. split; [reflexivity|]. intros k [<-|[]]. split; [reflexivity|].
      intros Hin. apply existsb_eqb_In in Hin. congruence. }
  destruct K1 as (a1 & Hk1 & Ha1).
  assert (K2 : exists added, Object_keys record = Ok (map fst ps ++ added)%list
                 /\ (forall k, In k added ->
                       (k = "symbol" \/ k = "timestamp_iso") /\ ~ In k (map fst ps))).
  { destruct (truthy (own_get (VObj ps1) "t")).
    - apply bind_Ok in H as (tv & _ & H). apply bind_Ok in H as (iso & _ & H). injection H as <-. cbn [Object_keys].
      rewrite keys_upsert, Hk1.
      destruct (existsb (String.eqb "timestamp_iso") (map fst ps ++ a1)) eqn:E.
      + exists a1. split; [reflexivity|]. intros k Hin.
        destruct (Ha1 k Hin). auto.
      + exists (a1 ++ ["timestamp_iso"])%list. rewrite app_assoc. split; [reflexivity|].
        intros k Hin. apply in_app_iff in Hin as [Hin|[<-|[]]].
        * destruct (Ha1 k Hin). auto.
        * split; [auto|]. intros Hin. 
          assert (In "timestamp_iso" (map fst ps ++ a1)) by (apply in_app_iff; auto).
          apply existsb_eqb_In in H. congruence.
    - injection H as <-. cbn [Object_keys]. rewrite Hk1. exists a1. split; [reflexivity|].
      intros k Hin. destruct (Ha1 k Hin). auto. }
  destruct K2 as (added & Hkeys & Hadded). exists added. repeat split; try assumption.
  - now apply Hadded.
  - now apply Hadded.
  - unfold orderedHeaders. do 2 f_equal. rewrite filter_app.
    rewrite <- (app_nil_r (filter _ (map fst ps))) at 2. f_equal.
    clear Hkeys. induction added as [|k added IH]; [reflexivity|].
    simpl. destruct (Hadded k (or_introl eq_refl)) as [[->| ->] _]; simpl;
      apply IH; intros k' Hin; apply Hadded; now right.
Qed.

End FlattenerFields.

Lemma stamp_not_nullish h symbol entry record :
  stamp h symbol entry = Ok record -> nullish record = false.
Proof.
  unfold stamp. intros H. apply bind_Ok in H as (e1 & He1 & H).
  assert (Hn1 : nullish e1 = false) by eauto with js.
  rewrite (get_Ok e1 "t" Hn1) in H. cbn [bind] in H.
  destruct (truthy (own_get e1 "t")).
  - apply bind_Ok in H as (tv & _ & H). apply bind_Ok in H as (iso & _ & H). eauto with js.
  - now injection H as <-.
Qed.

Lemma flattened_not_nullish h data recs :
  parseLiquidationData h data = Ok recs -> Forall (fun r => nullish r = false) recs.
Proof.
  intros H. destruct (isArray data) eqn:Ea.
  - destruct data as [| | | | |items extra| | |]; try discriminate Ea.
    rewrite parseLiquidationData_items in H. apply mapM_Forall2 in H.
    induction H as [|p r l recs Hp _ IH]; constructor; [|exact IH].
    eapply stamp_not_nullish; eauto.
  - rewrite parseLiquidationData_not_array in H by assumption.
    injection H as <-. constructor.
Qed.

Lemma flattened_items h data recs :
  parseLiquidationData h data = Ok recs ->
  Forall2 (fun p record => stamp h (fst p) (snd p) = Ok record)
    (history_items (items_of data)) recs.
Proof.
  intros H. destruct (isArray data) eqn:Ea.
  - destruct data as [| | | | |items extra| | |]; try discriminate Ea.
    rewrite parseLiquidationData_items in H. now apply mapM_Forall2 in H.
  - rewrite parseLiquidationData_not_array in H by assumption.
    injection H as <-. destruct data; try discriminate Ea; constructor.
Qed.

Lemma history_items_app d1 d2 :
  history_items (d1 ++ d2) = (history_items d1 ++ history_items d2)%list.
Proof. unfold history_items. apply flat_map_app. Qed.

Lemma mapM_first_throw {A B : Type} (f : A -> result B) l1 x l2 e :
  Forall (fun a => exists b, f a = Ok b) l1 -> f x = Throw e ->
  mapM f (l1 ++ x :: l2) = Throw e.
Proof.
  intros H Hx. induction H as [|a l1 [b Hb] _ IH]; simpl.
  - now rewrite Hx.
  - rewrite Hb. simpl. now rewrite IH.
Qed.

Lemma join_lines_head hd lines :
  exists tail, join (String newline "") (hd :: lines) = hd ++ tail.
Proof.
  destruct lines as [|l lines].
  - exists "". simpl. now rewrite append_nil_r.
  - exists (String newline "" ++ join (String newline "") (l :: lines)). reflexivity.
Qed.

(** X1: flattening keeps the fields of the history items. In the records
    returned, taken with the items they come from, an item that is an object
    (or an array) carries the [symbol] of its entry, every field other than
    [symbol] and [timestamp_iso] reads as it did on the item, and an item
    that is a primitive is returned as it was. *)
Theorem flatten_keeps_fields (h : host) (data : value) (recs : list value) :
  parseLiquidationData h data = Ok recs ->
  Forall2 (fun p record =>
             match snd p with
             | VArr _ _ | VObj _ => own_get record "symbol" = fst p
             | _ => record = snd p
             end
             /\ (forall k, k <> "symbol" -> k <> "timestamp_iso" ->
                           own_get record k = own_get (snd p) k))
    (history_items (items_of data)) recs.
Proof.
  intros H. apply flattened_items in H.
  eapply Forall2_impl; [|exact H].
  intros p record Hp. now apply stamp_fields in Hp.
Qed.

Lemma flatten_keeps_fields_witness :
  Forall2 (fun p record =>
             match snd p with
             | VArr _ _ | VObj _ => own_get record "symbol" = fst p
             | _ => record = snd p
             end
             /\ (forall k, k <> "symbol" -> k <> "timestamp_iso" ->
                           own_get record k = own_get (snd p) k))
    [(VStr "ETHUSD", VObj [("t", VNum 1700000000000); ("symbol", VStr "old")]);
     (VStr "ETHUSD", VNum 7)]
    [VObj [("t", VNum 1700000000000); ("symbol", VStr "ETHUSD");
           ("timestamp_iso", VStr "2023-11-14T22:13:20.000Z")];
     VNum 7].
Proof.
  apply (flatten_keeps_fields utc_host
           (VArr [VObj [("symbol", VStr "ETHUSD");
                        ("history",
                         VArr [VObj [("t", VNum 1700000000000); ("symbol", VStr "old")];
                               VNum 7] [])]] [])).
  reflexivity.
Defined.

(** The text the serializer returns: empty for no row, beginning with the
    two leading columns otherwise. *)
Lemma convertToCSV_text (rows : list value) (extra : props) (csv : string) :
  convertToCSV (VArr rows extra) = Ok csv ->
  (rows = [] -> csv = "")
  /\ (rows <> [] -> exists tail, csv = "symbol,timestamp_iso" ++ tail).
Proof.
  intros H. destruct rows as [|first rest].
  - injection H as <-. split; [reflexivity | intros Hne; contradiction].
  - destruct (nullish first) eqn:Hn.
    { rewrite convertToCSV_no_keys in H by assumption. discriminate. }
    destruct (Object_keys_total first Hn) as [keys Hk].
    rewrite (convertToCSV_rows first rest extra keys Hk) in H.
    apply bind_Ok in H as (lines & _ & H).
    assert (E : csv = join (String newline "") (join "," (orderedHeaders keys) :: lines))
      by congruence.
    rewrite E. clear E H.
    split; [now destruct lines|]. intros _.
    destruct (join_lines_head (join "," (orderedHeaders keys)) lines) as [tail ->].
    unfold orderedHeaders.
    set (others := filter _ keys). destruct others as [|k others].
    + exists tail. reflexivity.
    + exists ("," ++ join "," (k :: others) ++ tail).
      rewrite !join_cons. now rewrite !append_assoc.
Qed.

(** The serializer returns on rows whose own properties have strings. *)
Lemma convertToCSV_total (rows : list value) (extra : props) :
  Forall (fun r => nullish r = false) rows ->
  Forall (fun r => cells_stringify r = true) rows ->
  exists csv, convertToCSV (VArr rows extra) = Ok csv.
Proof.
  intros Hn Hs. destruct rows as [|first rest]; [now exists ""|].
  inversion Hn as [|? ? Hfirst _]; subst.
  destruct (Object_keys_total first Hfirst) as [keys Hk].
  rewrite (convertToCSV_rows first rest extra keys Hk).
  destruct (mapM_total (csv_line (orderedHeaders keys)) (first :: rest)) as [lines ->];
    [|simpl; eauto].
  rewrite Forall_forall in Hn, Hs. apply Forall_forall. intros row Hin.
  apply csv_line_total; auto.
Qed.

Lemma forallb_false {A : Type} (p : A -> bool) (l : list A) :
  forallb p l = false -> exists x, In x l /\ p x = false.
Proof.
  induction l as [|a l IH]; simpl; [discriminate|].
  destruct (p a) eqn:E; simpl.
  - intros H. destruct (IH H) as (x & Hin & Hx). eauto.
  - intros _. eauto.
Qed.

(** X2: the serializer accepts what the flattener returns whenever the
    own properties of the records have strings. The text is empty exactly
    when there is no record, and begins with the two leading columns
    otherwise. The only failure is a [TypeError], from a record holding a
    value without a string (an object or array with a [toString] property
    of its own). *)
Theorem flattened_records_serialize (h : host) (data : value) (recs : list value) :
  parseLiquidationData h data = Ok recs ->
  (Forall (fun r => cells_stringify r = true) recs ->
   exists csv, convertToCSV (VArr recs []) = Ok csv)
  /\ (forall csv, convertToCSV (VArr recs []) = Ok csv ->
        (recs = [] -> csv = "")
        /\ (recs <> [] -> exists tail, csv = "symbol,timestamp_iso" ++ tail))
  /\ (forall x, convertToCSV (VArr recs []) = Throw x ->
        x = TypeError /\ exists r, In r recs /\ cells_stringify r = false).
Proof.
  intros H. pose proof (flattened_not_nullish _ _ _ H) as Hnn.
  split; [|split].
  - now apply convertToCSV_total.
  - apply convertToCSV_text.
  - intros x Hx. split; [now apply convertToCSV_throws in Hx|].
    destruct (forallb cells_stringify recs) eqn:E.
    + destruct (convertToCSV_total recs [] Hnn) as [csv Hcsv]; [|congruence].
      apply Forall_forall. rewrite forallb_forall in E. exact E.
    + now apply forallb_false.
Qed.

Lemma flattened_records_serialize_witness :
  (exists csv,
     convertToCSV (VArr [VObj [("l", VNum 5); ("symbol", VStr "BTCUSD")]] []) = Ok csv)
  /\ (forall x,
        convertToCSV
          (VArr [VObj [("l", VObj [("toString", VNum 1)]); ("symbol", VStr "BTCUSD")]] [])
        = Throw x -> x = TypeError).
Proof.
  split.
  - apply (proj1 (flattened_records_serialize utc_host
             (VArr [VObj [("symbol", VStr "BTCUSD");
                          ("history", VArr [VObj [("l", VNum 5)]] [])]] [])
             [VObj [("l", VNum 5); ("symbol", VStr "BTCUSD")]] eq_refl)).
    repeat constructor.
  - intros x Hx.
    apply (proj2 (proj2 (flattened_records_serialize utc_host
             (VArr [VObj [("symbol", VStr "BTCUSD");
                          ("history",
                           VArr [VObj [("l", VObj [("toString", VNum 1)])]] [])]] [])
             [VObj [("l", VObj [("toString", VNum 1)]); ("symbol", VStr "BTCUSD")]]
             eq_refl)) x Hx).
Defined.

(** X3: the columns of the text come from the first history item. When the
    first history item of the first well-shaped entry is an object, the
    header of the flattened and serialized response is [symbol],
    [timestamp_iso] and then the item's own fields other than these two, in
    their order; one line per record follows. The text is returned
    whenever the own properties of the records have strings. *)
Theorem flattened_header (h : host) (data : value) (recs : list value)
    (symbol : value) (ps : props) (more : list (value * value)) :
  parseLiquidationData h data = Ok recs ->
  history_items (items_of data) = (symbol, VObj ps) :: more ->
  (forall csv,
     convertToCSV (VArr recs []) = Ok csv ->
     exists lines,
       csv = join (String newline "")
               (join "," ("symbol" :: "timestamp_iso"
                          :: filter (fun hd => negb (String.eqb hd "symbol")
                                               && negb (String.eqb hd "timestamp_iso"))
                               (map fst ps))
                :: lines)
       /\ List.length lines = List.length recs)
  /\ (Forall (fun r => cells_stringify r = true) recs ->
      exists csv, convertToCSV (VArr recs []) = Ok csv).
Proof.
  intros H Hitems. pose proof (flattened_not_nullish _ _ _ H) as Hnn.
  split; [|now apply convertToCSV_total].
  apply flattened_items in H. rewrite Hitems in H.
  inversion H as [|? first ? rest Hfirst _]; subst. cbn [fst snd] in Hfirst.
  destruct (stamp_keys h symbol ps first Hfirst) as (added & Hk & _ & Hhdr).
  intros csv Hcsv.
  rewrite (convertToCSV_rows first rest [] _ Hk) in Hcsv. rewrite Hhdr in Hcsv.
  apply bind_Ok in Hcsv as (lines & Hlines & Hcsv).
  exists lines. split; [congruence|]. now apply mapM_length in Hlines.
Qed.

Lemma flattened_header_witness :
  exists lines,
    "symbol,timestamp_iso,t,l,s" ++ String newline
      "BTCUSD,2023-11-14T22:13:20.000Z,1700000000000,100,50"
    = join (String newline "") ("symbol,timestamp_iso,t,l,s" :: lines)
    /\ List.length lines = 1%nat.
Proof.
  exact (proj1 (flattened_header utc_host
           (VArr [VObj [("symbol", VStr "BTCUSD");
                        ("history",
                         VArr [VObj [("t", VNum 1700000000000); ("l", VNum 100);
                                     ("s", VNum 50)]] [])]] [])
           [VObj [("t", VNum 1700000000000); ("l", VNum 100); ("s", VNum 50);
                  ("symbol", VStr "BTCUSD");
                  ("timestamp_iso", VStr "2023-11-14T22:13:20.000Z")]]
           (VStr "BTCUSD")
           [("t", VNum 1700000000000); ("l", VNum 100); ("s", VNum 50)] []
           eq_refl eq_refl)
           ("symbol,timestamp_iso,t,l,s" ++ String newline
              "BTCUSD,2023-11-14T22:13:20.000Z,1700000000000,100,50")
           eq_refl).
Defined.

(** X4: flattening goes entry by entry, in order: the records of two
    arrays put end to end are the records of the first followed by those
    of the second, and the call throws as soon as one part does. *)
Theorem flatten_app (h : host) (d1 d2 : list value) (e e1 e2 : props) :
  parseLiquidationData h (VArr (d1 ++ d2) e)
  = (r1 <- parseLiquidationData h (VArr d1 e1) ;;
     r2 <- parseLiquidationData h (VArr d2 e2) ;;
     Ok (r1 ++ r2)%list)%js.
Proof. rewrite !parseLiquidationData_items, history_items_app. apply mapM_app. Qed.

(** X5: one history item that is [null] (or [undefined]) in a well-shaped
    entry makes the whole call throw a [TypeError], whatever follows it,
    when the items before it are stampable: no partial result is
    returned. *)
Theorem flatten_throws_on_null_item (h : host) (items : list value) (extra : props)
    (before after : list (value * value)) (symbol entry : value) :
  history_items items = (before ++ (symbol, entry) :: after)%list ->
  Forall (fun p => stampable (snd p) = true) before ->
  nullish entry = true ->
  parseLiquidationData h (VArr items extra) = Throw TypeError.
Proof.
  intros Hitems Hbefore Hnull. rewrite parseLiquidationData_items, Hitems.
  apply mapM_first_throw.
  - eapply Forall_impl; [|exact Hbefore]. intros p Hp. now apply stamp_stampable.
  - destruct entry; try discriminate Hnull; reflexivity.
Qed.

Lemma flatten_throws_on_null_item_witness :
  parseLiquidationData utc_host
    (VArr [VObj [("symbol", VStr "BTCUSD");
                 ("history", VArr [VObj [("l", VNum 1)]; VNull; VObj [("l", VNum 2)]] [])]] [])
  = Throw TypeError.
Proof.
  apply (flatten_throws_on_null_item utc_host _ []
           [(VStr "BTCUSD", VObj [("l", VNum 1)])]
           [(VStr "BTCUSD", VObj [("l", VNum 2)])] (VStr "BTCUSD") VNull);
    [reflexivity | repeat constructor | reflexivity].
Defined.

(** X6: a history item whose truthy [t] gives the invalid date (a number
    beyond 8.64e15 in magnitude, a string [Date.parse] does not take) makes
    the whole call throw a [RangeError], from [toISOString]. *)
Theorem flatten_throws_on_invalid_date (h : host) (items : list value) (extra : props)
    (before after : list (value * value)) (symbol entry : value) :
  history_items items = (before ++ (symbol, entry) :: after)%list ->
  Forall (fun p => stampable (snd p) = true) before ->
  nullish entry = false ->
  truthy (own_get entry "t") = true ->
  new_Date h (own_get entry "t") = Ok None ->
  parseLiquidationData h (VArr items extra) = Throw RangeError.
Proof.
  intros Hitems Hbefore Hnn Ht Hdate. rewrite parseLiquidationData_items, Hitems.
  apply mapM_first_throw.
  - eapply Forall_impl; [|exact Hbefore]. intros p Hp. now apply stamp_stampable.
  - cbn [fst snd]. unfold stamp.
    destruct (set_Ok entry "symbol" symbol Hnn) as [e1 He1]. rewrite He1. cbn [bind].
    rewrite (get_Ok e1 "t") by eauto with js. cbn [bind].
    rewrite (own_get_set_other _ _ _ _ "t" He1) by discriminate.
    now rewrite Ht, Hdate.
Qed.

Lemma flatten_throws_on_invalid_date_witness :
  parseLiquidationData utc_host
    (VArr [VObj [("symbol", VStr "BTCUSD");
                 ("history", VArr [VObj [("t", VNum 8640000000000001)]] [])]] [])
  = Throw RangeError.
Proof.
  apply (flatten_throws_on_invalid_date utc_host _ [] [] []
           (VStr "BTCUSD") (VObj [("t", VNum 8640000000000001)]));
    [reflexivity | constructor | reflexivity | reflexivity | reflexivity].
Defined.

Lemma forEach_data_console_returned h data : forall allData recs,
  forEach_data h data allData = Ok recs ->
  forEach_data_console h data
  = map (fun _ => ConsoleWarn) (filter (fun symbolData => negb (well_shaped symbolData)) data).
Proof.
  induction data as [|sd rest IH]; intros allData recs H; [reflexivity|].
  simpl in *. destruct (negb (well_shaped sd)); simpl.
  - f_equal. eapply IH; eauto.
  - apply bind_Ok in H as (allData' & Hh & H).
    rewrite forEach_history_mapM in Hh |- *.
    destruct (mapM _ (items_of (own_get sd "history"))); [|discriminate Hh].
    simpl. eapply IH; eauto.
Qed.

(** X25: what the flattener writes to the console. An input that is not
    an array gets one error; when the call returns on an array, every
    entry it skipped got one warning, and nothing else was written. *)
Theorem flattener_console (h : host) (data : value) :
  (isArray data = false -> parseLiquidationData_console h data = [ConsoleError])
  /\ (forall recs,
        isArray data = true ->
        parseLiquidationData h data = Ok recs ->
        parseLiquidationData_console h data
        = map (fun _ => ConsoleWarn)
            (filter (fun symbolData => negb (well_shaped symbolData)) (items_of data))).
Proof.
  unfold parseLiquidationData_console, parseLiquidationData. split.
  - intros ->. now rewrite orb_true_r.
  - intros recs Ha. destruct data; try discriminate Ha. cbn [truthy negb orb isArray].
    apply forEach_data_console_returned.
Qed.

Lemma flattener_console_witness :
  parseLiquidationData_console utc_host (VObj [("error", VStr "rate limited")])
  = [ConsoleError]
  /\ parseLiquidationData_console utc_host
       (VArr [VNull;
              VObj [("symbol", VStr "BTCUSD"); ("history", VArr [VObj [("l", VNum 1)]] [])];
              VObj [("symbol", VStr "ETHUSD")]] [])
     = [ConsoleWarn; ConsoleWarn].
Proof.
  split.
  - apply (proj1 (flattener_console utc_host (VObj [("error", VStr "rate limited")]))).
    reflexivity.
  - apply (proj2 (flattener_console utc_host
             (VArr [VNull;
                    VObj [("symbol", VStr "BTCUSD");
                          ("history", VArr [VObj [("l", VNum 1)]] [])];
                    VObj [("symbol", VStr "ETHUSD")]] []))
             [VObj [("l", VNum 1); ("symbol", VStr "BTCUSD")]]);
      reflexivity.
Defined.

(* ================================================================== *)
(** * More on the serializer *)

Lemma mapM_throw_in {A B : Type} (f : A -> result B) (l : list A) (e : exn) :
  (forall x, In x l -> (exists y, f x = Ok y) \/ f x = Throw e) ->
  (exists x, In x l /\ f x = Throw e) ->
  mapM f l = Throw e.
Proof.
  induction l as [|a l IH]; intros Hall [x [Hin Hx]]; [destruct Hin|].
  simpl. destruct (Hall a (or_introl eq_refl)) as [[y Hy]|Ha].
  - rewrite Hy. simpl. rewrite IH; [reflexivity | intros; apply Hall; now right |].
    destruct Hin as [->|Hin]; [congruence | eauto].
  - now rewrite Ha.
Qed.

Lemma csv_line_nullish keys row :
  nullish row = true -> csv_line (orderedHeaders keys) row = Throw TypeError.
Proof.
  intros H. unfold csv_line, row_strings, orderedHeaders. cbn [mapM].
  now rewrite cell_text_nullish.
Qed.

(** X7: a row that is [null] or [undefined] anywhere in a non-empty array
    makes [convertToCSV] throw a [TypeError]; no text is produced for the
    other rows. *)
Theorem convertToCSV_throws_on_null_row (items : list value) (extra : props)
    (row : value) :
  In row items -> nullish row = true ->
  convertToCSV (VArr items extra) = Throw TypeError.
Proof.
  intros Hin Hnull. destruct items as [|first rest]; [destruct Hin|].
  destruct (nullish first) eqn:Hf; [now apply convertToCSV_no_keys|].
  destruct (Object_keys_total first Hf) as [keys Hk].
  rewrite (convertToCSV_rows first rest extra keys Hk).
  rewrite (mapM_throw_in _ _ TypeError); [reflexivity | | eauto using csv_line_nullish].
  intros x _. destruct (csv_line (orderedHeaders keys) x) as [line|e] eqn:E.
  - left. eauto.
  - right. now rewrite (csv_line_throws _ _ _ E).
Qed.

Lemma convertToCSV_throws_on_null_row_witness :
  convertToCSV (VArr [VObj [("l", VNum 1)]; VNull] []) = Throw TypeError.
Proof.
  apply (convertToCSV_throws_on_null_row [VObj [("l", VNum 1)]; VNull] [] VNull).
  - right. left. reflexivity.
  - reflexivity.
Defined.

Lemma NoDup_filter {A : Type} (p : A -> bool) (l : list A) :
  NoDup l -> NoDup (filter p l).
Proof.
  induction 1 as [|x l Hx _ IH]; simpl; [constructor|].
  destruct (p x); [|exact IH]. constructor; [|exact IH].
  intros Hin. apply filter_In in Hin. tauto.
Qed.

(** X8: no key of the first record is lost or repeated in the header. For
    the keys of a record (which never repeat), the header has no column
    twice, has every key as a column, and has no column besides the keys,
    [symbol] and [timestamp_iso]. *)
Theorem header_columns (keys : list string) :
  NoDup keys ->
  NoDup (orderedHeaders keys)
  /\ (forall k, In k keys -> In k (orderedHeaders keys))
  /\ (forall k, In k (orderedHeaders keys) ->
                In k keys \/ k = "symbol" \/ k = "timestamp_iso").
Proof.
  intros Hnd. unfold orderedHeaders.
  set (p := fun hd => negb (String.eqb hd "symbol")
                      && negb (String.eqb hd "timestamp_iso")).
  assert (Hp : forall k, In k (filter p keys) ->
                         In k keys /\ k <> "symbol" /\ k <> "timestamp_iso").
  { intros k Hin. apply filter_In in Hin as [Hin Hpk]. split; [assumption|].
    unfold p in Hpk. apply andb_prop in Hpk as [H1 H2].
    apply negb_true_iff in H1, H2. now apply String.eqb_neq in H1, H2. }
  split; [|split].
  - constructor.
    + intros [E|Hin]; [discriminate E|]. apply Hp in Hin. tauto.
    + constructor; [|now apply NoDup_filter].
      intros Hin. apply Hp in Hin. tauto.
  - intros k Hin.
    destruct (String.eqb_spec k "symbol") as [->|H1]; [now left|].
    destruct (String.eqb_spec k "timestamp_iso") as [->|H2]; [right; now left|].
    right. right. apply filter_In. split; [assumption|]. unfold p.
    apply String.eqb_neq in H1, H2. now rewrite H1, H2.
  - intros k [<-|[<-|Hin]]; auto. apply Hp in Hin. tauto.
Qed.

Lemma header_columns_witness :
  NoDup (orderedHeaders ["t"; "l"; "symbol"; "s"])
  /\ (forall k, In k ["t"; "l"; "symbol"; "s"] -> In k (orderedHeaders ["t"; "l"; "symbol"; "s"]))
  /\ (forall k, In k (orderedHeaders ["t"; "l"; "symbol"; "s"]) ->
                In k ["t"; "l"; "symbol"; "s"] \/ k = "symbol" \/ k = "timestamp_iso").
Proof.
  apply (header_columns ["t"; "l"; "symbol"; "s"]).
  repeat constructor; simpl; intuition discriminate.
Defined.

(** X9: the text reads back as a rectangular table. For records whose
    first one has keys free of commas, line breaks and double quotes, and
    whose cells have strings, the text of [convertToCSV] is read back, by
    the rules of CSV, as the header followed by one row per record holding
    the cell strings of that record, provided no cell string that goes
    unquoted holds a carriage return (which the code does not quote for,
    and a reader takes for the end of the record); every row has as many
    fields as the header. *)
Theorem serialized_table_reads_back (first : value) (rest : list value)
    (extra : props) (keys : list string) (table : list (list string)) :
  Object_keys first = Ok keys ->
  Forall (fun k => has_special k = false /\ no_return k = true) keys ->
  mapM (row_strings (orderedHeaders keys)) (first :: rest) = Ok table ->
  Forall (Forall (fun s => has_special s = true \/ no_return s = true)) table ->
  exists csv,
    convertToCSV (VArr (first :: rest) extra) = Ok csv
    /\ parse_csv csv = Some (orderedHeaders keys :: table)
    /\ List.length table = S (List.length rest)
    /\ Forall (fun fields => List.length fields = List.length (orderedHeaders keys))
         (orderedHeaders keys :: table).
Proof.
  intros Hk Hplain Htable Hread.
  destruct (csv_round_trip first rest extra keys table Hk Hplain Htable)
    as (csv & Hcsv & Hparse).
  { eapply Forall_impl; [|exact Hread]. intros cells Hc.
    eapply Forall_impl; [|exact Hc]. intros s [H|H]; unfold readable; rewrite H;
      [reflexivity | apply orb_true_r]. }
  exists csv. split; [exact Hcsv|]. split; [exact Hparse|].
  split; [exact (mapM_length _ _ _ Htable)|].
  constructor; [reflexivity|].
  apply mapM_Forall2 in Htable. clear -Htable.
  induction Htable as [|row cells rows table Hrow _ IH]; constructor; [|exact IH].
  exact (mapM_length _ _ _ Hrow).
Qed.

Lemma serialized_table_reads_back_witness :
  let note := "two" ++ String carriage_return (String newline "lines") in
  exists csv,
    convertToCSV
      (VArr [VObj [("symbol", VStr "BTC,USD"); ("note", VStr note)];
             VObj [("note", VNull)]] []) = Ok csv
    /\ parse_csv csv
       = Some [["symbol"; "timestamp_iso"; "note"]; ["BTC,USD"; ""; note]; [""; ""; ""]]
    /\ List.length [["BTC,USD"; ""; note]; [""; ""; ""]] = 2%nat
    /\ Forall (fun fields => List.length fields = 3%nat)
         [["symbol"; "timestamp_iso"; "note"]; ["BTC,USD"; ""; note]; [""; ""; ""]].
Proof.
  intros note.
  apply (serialized_table_reads_back
           (VObj [("symbol", VStr "BTC,USD"); ("note", VStr note)])
           [VObj [("note", VNull)]] [] ["symbol"; "note"]
           [["BTC,USD"; ""; note]; [""; ""; ""]]).
  - reflexivity.
  - repeat constructor.
  - reflexivity.
  - repeat constructor; (left; reflexivity) || (right; reflexivity).
Defined.

(* ================================================================== *)
(** * The form fields and the file name *)

Lemma trim_start_blank s : all_chars is_space s = true -> trim_start s = "".
Proof.
  induction s as [|c s IH]; simpl; [reflexivity|]. intros H.
  apply andb_prop in H as [Hc Hs]. rewrite Hc. now apply IH.
Qed.

Lemma trim_blank s : all_chars is_space s = true -> trim s = "".
Proof. intros H. unfold trim. now rewrite trim_start_blank. Qed.

Lemma trim_end_idem s : trim_end (trim_end s) = trim_end s.
Proof.
  induction s as [|c s IH]; [reflexivity|]. simpl.
  destruct (trim_end s) as [|c' r] eqn:E.
  - destruct (is_space c) eqn:Hc; simpl; [reflexivity | now rewrite Hc].
  - simpl. simpl in IH. destruct (trim_end r) as [|c'' r'] eqn:E'.
    + destruct (is_space c') eqn:Hc'; [discriminate IH | now rewrite IH].
    + now rewrite IH.
Qed.

Lemma trim_end_head c s :
  is_space c = false -> exists r, trim_end (String c s) = String c r.
Proof. intros H. simpl. destruct (trim_end s); rewrite ?H; eauto. Qed.

Lemma trim_start_head s :
  match trim_start s with
  | EmptyString => True
  | String c _ => is_space c = false
  end.
Proof.
  induction s as [|c s IH]; simpl; [exact I|].
  destruct (is_space c) eqn:E; [exact IH | exact E].
Qed.

(** What [trim] returns has no white space at either end. *)
Lemma trim_trimmed s : trimmed (trim s) = true.
Proof.
  unfold trimmed, trim. rewrite trim_end_idem, String.eqb_refl, andb_true_r.
  pose proof (trim_start_head s) as H. destruct (trim_start s) as [|c r]; [reflexivity|].
  destruct (trim_end_head c r H) as [r' ->]. now rewrite H.
Qed.

Lemma trim_fixed s : trimmed s = true -> trim s = s.
Proof.
  unfold trimmed, trim. intros H. apply andb_prop in H as [Hh He].
  apply String.eqb_eq in He. destruct s as [|c s]; [reflexivity|].
  apply negb_true_iff in Hh. cbn [trim_start]. now rewrite Hh.
Qed.

Lemma all_chars_map p f s :
  (forall c, p (f c) = true) -> all_chars p (map_chars f s) = true.
Proof. intros H. induction s as [|c s IH]; simpl; [reflexivity | now rewrite H, IH]. Qed.

Lemma all_chars_substring p s : forall n,
  all_chars p s = true -> all_chars p (String.substring 0 n s) = true.
Proof.
  induction s as [|c s IH]; intros [|n] H; simpl; try reflexivity.
  simpl in H. apply andb_prop in H as [Hc Hs]. now rewrite Hc, IH.
Qed.

Lemma substring_length s : forall n, (String.length (String.substring 0 n s) <= n)%nat.
Proof.
  induction s as [|c s IH]; intros [|n]; simpl; try lia.
  specialize (IH n). lia.
Qed.

Lemma substring_short s : forall n,
  (String.length s <= n)%nat -> String.substring 0 n s = s.
Proof.
  induction s as [|c s IH]; intros [|n] H; simpl in *; try reflexivity; try lia.
  rewrite IH by lia. reflexivity.
Qed.

Lemma map_chars_fixed p s :
  all_chars p s = true -> map_chars (fun c => if p c then c else "_"%char) s = s.
Proof.
  induction s as [|c s IH]; simpl; [reflexivity|]. intros H.
  apply andb_prop in H as [Hc Hs]. now rewrite Hc, IH.
Qed.

(** X10: the symbols part of the file name is safe and short. It has at
    most 50 characters, all of them letters, digits or one of [_ , . -],
    and a symbols string that is already so is used as it is. *)
Theorem safeSymbols_safe (symbols : string) :
  (String.length (safeSymbols symbols) <= 50)%nat
  /\ all_chars filename_char (safeSymbols symbols) = true
  /\ (all_chars filename_char symbols = true -> (String.length symbols <= 50)%nat ->
      safeSymbols symbols = symbols).
Proof.
  unfold safeSymbols. split; [apply substring_length|]. split.
  - apply all_chars_substring. apply all_chars_map.
    intros c. destruct (filename_char c) eqn:E; [exact E | reflexivity].
  - intros H Hl. rewrite map_chars_fixed by assumption. now apply substring_short.
Qed.

Lemma safeSymbols_safe_witness :
  safeSymbols "BTCUSD_PERP.A,ETHUSD_PERP.A" = "BTCUSD_PERP.A,ETHUSD_PERP.A".
Proof.
  apply (proj2 (proj2 (safeSymbols_safe "BTCUSD_PERP.A,ETHUSD_PERP.A")));
    [reflexivity | simpl; lia].
Defined.

(* ================================================================== *)
(** * Runs of the handler *)

(** Unfolding the statements of the handler, and nothing else. *)
Ltac run_io :=
  cbv beta iota zeta delta
    [fetch_body io_bind lift try_catch try_finally io_ret io_throw io_return
     updateStatus console_error downloadCSV set_disabled emit];
  cbn [trace status disabled fst snd];
  rewrite ?console_page;
  cbv beta iota;
  cbn [trace status disabled fst snd].

(** The run of a form that passes the checks, in terms of the body of the
    [try] block. *)
Lemma fetchAndDownload_started e f s fromTimestamp toTimestamp :
  fields_present f = true ->
  date_range (the_host e) (startDate_field f) (endDate_field f)
    = Some (fromTimestamp, toTimestamp) ->
  fetchAndDownload e f s
  = try_finally
      (try_catch
         (fetch_body e (trim (symbols_field f)) (interval_field f)
            (startDate_field f) (endDate_field f)
            (request f fromTimestamp toTimestamp))
         (fun error =>
            io_bind console_error
              (fun _ => updateStatus ("Error: " ++ message_of e error) "error")))
      (set_disabled false)
      {| disabled := true; status := Some (fetching_message f, "info");
         trace := ((trace s ++ [SetDisabled true])
                   ++ [Status (fetching_message f) "info"])%list |}.
Proof.
  unfold fields_present, fetchAndDownload. intros Hf Hr.
  apply negb_true_iff in Hf. rewrite Hf, Hr. reflexivity.
Qed.

(** X11: a form with a required field missing, or with an API key or
    symbols of white space only, is turned down before anything else
    happens: the status slot shows the request to fill in the fields, the
    fetch control is left as it was, and whatever [fetch] would answer
    plays no part. *)
Theorem missing_field_rejected (e : env) (f : form) (s : ui) :
  all_chars is_space (apiKey_field f) = true
  \/ all_chars is_space (symbols_field f) = true
  \/ startDate_field f = "" \/ endDate_field f = "" ->
  fetchAndDownload e f s
  = (Returned,
     {| disabled := disabled s;
        status := Some ("Please fill in API Key, Symbols, Start Date, and End Date.",
                        "error");
        trace := (trace s
                  ++ [Status "Please fill in API Key, Symbols, Start Date, and End Date."
                        "error"])%list |}).
Proof.
  intros H. unfold fetchAndDownload.
  assert (E : is_empty (trim (apiKey_field f)) || is_empty (trim (symbols_field f))
              || is_empty (startDate_field f) || is_empty (endDate_field f) = true).
  { destruct H as [H|[H|[H|H]]].
    - now rewrite (trim_blank _ H).
    - rewrite (trim_blank _ H). cbn [is_empty String.eqb]. now rewrite orb_true_r.
    - rewrite H. cbn [is_empty String.eqb]. now rewrite orb_true_r.
    - rewrite H. cbn [is_empty String.eqb]. now rewrite orb_true_r. }
  rewrite E. reflexivity.
Qed.

Lemma missing_field_rejected_witness :
  fst (fetchAndDownload
         {| the_host := utc_host; fetch := fun _ => Throw TypeError;
            download_supported := true; builtin_message := fun _ => "" |}
         {| apiKey_field := "   "; symbols_field := "BTCUSD_PERP.A";
            interval_field := "1hour"; startDate_field := "2024-01-01";
            endDate_field := "2024-01-02"; convertToUsd_checked := false |}
         {| disabled := false; status := None; trace := [] |})
  = Returned.
Proof.
  rewrite missing_field_rejected; [reflexivity|]. left. reflexivity.
Defined.

Lemma try_catch_finally_completes (body : io unit) (e : env) (s : ui) :
  forall x,
    fst (try_finally
           (try_catch body
              (fun error =>
                 io_bind console_error
                   (fun _ => updateStatus ("Error: " ++ message_of e error) "error")))
           (set_disabled false) s) <> Thrown x.
Proof.
  intros x. run_io. destruct (body s) as [[[]| |y] s1]; discriminate.
Qed.

Lemma date_range_lt h startDateStr endDateStr fromTimestamp toTimestamp :
  date_range h startDateStr endDateStr = Some (fromTimestamp, toTimestamp) ->
  fromTimestamp < toTimestamp.
Proof.
  unfold date_range.
  destruct (epoch_seconds h (startDateStr ++ "T00:00:00")) as [a|]; [|discriminate].
  destruct (epoch_seconds h (endDateStr ++ "T23:59:59.999")) as [b|]; [|discriminate].
  destruct (Z.geb_spec a b); [discriminate|]. intros [= <- <-]. assumption.
Qed.

Lemma flattened_text_not_empty recs csv :
  recs <> [] -> convertToCSV (VArr recs []) = Ok csv -> is_empty csv = false.
Proof.
  intros Hne Hc. destruct (convertToCSV_text recs [] csv Hc) as [_ Hhead].
  destruct (Hhead Hne) as [tail ->]. reflexivity.
Qed.

(** The flattener writes warnings and errors to the console, nothing
    else. *)
Lemma forEach_data_console_lines h data x :
  In x (forEach_data_console h data) -> x = ConsoleWarn.
Proof.
  induction data as [|sd rest IH]; simpl; [intros []|].
  destruct (negb (well_shaped sd)).
  - intros [<-|H]; auto.
  - destruct (forEach_history _ _ _ _); [exact IH | intros []].
Qed.

Lemma console_lines h data x :
  In x (parseLiquidationData_console h data) -> x = ConsoleError \/ x = ConsoleWarn.
Proof.
  unfold parseLiquidationData_console.
  destruct (negb (truthy data) || negb (isArray data)).
  - intros [<-|[]]. now left.
  - intros H. right. eapply forEach_data_console_lines; eauto.
Qed.

Ltac console_in :=
  repeat match goal with
         | H : In _ (parseLiquidationData_console _ _) |- _ =>
             apply console_lines in H; destruct H as [H|H]; discriminate H
         end.

Ltac trace_leaf :=
  eexists; split;
  [ rewrite <- ?app_assoc; reflexivity
  | split;
    [ rewrite ?in_app_iff; simpl; intuition (try discriminate; console_in)
    | let fn := fresh "fn" in let csv := fresh "csv" in let Hin := fresh "Hin" in
      intros fn csv Hin; rewrite ?in_app_iff in Hin; simpl in Hin;
      intuition (try discriminate; console_in) ] ].

(** What a run adds to the trace: never the status of a failed conversion,
    and a download only when it is justified. *)
Lemma run_outcomes e f s :
  exists evs,
    trace (snd (fetchAndDownload e f s)) = (trace s ++ evs)%list
    /\ ~ In (Status "Could not convert data to CSV." "error") evs
    /\ (forall filename csv,
          In (Download filename csv) evs ->
          download_justified e f (snd (fetchAndDownload e f s)) filename csv).
Proof.
  destruct (fields_present f) eqn:Hf.
  2:{ unfold fields_present in Hf. apply negb_false_iff in Hf.
      unfold fetchAndDownload. rewrite Hf. run_io. trace_leaf. }
  destruct (date_range (the_host e) (startDate_field f) (endDate_field f))
    as [[fromTimestamp toTimestamp]|] eqn:Hr.
  2:{ unfold fields_present in Hf. apply negb_true_iff in Hf.
      unfold fetchAndDownload. rewrite Hf, Hr. run_io. trace_leaf. }
  rewrite (fetchAndDownload_started e f s _ _ Hf Hr). run_io.
  destruct (fetch e (request f fromTimestamp toTimestamp)) as [rsp|x] eqn:Hfetch;
    [|run_io; trace_leaf].
  destruct (ok rsp) eqn:Hok; cbn [negb]; run_io.
  - destruct (json rsp) as [data|x] eqn:Hjson; run_io; [|trace_leaf].
    destruct (no_data data) as [[|]|x]; run_io; try trace_leaf.
    destruct (parseLiquidationData (the_host e) data) as [recs|x] eqn:Hparse;
      run_io; [|trace_leaf].
    destruct (Nat.eqb_spec (List.length recs) 0) as [Hlen|Hlen]; run_io;
      [trace_leaf|].
    assert (Hne : recs <> []) by (intros ->; now apply Hlen).
    destruct (convertToCSV (VArr recs [])) as [csv|x] eqn:Hcsv; run_io; [|trace_leaf].
    rewrite (flattened_text_not_empty _ _ Hne Hcsv). cbn [negb].
    destruct (download_supported e) eqn:Hsup; run_io; [|trace_leaf].
    eexists. split; [rewrite <- ?app_assoc; reflexivity|].
    split; [rewrite ?in_app_iff; simpl; intuition (try discriminate; console_in)|].
    intros filename csv' Hin. rewrite ?in_app_iff in Hin. simpl in Hin.
    assert (E : Download (download_name f) csv = Download filename csv').
    { intuition (try discriminate; console_in). }
    injection E as <- <-.
    exists fromTimestamp, toTimestamp, rsp, data, recs.
    repeat split; try assumption. eapply date_range_lt; eauto.
  - destruct (json rsp) as [d|x]; run_io; [|trace_leaf].
    destruct (get d "error") as [err|x]; run_io; [|trace_leaf].
    destruct (if truthy err then ToString err else Ok (statusText rsp));
      run_io; trace_leaf.
Qed.

(** X12: the handler lets no exception out. Whatever the form holds and
    whatever [fetch], [response.json()], the flattener or the serializer
    do, a run completes normally or by [return], never by a throw: every
    failure inside the [try] block ends in the status slot. *)
Theorem handler_never_throws (e : env) (f : form) (s : ui) (x : exn) :
  fst (fetchAndDownload e f s) <> Thrown x.
Proof.
  destruct (fields_present f) eqn:Hf.
  2:{ unfold fields_present in Hf. apply negb_false_iff in Hf.
      unfold fetchAndDownload. rewrite Hf. discriminate. }
  destruct (date_range (the_host e) (startDate_field f) (endDate_field f))
    as [[fromTimestamp toTimestamp]|] eqn:Hr.
  2:{ unfold fields_present in Hf. apply negb_true_iff in Hf.
      unfold fetchAndDownload. rewrite Hf, Hr. discriminate. }
  rewrite (fetchAndDownload_started e f s _ _ Hf Hr).
  apply try_catch_finally_completes.
Qed.

(** X13: a file is offered only for data. When a run adds a download to
    the trace, the request was answered with a readable body that the
    flattener turned into at least one record, the file holds the text of
    [convertToCSV] for these records under the name made from the form,
    and the run ends with the status of success. *)
Theorem download_only_when_justified (e : env) (f : form) (s : ui)
    (filename csv : string) :
  ~ In (Download filename csv) (trace s) ->
  In (Download filename csv) (trace (snd (fetchAndDownload e f s))) ->
  download_justified e f (snd (fetchAndDownload e f s)) filename csv.
Proof.
  intros Hold Hnew. destruct (run_outcomes e f s) as (evs & Hevs & _ & Hdl).
  rewrite Hevs in Hnew. apply in_app_iff in Hnew as [Hin|Hin]; [contradiction|].
  now apply Hdl.
Qed.

Lemma download_only_when_justified_witness :
  let e := answering {| ok := true; status_code := 200; statusText := "OK";
                        json := Ok one_item_body |} true in
  download_justified e one_day_form (snd (fetchAndDownload e one_day_form fresh_page))
    "coinalyze_liquidations_BTCUSD_PERP.A_1hour_2024-01-01_to_2024-01-01.csv"
    ("symbol,timestamp_iso,t,l" ++ String newline
     "BTCUSD_PERP.A,2023-11-14T22:13:20.000Z,1700000000000,100").
Proof.
  intros e. apply (download_only_when_justified e one_day_form fresh_page).
  - simpl. tauto.
  - vm_compute. do 3 right. left. reflexivity.
Defined.

(** X14: the status of a failed conversion is dead code. The text of the
    flattened records is never empty, so no run puts "Could not convert
    data to CSV." in the status slot. *)
Theorem conversion_failure_unreachable (e : env) (f : form) (s : ui) :
  ~ In (Status "Could not convert data to CSV." "error") (trace s) ->
  ~ In (Status "Could not convert data to CSV." "error")
      (trace (snd (fetchAndDownload e f s))).
Proof.
  intros Hold Hnew. destruct (run_outcomes e f s) as (evs & Hevs & Hconv & _).
  rewrite Hevs in Hnew. apply in_app_iff in Hnew as [Hin|Hin]; contradiction.
Qed.

Lemma conversion_failure_unreachable_witness :
  let e := answering {| ok := true; status_code := 200; statusText := "OK";
                        json := Ok one_item_body |} true in
  ~ In (Status "Could not convert data to CSV." "error")
      (trace (snd (fetchAndDownload e one_day_form fresh_page))).
Proof.
  intros e. apply (conversion_failure_unreachable e one_day_form fresh_page).
  simpl. tauto.
Defined.

Ltac page_eq := unfold page_after; rewrite <- ?app_assoc; reflexivity.

(** X15: a response outside 2xx is reported with the server's words when
    it has some. The status slot ends with [Error <status>: <error>] when
    the body is JSON with a truthy [error] field that has a string, with
    [Error <status>: <statusText>] when it is JSON without one, and with
    [HTTP error <status>: <statusText>] when the body cannot be read as
    JSON, is [null], or has an [error] without a string; nothing is
    downloaded and the control ends enabled. *)
Theorem http_error_reported (e : env) (f : form) (s : ui)
    (fromTimestamp toTimestamp : Z) (rsp : response) :
  fields_present f = true ->
  date_range (the_host e) (startDate_field f) (endDate_field f)
    = Some (fromTimestamp, toTimestamp) ->
  fetch e (request f fromTimestamp toTimestamp) = Ok rsp ->
  ok rsp = false ->
  let code := string_of_Z (status_code rsp) in
  let unread := "Error: HTTP error " ++ code ++ ": " ++ statusText rsp in
  let read detail := "Error: Error " ++ code ++ ": " ++ detail in
  let shown msg evs :=
    (Normal tt,
     page_after s
       ([SetDisabled true; Status (fetching_message f) "info"] ++ evs
        ++ [ConsoleError; Status msg "error"; SetDisabled false])
       (msg, "error")) in
  fetchAndDownload e f s
  = match json rsp with
    | Ok d =>
        if nullish d then shown unread [ConsoleError]
        else if truthy (own_get d "error") then
          match ToString (own_get d "error") with
          | Ok detail => shown (read detail) []
          | Throw _ => shown unread [ConsoleError]
          end
        else shown (read (statusText rsp)) []
    | Throw _ => shown unread [ConsoleError]
    end.
Proof.
  intros Hf Hr Hfetch Hok code unread read shown. subst shown read unread code.
  rewrite (fetchAndDownload_started e f s _ _ Hf Hr). run_io.
  rewrite Hfetch. run_io. rewrite Hok. cbn [negb]. run_io.
  destruct (json rsp) as [d|x]; run_io; [|f_equal; page_eq].
  unfold get. destruct (nullish d); run_io; [f_equal; page_eq|].
  destruct (truthy (own_get d "error")); [|run_io; f_equal; page_eq].
  destruct (ToString (own_get d "error")); run_io; f_equal; page_eq.
Qed.

Lemma http_error_reported_witness :
  status (snd (fetchAndDownload
                 (answering {| ok := false; status_code := 429;
                               statusText := "Too Many Requests";
                               json := Ok (VObj [("error", VStr "rate limited")]) |} true)
                 one_day_form fresh_page))
  = Some ("Error: Error 429: rate limited", "error").
Proof.
  rewrite (http_error_reported _ one_day_form fresh_page 1704067200 1704153599
             {| ok := false; status_code := 429; statusText := "Too Many Requests";
                json := Ok (VObj [("error", VStr "rate limited")]) |});
    reflexivity.
Defined.

(** X16: a request that fails, or an answer whose body cannot be read, is
    reported and nothing else happens: the status slot ends with [Error: ]
    and the message of the exception, the console gets one entry, nothing
    is downloaded, and the control ends enabled. *)
Theorem rejection_reported (e : env) (f : form) (s : ui)
    (fromTimestamp toTimestamp : Z) (x : exn) :
  fields_present f = true ->
  date_range (the_host e) (startDate_field f) (endDate_field f)
    = Some (fromTimestamp, toTimestamp) ->
  fetch e (request f fromTimestamp toTimestamp) = Throw x
  \/ (exists rsp, fetch e (request f fromTimestamp toTimestamp) = Ok rsp
                  /\ ok rsp = true /\ json rsp = Throw x) ->
  fetchAndDownload e f s
  = (Normal tt,
     page_after s
       [SetDisabled true; Status (fetching_message f) "info"; ConsoleError;
        Status ("Error: " ++ message_of e x) "error"; SetDisabled false]
       ("Error: " ++ message_of e x, "error")).
Proof.
  intros Hf Hr H. rewrite (fetchAndDownload_started e f s _ _ Hf Hr). run_io.
  destruct H as [Hfetch|(rsp & Hfetch & Hok & Hjson)]; rewrite Hfetch; run_io.
  - f_equal. page_eq.
  - rewrite Hok. cbn [negb]. run_io. rewrite Hjson. run_io. f_equal. page_eq.
Qed.

Lemma rejection_reported_witness :
  status (snd (fetchAndDownload
                 {| the_host := utc_host; fetch := fun _ => Throw TypeError;
                    download_supported := true;
                    builtin_message := fun _ => "Failed to fetch" |}
                 one_day_form fresh_page))
  = Some ("Error: Failed to fetch", "error").
Proof.
  rewrite (rejection_reported _ one_day_form fresh_page 1704067200 1704153599 TypeError);
    [reflexivity | reflexivity | reflexivity | left; reflexivity].
Defined.

(** X17: data is serialized and offered, and success is reported either
    way. For an answer whose body holds data and flattens into at least
    one record, when the serializer returns, the file with its text is
    offered under the name made from the form when the anchor supports
    downloads (an alert is shown when it does not), and in both cases the
    status slot ends with the number of records as downloaded; when the
    serializer throws, which it does only with a [TypeError] and never on
    records whose own properties have strings, the run ends with the
    error status and no file. The warnings of the flattener come after
    the status of processing. *)
Theorem data_downloaded (e : env) (f : form) (s : ui)
    (fromTimestamp toTimestamp : Z) (rsp : response) (data : value)
    (recs : list value) :
  fields_present f = true ->
  date_range (the_host e) (startDate_field f) (endDate_field f)
    = Some (fromTimestamp, toTimestamp) ->
  fetch e (request f fromTimestamp toTimestamp) = Ok rsp ->
  ok rsp = true ->
  json rsp = Ok data ->
  no_data data = Ok false ->
  parseLiquidationData (the_host e) data = Ok recs ->
  recs <> [] ->
  let begun :=
    ([SetDisabled true; Status (fetching_message f) "info";
      Status "Processing data..." "info"]
     ++ parseLiquidationData_console (the_host e) data)%list in
  fetchAndDownload e f s
  = match convertToCSV (VArr recs []) with
    | Ok csv =>
        (Normal tt,
         page_after s
           (begun
            ++ [(if download_supported e then Download (download_name f) csv
                 else Alert "CSV download is not supported in your browser.");
                Status (success_message recs) "success"; SetDisabled false])
           (success_message recs, "success"))
    | Throw x =>
        (Normal tt,
         page_after s
           (begun
            ++ [ConsoleError; Status ("Error: " ++ message_of e x) "error";
                SetDisabled false])
           ("Error: " ++ message_of e x, "error"))
    end
  /\ (Forall (fun r => cells_stringify r = true) recs ->
      exists csv, convertToCSV (VArr recs []) = Ok csv)
  /\ (forall x, convertToCSV (VArr recs []) = Throw x -> x = TypeError).
Proof.
  intros Hf Hr Hfetch Hok Hjson Hdata Hparse Hne begun. subst begun.
  split; [|split].
  - rewrite (fetchAndDownload_started e f s _ _ Hf Hr). run_io.
    rewrite Hfetch. run_io. rewrite Hok. cbn [negb]. run_io.
    rewrite Hjson. run_io. rewrite Hdata. run_io. rewrite Hparse. run_io.
    destruct (Nat.eqb_spec (List.length recs) 0) as [Hlen|_].
    { destruct recs; [contradiction | discriminate Hlen]. }
    run_io. destruct (convertToCSV (VArr recs [])) as [csv|x] eqn:Hcsv; run_io.
    + rewrite (flattened_text_not_empty _ _ Hne Hcsv). cbn [negb]. run_io.
      f_equal. page_eq.
    + f_equal. page_eq.
  - apply convertToCSV_total. eapply flattened_not_nullish; eauto.
  - intros x. apply convertToCSV_throws.
Qed.

Lemma data_downloaded_witness :
  let rsp := {| ok := true; status_code := 200; statusText := "OK";
                json := Ok one_item_body |} in
  fetchAndDownload (answering rsp false) one_day_form fresh_page
  = (Normal tt,
     page_after fresh_page
       [SetDisabled true; Status (fetching_message one_day_form) "info";
        Status "Processing data..." "info";
        Alert "CSV download is not supported in your browser.";
        Status "Successfully downloaded data for 1 records." "success";
        SetDisabled false]
       ("Successfully downloaded data for 1 records.", "success")).
Proof.
  intros rsp.
  refine (proj1 (data_downloaded (answering rsp false) one_day_form fresh_page
                   1704067200 1704153599 rsp one_item_body
                   [VObj [("t", VNum 1700000000000); ("l", VNum 100);
                          ("symbol", VStr "BTCUSD_PERP.A");
                          ("timestamp_iso", VStr "2023-11-14T22:13:20.000Z")]]
                   eq_refl eq_refl eq_refl eq_refl eq_refl eq_refl eq_refl _)).
  discriminate.
Defined.

(** ** Nothing to download *)

Lemma every_without_history_items l :
  every_without_history l = Ok true -> history_items l = [].
Proof.
  induction l as [|item rest IH]; [reflexivity|]. cbn [every_without_history].
  unfold get. destruct (nullish item) eqn:Hn; [discriminate|]. cbn [bind].
  intros H. unfold history_items. cbn [flat_map]. fold (history_items rest).
  destruct (negb (truthy (own_get item "history"))
            || match own_get (own_get item "history") "length" with
               | VNum 0 => true
               | _ => false
               end) eqn:E; [|discriminate H].
  rewrite (IH H), app_nil_r.
  unfold well_shaped. destruct (own_get item "history") as [| | | | |its ex| | |] eqn:Eh;
    cbn [isArray]; rewrite ?andb_false_r; try reflexivity.
  destruct (truthy item && truthy (own_get item "symbol")); [|reflexivity].
  cbn [andb items_of]. destruct its as [|x its]; [reflexivity|]. discriminate E.
Qed.

(** X18: the "no data" test agrees with the flattener. Whenever the test
    of the handler finds no data in a body, the flattener would return no
    record for it (and would not throw). *)
Theorem no_data_means_no_records (h : host) (data : value) :
  no_data data = Ok true -> parseLiquidationData h data = Ok [].
Proof.
  unfold no_data. intros H. destruct (isArray data) eqn:Ea.
  2:{ now apply parseLiquidationData_not_array. }
  destruct data as [| | | | |items extra| | |]; try discriminate Ea.
  rewrite parseLiquidationData_items. cbn [truthy negb isArray items_of andb] in H.
  destruct (Nat.eqb_spec (List.length items) 0) as [Hl|_].
  - destruct items; [reflexivity | discriminate Hl].
  - now rewrite (every_without_history_items items H).
Qed.

Lemma no_data_means_no_records_witness :
  parseLiquidationData utc_host
    (VArr [VObj [("symbol", VStr "ETHUSD"); ("history", VArr [] [])];
           VObj [("symbol", VStr "BTCUSD")]] []) = Ok [].
Proof.
  apply (no_data_means_no_records utc_host). reflexivity.
Defined.

(** X19: an answer without usable data ends in an informational status and
    no file. When the test finds no data the slot says so and the run
    completes; when the test finds data but the flattener returns no
    record, the console has the lines of the flattener (a warning for
    every entry it skipped, an error for a body that is not an array), the
    slot says that no valid history was found and the handler returns at
    once. *)
Theorem nothing_to_download (e : env) (f : form) (s : ui)
    (fromTimestamp toTimestamp : Z) (rsp : response) (data : value) :
  fields_present f = true ->
  date_range (the_host e) (startDate_field f) (endDate_field f)
    = Some (fromTimestamp, toTimestamp) ->
  fetch e (request f fromTimestamp toTimestamp) = Ok rsp ->
  ok rsp = true ->
  json rsp = Ok data ->
  (no_data data = Ok true ->
   fetchAndDownload e f s
   = (Normal tt,
      page_after s
        [SetDisabled true; Status (fetching_message f) "info";
         Status "No liquidation data found for the specified parameters." "info";
         SetDisabled false]
        ("No liquidation data found for the specified parameters.", "info")))
  /\ (no_data data = Ok false ->
      parseLiquidationData (the_host e) data = Ok [] ->
      fetchAndDownload e f s
      = (Returned,
         page_after s
           ([SetDisabled true; Status (fetching_message f) "info";
             Status "Processing data..." "info"]
            ++ parseLiquidationData_console (the_host e) data
            ++ [Status "No valid history data found after parsing." "info";
                SetDisabled false])
           ("No valid history data found after parsing.", "info")))
  /\ (truthy data = true -> isArray data = false ->
      fetchAndDownload e f s
      = (Returned,
         page_after s
           [SetDisabled true; Status (fetching_message f) "info";
            Status "Processing data..." "info"; ConsoleError;
            Status "No valid history data found after parsing." "info";
            SetDisabled false]
           ("No valid history data found after parsing.", "info"))).
Proof.
  intros Hf Hr Hfetch Hok Hjson.
  rewrite (fetchAndDownload_started e f s _ _ Hf Hr). run_io.
  rewrite Hfetch. run_io. rewrite Hok. cbn [negb]. run_io. rewrite Hjson. run_io.
  split; [|split].
  - intros Hd. rewrite Hd. run_io. f_equal. page_eq.
  - intros Hd Hp. rewrite Hd. run_io. rewrite Hp. run_io.
    cbn [List.length Nat.eqb]. run_io. f_equal. page_eq.
  - intros Ht Ha. unfold no_data, parseLiquidationData_console, parseLiquidationData.
    rewrite Ht, Ha. cbn [negb andb orb]. run_io.
    cbn [List.length Nat.eqb]. run_io. f_equal. page_eq.
Qed.

Lemma nothing_to_download_witness :
  let rsp := {| ok := true; status_code := 200; statusText := "OK";
                json := Ok (VArr [VObj [("history", VArr [VObj [("l", VNum 1)]] [])]] []) |} in
  let refused := {| ok := true; status_code := 200; statusText := "OK";
                    json := Ok (VObj [("message", VStr "no such symbol")]) |} in
  fetchAndDownload (answering rsp true) one_day_form fresh_page
  = (Returned,
     page_after fresh_page
       [SetDisabled true; Status (fetching_message one_day_form) "info";
        Status "Processing data..." "info"; ConsoleWarn;
        Status "No valid history data found after parsing." "info";
        SetDisabled false]
       ("No valid history data found after parsing.", "info"))
  /\ fetchAndDownload (answering refused true) one_day_form fresh_page
     = (Returned,
        page_after fresh_page
          [SetDisabled true; Status (fetching_message one_day_form) "info";
           Status "Processing data..." "info"; ConsoleError;
           Status "No valid history data found after parsing." "info";
           SetDisabled false]
          ("No valid history data found after parsing.", "info")).
Proof.
  intros rsp refused. split.
  - apply (proj1 (proj2 (nothing_to_download (answering rsp true) one_day_form fresh_page
                    1704067200 1704153599 rsp
                    (VArr [VObj [("history", VArr [VObj [("l", VNum 1)]] [])]] [])
                    eq_refl eq_refl eq_refl eq_refl eq_refl)));
      reflexivity.
  - apply (proj2 (proj2 (nothing_to_download (answering refused true) one_day_form
                    fresh_page 1704067200 1704153599 refused
                    (VObj [("message", VStr "no such symbol")])
                    eq_refl eq_refl eq_refl eq_refl eq_refl)));
      reflexivity.
Defined.

(** ** The query *)

Lemma is_empty_false s : is_empty s = false -> s <> "".
Proof. unfold is_empty. intros H ->. discriminate H. Qed.

Lemma request_valid f fromTimestamp toTimestamp :
  fields_present f = true -> fromTimestamp < toTimestamp ->
  valid_query (request f fromTimestamp toTimestamp).
Proof.
  intros Hf Hlt. unfold fields_present in Hf. apply negb_true_iff in Hf.
  apply orb_false_iff in Hf as [Hf _]. apply orb_false_iff in Hf as [Hf _].
  apply orb_false_iff in Hf as [Hk Hs].
  exists (trim (apiKey_field f)), (trim (symbols_field f)), (interval_field f),
    fromTimestamp, toTimestamp, (if convertToUsd_checked f then "true" else "false").
  repeat split; auto using is_empty_false, trim_trimmed.
  destruct (convertToUsd_checked f); auto.
Qed.

(** X20: the handler asks the network only well-formed questions. A run
    depends on [fetch] only through its answer to a query whose key and
    symbols are non-empty and trimmed, whose [from] is below its [to], and
    whose flag is [true] or [false]: two surroundings that agree on such
    queries (and on everything else) give the same run. *)
Theorem fetch_only_valid_queries (e1 e2 : env) (f : form) (s : ui) :
  the_host e1 = the_host e2 ->
  download_supported e1 = download_supported e2 ->
  builtin_message e1 = builtin_message e2 ->
  (forall p, valid_query p -> fetch e1 p = fetch e2 p) ->
  fetchAndDownload e1 f s = fetchAndDownload e2 f s.
Proof.
  destruct e1 as [h1 f1 d1 b1], e2 as [h2 f2 d2 b2]. cbn [the_host download_supported
    builtin_message fetch]. intros <- <- <- Hfetch.
  destruct (fields_present f) eqn:Hf.
  2:{ unfold fields_present in Hf. apply negb_false_iff in Hf.
      unfold fetchAndDownload. now rewrite Hf. }
  unfold fetchAndDownload. cbn [the_host].
  destruct (date_range h1 (startDate_field f) (endDate_field f))
    as [[fromTimestamp toTimestamp]|] eqn:Hr; [|reflexivity].
  pose proof (Hfetch _ (request_valid f _ _ Hf (date_range_lt _ _ _ _ _ Hr))) as E.
  unfold request in E. unfold fetch_body, message_of, downloadCSV.
  cbn [the_host download_supported builtin_message fetch]. rewrite E.
  destruct (is_empty (trim (apiKey_field f)) || is_empty (trim (symbols_field f))
            || is_empty (startDate_field f) || is_empty (endDate_field f));
    reflexivity.
Qed.

Lemma fetch_only_valid_queries_witness :
  let rsp := {| ok := true; status_code := 200; statusText := "OK";
                json := Ok one_item_body |} in
  let picky := {| the_host := utc_host;
                  fetch := fun p =>
                    match p with
                    | [(_, key); _; _; _; _; _] =>
                        if String.eqb key "" then Throw TypeError else Ok rsp
                    | _ => Throw TypeError
                    end;
                  download_supported := true;
                  builtin_message := fun _ => "(engine message)" |} in
  fetchAndDownload picky one_day_form fresh_page
  = fetchAndDownload (answering rsp true) one_day_form fresh_page.
Proof.
  intros rsp picky.
  apply (fetch_only_valid_queries picky (answering rsp true) one_day_form fresh_page);
    try reflexivity.
  intros p (key & symbols & interval & a & b & usd & -> & Hkey & _).
  cbn [fetch picky answering]. destruct (String.eqb_spec key ""); [contradiction|reflexivity].
Defined.

(** ** The range check *)

Lemma date_range_later_start h y1 m1 d1 y2 m2 d2 :
  0 <= y1 <= 9999 -> 1 <= m1 <= 12 -> 1 <= d1 <= days_in_month y1 m1 ->
  0 <= y2 <= 9999 -> 1 <= m2 <= 12 -> 1 <= d2 <= days_in_month y2 m2 ->
  days_from_civil y2 m2 d2 < days_from_civil y1 m1 d1 ->
  LocalTZA h (days_from_civil y1 m1 d1 * msPerDay)
    <= LocalTZA h (days_from_civil y2 m2 d2 * msPerDay + 86399999) ->
  date_range h (iso_date y1 m1 d1) (iso_date y2 m2 d2) = None.
Proof.
  intros Hy1 Hm1 Hd1' Hy2 Hm2 Hd2' Hlater Hoff.
  assert (Hd1 : 1 <= d1 <= 31) by (pose proof (days_in_month_le y1 m1); lia).
  assert (Hd2 : 1 <= d2 <= 31) by (pose proof (days_in_month_le y2 m2); lia).
  unfold date_range, epoch_seconds.
  change ("T00:00:00") with (String "T" "00:00:00").
  change ("T23:59:59.999") with (String "T" "23:59:59.999").
  rewrite (Date_parse_local h y1 m1 d1 "00:00:00" 0) by (assumption || reflexivity).
  rewrite (Date_parse_local h y2 m2 d2 "23:59:59.999" 86399999)
    by (assumption || reflexivity).
  cbv zeta. rewrite Z.add_0_r.
  set (a := days_from_civil y1 m1 d1 * msPerDay) in *.
  set (b := days_from_civil y2 m2 d2 * msPerDay + 86399999) in *.
  assert (Hab : b < a) by (subst a b; unfold msPerDay; lia).
  unfold TimeClip.
  destruct (Z.abs (a - LocalTZA h a) <=? maxTime); [|reflexivity].
  destruct (Z.abs (b - LocalTZA h b) <=? maxTime); [|reflexivity].
  cbn [option_map].
  destruct (Z.geb_spec ((a - LocalTZA h a) / 1000) ((b - LocalTZA h b) / 1000)) as [_|Hlt];
    [reflexivity|].
  exfalso. zdiv.
Qed.

(** X21: a start date after the end date is turned down. For two calendar
    days of four-digit years, the start later than the end, on a host
    whose local offset at the start's midnight does not exceed the one at
    the end of the end day, the handler shows "Invalid date range
    selected." and returns, the fetch control left as it was. *)
Theorem later_start_rejected (e : env) (f : form) (s : ui)
    (y1 m1 d1 y2 m2 d2 : Z) :
  fields_present f = true ->
  startDate_field f = iso_date y1 m1 d1 ->
  endDate_field f = iso_date y2 m2 d2 ->
  0 <= y1 <= 9999 -> 1 <= m1 <= 12 -> 1 <= d1 <= days_in_month y1 m1 ->
  0 <= y2 <= 9999 -> 1 <= m2 <= 12 -> 1 <= d2 <= days_in_month y2 m2 ->
  days_from_civil y2 m2 d2 < days_from_civil y1 m1 d1 ->
  LocalTZA (the_host e) (days_from_civil y1 m1 d1 * msPerDay)
    <= LocalTZA (the_host e) (days_from_civil y2 m2 d2 * msPerDay + 86399999) ->
  fetchAndDownload e f s
  = (Returned,
     {| disabled := disabled s;
        status := Some ("Invalid date range selected.", "error");
        trace := (trace s ++ [Status "Invalid date range selected." "error"])%list |}).
Proof.
  intros Hf Hs He Hy1 Hm1 Hd1 Hy2 Hm2 Hd2 Hlater Hoff.
  unfold fields_present in Hf. apply negb_true_iff in Hf.
  unfold fetchAndDownload. rewrite Hf, Hs, He.
  now rewrite (date_range_later_start (the_host e) y1 m1 d1 y2 m2 d2).
Qed.

Lemma later_start_rejected_witness :
  let f := {| apiKey_field := "key"; symbols_field := "BTCUSD_PERP.A";
              interval_field := "1hour"; startDate_field := "2024-03-01";
              endDate_field := "2024-02-29"; convertToUsd_checked := false |} in
  fetchAndDownload
    (answering {| ok := true; status_code := 200; statusText := "OK";
                  json := Ok one_item_body |} true) f fresh_page
  = (Returned,
     {| disabled := false;
        status := Some ("Invalid date range selected.", "error");
        trace := [Status "Invalid date range selected." "error"] |}).
Proof.
  intros f.
  apply (later_start_rejected _ f fresh_page 2024 3 1 2024 2 29);
    try reflexivity; try lia.
  - change (days_in_month 2024 3) with 31. lia.
  - change (days_in_month 2024 2) with 29. lia.
Defined.

(** X24: a body the handler cannot work through is reported as an error,
    not as missing data. When the "no data" test throws (an item of the
    array is [null]), or when the flattener throws on a body that holds
    data (a [null] history item, a [t] that gives no valid date), the
    status slot ends with [Error: ] and the message of the exception,
    nothing is downloaded, and the control ends enabled; the warnings the
    flattener wrote before it threw are on the console. *)
Theorem processing_failure_reported (e : env) (f : form) (s : ui)
    (fromTimestamp toTimestamp : Z) (rsp : response) (data : value) (x : exn) :
  fields_present f = true ->
  date_range (the_host e) (startDate_field f) (endDate_field f)
    = Some (fromTimestamp, toTimestamp) ->
  fetch e (request f fromTimestamp toTimestamp) = Ok rsp ->
  ok rsp = true ->
  json rsp = Ok data ->
  (no_data data = Throw x ->
   fetchAndDownload e f s
   = (Normal tt,
      page_after s
        [SetDisabled true; Status (fetching_message f) "info"; ConsoleError;
         Status ("Error: " ++ message_of e x) "error"; SetDisabled false]
        ("Error: " ++ message_of e x, "error")))
  /\ (no_data data = Ok false ->
      parseLiquidationData (the_host e) data = Throw x ->
      fetchAndDownload e f s
      = (Normal tt,
         page_after s
           ([SetDisabled true; Status (fetching_message f) "info";
             Status "Processing data..." "info"]
            ++ parseLiquidationData_console (the_host e) data
            ++ [ConsoleError;
                Status ("Error: " ++ message_of e x) "error"; SetDisabled false])
           ("Error: " ++ message_of e x, "error"))).
Proof.
  intros Hf Hr Hfetch Hok Hjson.
  rewrite (fetchAndDownload_started e f s _ _ Hf Hr). run_io.
  rewrite Hfetch. run_io. rewrite Hok. cbn [negb]. run_io. rewrite Hjson. run_io.
  split.
  - intros Hd. rewrite Hd. run_io. f_equal. page_eq.
  - intros Hd Hp. rewrite Hd. run_io. rewrite Hp. run_io. f_equal. page_eq.
Qed.

Lemma processing_failure_reported_witness :
  let body := VArr [VObj [("symbol", VStr "BTCUSD_PERP.A");
                          ("history", VArr [VNull] [])]] [] in
  let rsp := {| ok := true; status_code := 200; statusText := "OK"; json := Ok body |} in
  status (snd (fetchAndDownload (answering rsp true) one_day_form fresh_page))
  = Some ("Error: (engine message)", "error").
Proof.
  intros body rsp.
  rewrite (proj2 (processing_failure_reported (answering rsp true) one_day_form
                    fresh_page 1704067200 1704153599 rsp body TypeError
                    eq_refl eq_refl eq_refl eq_refl eq_refl) eq_refl eq_refl).
  reflexivity.
Defined.

(* ================================================================== *)
(** * The default dates *)

Lemma split_head_app sep s1 s2 :
  all_chars (fun c => negb (Ascii.eqb c sep)) s1 = true ->
  split_head sep (s1 ++ String sep s2) = s1.
Proof.
  induction s1 as [|c s1 IH]; simpl.
  - now rewrite Ascii.eqb_refl.
  - intros H. apply andb_prop in H as [Hc Hs]. apply negb_true_iff in Hc.
    now rewrite Hc, IH.
Qed.

Lemma all_chars_app p s1 s2 :
  all_chars p s1 = true -> all_chars p s2 = true -> all_chars p (s1 ++ s2) = true.
Proof.
  induction s1 as [|c s1 IH]; simpl; [auto|]. intros H H2.
  apply andb_prop in H as [Hc Hs]. now rewrite Hc, IH.
Qed.

Lemma digit_char_not_T d : 0 <= d < 10 -> negb (Ascii.eqb (digit_char d) "T") = true.
Proof.
  intros H.
  assert (E : d = 0 \/ d = 1 \/ d = 2 \/ d = 3 \/ d = 4 \/ d = 5 \/ d = 6 \/ d = 7
              \/ d = 8 \/ d = 9) by lia.
  repeat (destruct E as [-> | E]; [reflexivity|]). now subst.
Qed.

Lemma pad_digits_not_T k : forall n,
  all_chars (fun c => negb (Ascii.eqb c "T")) (pad_digits k n) = true.
Proof.
  induction k as [|k IH]; intros n; [reflexivity|]. cbn [pad_digits].
  apply all_chars_app; [apply IH|]. cbn [all_chars].
  rewrite digit_char_not_T by (apply Z.mod_pos_bound; lia). reflexivity.
Qed.

Lemma iso_date_not_T y m d :
  all_chars (fun c => negb (Ascii.eqb c "T")) (iso_date y m d) = true.
Proof.
  unfold iso_date. apply all_chars_app.
  - unfold iso_year. destruct ((0 <=? y) && (y <=? 9999)); [apply pad_digits_not_T|].
    cbn [all_chars]. rewrite pad_digits_not_T. now destruct (y <? 0).
  - cbn [append all_chars]. apply all_chars_app; [apply pad_digits_not_T|].
    cbn [append all_chars]. apply pad_digits_not_T.
Qed.

(** The date part of what [toISOString] gives. *)
Lemma formatDate_utc_date t : formatDate (Some t) = Ok (utc_date t).
Proof.
  unfold formatDate. cbn [toISOString bind]. unfold utc_date, format_iso.
  destruct (civil_from_days (t / msPerDay)) as [[y m] d].
  f_equal. apply split_head_app. apply iso_date_not_T.
Qed.

(** The start one week back, on a steady offset and with both readings
    in one local day. *)
Lemma setDate_week_before h c o :
  utc_offset c (now_end c) = o -> utc_offset c (now_start c) = o ->
  LocalTZA h (now_start c + o - 7 * msPerDay) = o ->
  (now_end c + o) / msPerDay = (now_start c + o) / msPerDay ->
  Z.abs (now_start c - 7 * msPerDay) <= maxTime ->
  setDate h c (now_start c) (getDate c (now_end c) - 7)
  = Some (now_start c - 7 * msPerDay).
Proof.
  intros Ho1 Ho2 Ho3 Hday Hrange. unfold setDate, getDate, LocalTime.
  rewrite Ho1, Ho2, Hday.
  destruct (civil_from_days ((now_start c + o) / msPerDay)) as [[y m] d] eqn:E.
  destruct (civil_from_days_spec _ _ _ _ E) as (_ & _ & Hd).
  assert (Hnew : (days_from_civil y m 1 + (d - 7) - 1) * msPerDay
                 + (now_start c + o) mod msPerDay
                 = now_start c + o - 7 * msPerDay).
  { pose proof (days_from_civil_day y m d) as Hdd. rewrite Hd in Hdd.
    replace (days_from_civil y m 1 + (d - 7) - 1)
      with ((now_start c + o) / msPerDay - 7) by lia.
    unfold msPerDay. zdiv. }
  rewrite Hnew, Ho3. unfold TimeClip.
  replace (now_start c + o - 7 * msPerDay - o) with (now_start c - 7 * msPerDay) by lia.
  destruct (Z.leb_spec (Z.abs (now_start c - 7 * msPerDay)) maxTime); [reflexivity | lia].
Qed.

(** X22: the default range is the last seven days, in UTC dates. The end
    field always gets the UTC calendar date of the first reading of the
    clock. On a host whose offset is steady over the week, with both
    readings in the same local day, the start field gets the UTC date of
    the instant seven days before the second reading, which lies exactly
    seven UTC days earlier; no other field changes. *)
Theorem default_dates_week (h : host) (c : clock) (f : form) (o : Z) :
  endDate_field (fst (setDefaultDates h c f)) = utc_date (now_end c)
  /\ (utc_offset c (now_end c) = o -> utc_offset c (now_start c) = o ->
      LocalTZA h (now_start c + o - 7 * msPerDay) = o ->
      (now_end c + o) / msPerDay = (now_start c + o) / msPerDay ->
      Z.abs (now_start c - 7 * msPerDay) <= maxTime ->
      setDefaultDates h c f
      = ({| apiKey_field := apiKey_field f; symbols_field := symbols_field f;
            interval_field := interval_field f;
            startDate_field := utc_date (now_start c - 7 * msPerDay);
            endDate_field := utc_date (now_end c);
            convertToUsd_checked := convertToUsd_checked f |}, Ok tt)
      /\ (now_start c - 7 * msPerDay) / msPerDay = now_start c / msPerDay - 7).
Proof.
  unfold setDefaultDates. rewrite formatDate_utc_date. split.
  - destruct (formatDate _); reflexivity.
  - intros Ho1 Ho2 Ho3 Hday Hrange.
    rewrite (setDate_week_before h c o) by assumption.
    rewrite formatDate_utc_date. split; [reflexivity|]. unfold msPerDay. zdiv.
Qed.

Lemma default_dates_week_witness :
  let c := {| now_end := 1709251200000; now_start := 1709251200003;
              utc_offset := fun _ => 3600000 |} in
  let h := {| legacy_parse := fun _ => None; LocalTZA := fun _ => 3600000 |} in
  setDefaultDates h c one_day_form
  = ({| apiKey_field := " key "; symbols_field := "BTCUSD_PERP.A";
        interval_field := "1hour"; startDate_field := "2024-02-23";
        endDate_field := "2024-03-01"; convertToUsd_checked := false |}, Ok tt).
Proof.
  intros c h.
  apply (proj1 (proj2 (default_dates_week h c one_day_form 3600000)
                  eq_refl eq_refl eq_refl eq_refl
                  ltac:(vm_compute; discriminate))).
Defined.

Lemma civil_year_four_digits z y m d :
  civil_from_days z = (y, m, d) -> -719528 <= z <= 2932896 -> 0 <= y <= 9999.
Proof.
  intros E Hz. destruct (civil_from_days_spec _ _ _ _ E) as (Hm & Hd & Hday).
  revert Hday. unfold days_from_civil.
  destruct (Z.leb_spec m 2), (Z.gtb_spec m 2); try lia; intros Hday; zdiv.
Qed.

(** The range check on two UTC dates some days apart. *)
Lemma date_range_utc_dates h ts te gap :
  -62167219200000 <= ts -> te <= 253402300799999 ->
  0 <= gap -> ts / msPerDay + gap <= te / msPerDay ->
  Z.abs (LocalTZA h (ts / msPerDay * msPerDay)) <= msPerDay ->
  Z.abs (LocalTZA h (te / msPerDay * msPerDay + 86399999)) <= msPerDay ->
  LocalTZA h (te / msPerDay * msPerDay + 86399999)
    - LocalTZA h (ts / msPerDay * msPerDay) <= 86398999 + gap * msPerDay ->
  exists fromTimestamp toTimestamp,
    date_range h (utc_date ts) (utc_date te) = Some (fromTimestamp, toTimestamp)
    /\ fromTimestamp < toTimestamp.
Proof.
  intros Hs He Hgap Hse Ho1 Ho2 Hjump. unfold utc_date.
  assert (Hds : -719528 <= ts / msPerDay <= 2932896) by (unfold msPerDay in *; zdiv).
  assert (Hde : -719528 <= te / msPerDay <= 2932896) by (unfold msPerDay in *; zdiv).
  destruct (civil_from_days (ts / msPerDay)) as [[y1 m1] d1] eqn:E1.
  destruct (civil_from_days (te / msPerDay)) as [[y2 m2] d2] eqn:E2.
  destruct (civil_from_days_spec _ _ _ _ E1) as (Hm1 & Hd1 & Hday1).
  destruct (civil_from_days_spec _ _ _ _ E2) as (Hm2 & Hd2 & Hday2).
  pose proof (civil_year_four_digits _ _ _ _ E1 Hds) as Hy1.
  pose proof (civil_year_four_digits _ _ _ _ E2 Hde) as Hy2.
  unfold date_range, epoch_seconds.
  change ("T00:00:00") with (String "T" "00:00:00").
  change ("T23:59:59.999") with (String "T" "23:59:59.999").
  rewrite (Date_parse_local h y1 m1 d1 "00:00:00" 0) by (assumption || reflexivity).
  rewrite (Date_parse_local h y2 m2 d2 "23:59:59.999" 86399999)
    by (assumption || reflexivity).
  cbv zeta. rewrite Z.add_0_r, Hday1, Hday2.
  set (a := ts / msPerDay * msPerDay) in *.
  set (b := te / msPerDay * msPerDay + 86399999) in *.
  assert (Hab : a + 86399999 + gap * msPerDay <= b)
    by (subst a b; unfold msPerDay in *; lia).
  assert (Ha : -62167219200000 <= a <= 253402300799999)
    by (subst a; unfold msPerDay in *; lia).
  assert (Hb : -62167219200000 <= b <= 253402300799999)
    by (subst b; unfold msPerDay in *; lia).
  unfold TimeClip, maxTime, msPerDay in *.
  destruct (Z.leb_spec (Z.abs (a - LocalTZA h a)) 8640000000000000); [|lia].
  destruct (Z.leb_spec (Z.abs (b - LocalTZA h b)) 8640000000000000); [|lia].
  cbn [option_map].
  assert (Hlt : (a - LocalTZA h a) / 1000 < (b - LocalTZA h b) / 1000) by zdiv.
  destruct (Z.geb_spec ((a - LocalTZA h a) / 1000) ((b - LocalTZA h b) / 1000)); [lia|].
  do 2 eexists. split; [reflexivity | exact Hlt].
Qed.

(** X23: the default dates pass the range check of the handler. Under
    the conditions of the week-long default (steady offset, both readings
    in one local day), for readings within the years 0000 to 9999 and a
    local offset that stays within a day, the two fields that
    [setDefaultDates] fills in give [fetchAndDownload] a range with
    [from] below [to]. *)
Theorem default_dates_valid_range (h : host) (c : clock) (f : form) (o : Z) :
  utc_offset c (now_end c) = o -> utc_offset c (now_start c) = o ->
  LocalTZA h (now_start c + o - 7 * msPerDay) = o ->
  (now_end c + o) / msPerDay = (now_start c + o) / msPerDay ->
  -62167219200000 <= now_start c - 7 * msPerDay ->
  now_start c <= 253402300799999 -> now_end c <= 253402300799999 ->
  (forall t, Z.abs (LocalTZA h t) <= 3600000 * 14) ->
  let f' := fst (setDefaultDates h c f) in
  exists fromTimestamp toTimestamp,
    date_range h (startDate_field f') (endDate_field f')
      = Some (fromTimestamp, toTimestamp)
    /\ fromTimestamp < toTimestamp.
Proof.
  intros Ho1 Ho2 Ho3 Hday Hlow Hhigh1 Hhigh2 Hoff f'. subst f'.
  assert (Hrange : Z.abs (now_start c - 7 * msPerDay) <= maxTime)
    by (unfold maxTime, msPerDay in *; lia).
  unfold setDefaultDates.
  rewrite formatDate_utc_date, (setDate_week_before h c o) by assumption.
  rewrite formatDate_utc_date.
  cbn [fst with_startDate with_endDate startDate_field endDate_field].
  assert (Hweek : (now_start c - 7 * msPerDay) / msPerDay = now_start c / msPerDay - 7)
    by (unfold msPerDay; zdiv).
  apply (date_range_utc_dates h _ _ 6); try assumption; try lia.
  - rewrite Hweek. unfold msPerDay in *. zdiv.
  - pose proof (Hoff ((now_start c - 7 * msPerDay) / msPerDay * msPerDay)).
    unfold msPerDay in *. lia.
  - pose proof (Hoff (now_end c / msPerDay * msPerDay + 86399999)).
    unfold msPerDay in *. lia.
  - pose proof (Hoff ((now_start c - 7 * msPerDay) / msPerDay * msPerDay)).
    pose proof (Hoff (now_end c / msPerDay * msPerDay + 86399999)).
    unfold msPerDay in *. lia.
Qed.

Lemma default_dates_valid_range_witness :
  let c := {| now_end := 1709251200000; now_start := 1709251200003;
              utc_offset := fun _ => 3600000 |} in
  let h := {| legacy_parse := fun _ => None; LocalTZA := fun _ => 3600000 |} in
  exists fromTimestamp toTimestamp,
    date_range h "2024-02-23" "2024-03-01" = Some (fromTimestamp, toTimestamp)
    /\ fromTimestamp < toTimestamp.
Proof.
  intros c h.
  apply (default_dates_valid_range h c one_day_form 3600000);
    try reflexivity; try (vm_compute; discriminate).
Defined.
